(** * CS532 crypto-trades pipeline: retrieval engine and streaming producer

    A shallow embedding of
      - [src/api/data_loader.py]  (class [DataLoader]: partition index and
        retrieval engine),
      - [src/api/routes/ohlc.py]  (the [get_ohlc] endpoint),
      - [src/producer/binance_producer.py] (class [BinanceProducer]:
        [connect_kafka], [on_message], [send_to_kafka]),
    followed by the properties proved about them; then, in Parts V.a to
    V.g and IX to XIII, of
      - the listings [get_available_symbols] and [get_available_dates] and
        the date filter of [_find_parquet_files] of the loader,
      - [get_latest_ohlc], [src/api/routes/volatility.py] and
        [src/api/routes/visualizations.py],
      - the loop of [BinanceProducer.start],
    with their properties.

    Conventions of the embedding.
      - A Python [str] is a [string] (a sequence of 8-bit characters, compared
        character by character as Python compares code points).
      - [Optional[T]] is [option T]; Python truthiness is written out where
        the code relies on it ([if symbol:], [if limit:]).
      - A raised exception is the [Raise] branch of [result]; only subclasses
        of Python's [Exception] are modelled, so [except Exception] catches
        everything a modelled computation can raise.
      - Library calls whose code is not part of the repository (the file
        system, [pandas.DataFrame.sort_values], [json.loads], [float],
        the Kafka client, the clock) are interfaces: type classes whose
        fields are the calls and, where the library documents one, their
        contract.  The theorems hold for every implementation of these
        interfaces; Part V gives implementations to run the code on
        concrete inputs, and Part II the quicksort that numpy runs for
        [sort_values].
      - A frame that [pd.read_parquet] returns has the columns the code
        reads ([timestamp], [symbol] and the value columns).  On a frame
        without them the code raises [KeyError] outside its [try]; such
        frames are not modelled, and the properties of the endpoints are
        stated for the answers they give. *)

From Stdlib Require Import ZArith List Ascii String Bool Lia.
From Stdlib Require Import Permutation Sorted.
From Stdlib Require Import Floats Uint63.
From Stdlib Require OrdersEx.
Import ListNotations.

Local Open Scope string_scope.
Local Open Scope list_scope.
Local Open Scope Z_scope.

(* ================================================================== *)
(** * Part I. Python values, exceptions and string operations         *)
(* ================================================================== *)

Module Py.

(** Exceptions (all of them subclasses of [Exception]). *)
Inductive exn : Type :=
| KeyError (key : string)
| IndexError
| TypeError
| ValueError
| AttributeError
| ZeroDivisionError
| OverflowError
| JSONDecodeError
| KafkaError
| OSError.

(** The outcome of a call that may raise. *)
Inductive result (A : Type) : Type :=
| Ok (a : A)
| Raise (e : exn).
Arguments Ok {A} a.
Arguments Raise {A} e.

Definition bind {A B : Type} (m : result A) (k : A -> result B) : result B :=
  match m with
  | Ok a => k a
  | Raise e => Raise e
  end.

(** Truthiness of an [Optional[str]]: [None] and [''] are falsy. *)
Definition truthy_str (o : option string) : bool :=
  match o with
  | Some s => negb (s =? "")%string
  | None => false
  end.

(** Truthiness of an [Optional[int]]: [None] and [0] are falsy. *)
Definition truthy_int (o : option Z) : bool :=
  match o with
  | Some n => negb (n =? 0)
  | None => false
  end.

(** [sub in s] on strings. *)
Fixpoint str_contains (sub s : string) : bool :=
  String.prefix sub s
  || match s with
     | EmptyString => false
     | String _ s' => str_contains sub s'
     end.

(** [s.startswith(p)]. *)
Definition startswith (s p : string) : bool := String.prefix p s.

(** [s.split(sep)] for a one-character separator. *)
Fixpoint str_split (sep : ascii) (s : string) : list string :=
  match s with
  | EmptyString => [EmptyString]
  | String c s' =>
      if Ascii.eqb c sep then EmptyString :: str_split sep s'
      else match str_split sep s' with
           | [] => [String c EmptyString]
           | w :: ws => String c w :: ws
           end
  end.

(** [l[i]] on a list: [IndexError] out of range ([i] non-negative here). *)
Definition list_getitem {A : Type} (l : list A) (i : nat) : result A :=
  match nth_error l i with
  | Some a => Ok a
  | None => Raise IndexError
  end.

(** [c.isdigit()] for an ASCII character. *)
Definition is_digit (c : ascii) : bool :=
  (48 <=? nat_of_ascii c)%nat && (nat_of_ascii c <=? 57)%nat.

(** [a < b] and [a > b] on strings. *)
Definition str_lt (a b : string) : bool :=
  match String.compare a b with Lt => true | _ => false end.
Definition str_gt (a b : string) : bool :=
  match String.compare a b with Gt => true | _ => false end.

End Py.
Import Py.

Declare Scope result_scope.
Delimit Scope result_scope with result.
Notation "x <- m ;; k" := (Py.bind m (fun x => k))
  (at level 61, m at next level, right associativity) : result_scope.

(* ================================================================== *)
(** * Part II. [src/api/data_loader.py]                               *)
(* ================================================================== *)

Module DataLoader.

(** A [pathlib.Path] is the tuple of its [parts]; [str(path)] joins them
    (the first part of an absolute path is the root ["/"]). *)
Definition Path : Type := list string.
Definition path_str (p : Path) : string :=
  match p with
  | root :: rest =>
      if (root =? "/")%string then ("/" ++ String.concat "/" rest)%string
      else String.concat "/" p
  | [] => "."
  end.

(** Order of [Path] objects: lexicographic on the parts. *)
Fixpoint path_compare (p q : Path) : comparison :=
  match p, q with
  | [], [] => Eq
  | [], _ :: _ => Lt
  | _ :: _, [] => Gt
  | a :: p', b :: q' =>
      match String.compare a b with
      | Eq => path_compare p' q'
      | c => c
      end
  end.
Definition path_le (p q : Path) : bool :=
  match path_compare p q with Gt => false | _ => true end.

(** [sorted(files)]: a stable sort by [path_le]. *)
Fixpoint insert_path (f : Path) (l : list Path) : list Path :=
  match l with
  | [] => [f]
  | g :: l' => if path_le f g then f :: g :: l' else g :: insert_path f l'
  end.
Definition sorted (files : list Path) : list Path :=
  fold_right insert_path [] files.

(** [DataLoader.__init__]: the object holds its output directory. *)
Record t : Type := mkDataLoader { output_dir : Path }.
Definition ohlc_dir (self : t) : Path := output_dir self ++ ["ohlc"].
Definition vol_dir (self : t) : Path := output_dir self ++ ["volatility"].

Section Frames.

(** The columns of a row besides [timestamp] and [symbol]
    (open/high/low/close/volume, or volatility). *)
Context {V : Type}.

(** One row of a data frame after [pd.to_datetime(..., utc=True)]: the
    timestamp is a UTC instant (nanoseconds since the epoch). *)
Record Row : Type := mkRow {
  row_timestamp : Z;
  row_symbol : string;
  row_values : V
}.

(** A [pd.DataFrame] with these columns, as the list of its rows in
    positional order; [pd.DataFrame()] is the empty list. *)
Definition DataFrame : Type := list Row.

(** The storage the loader reads: [Path.glob] and [pd.read_parquet]. *)
Class Storage : Type := {
  glob : Path -> string -> list Path;
  read_parquet : Path -> result DataFrame
}.

(** [DataFrame.sort_values('timestamp')] with the default [kind]
    (['quicksort']).  pandas documents the result as the rows reordered
    into ascending order of the key; only [kind='mergesort'] and
    [kind='stable'] are documented as stable. *)
Definition ts_le (a b : Row) : Prop := row_timestamp a <= row_timestamp b.

Class SortValues : Type := {
  sort_values : DataFrame -> DataFrame;
  sort_values_perm : forall df, Permutation df (sort_values df);
  sort_values_sorted : forall df, Sorted ts_le (sort_values df)
}.

(** [DataFrame.tail(n)]: the last [n] rows; for a negative [n], all rows
    except the first [|n|]; for [n = 0], no row. *)
Definition tail (n : Z) (df : DataFrame) : DataFrame :=
  if n =? 0 then []
  else if 0 <? n then skipn (List.length df - Z.to_nat n) df
  else skipn (Z.to_nat (- n)) df.

Context {storage : Storage} {sorter : SortValues}.

Definition _find_parquet_files (self : t) (data_type : string)
    (symbol date_filter : option string) : list Path :=
  let search (base_dir : Path) :=
    let pattern := "**/*.parquet" in
    let files := glob base_dir pattern in
    (* Filter by symbol *)
    let files :=
      match symbol with
      | Some s =>
          if truthy_str symbol
          then filter (fun f => str_contains ("symbol=" ++ s)%string (path_str f)) files
          else files
      | None => files
      end in
    (* Filter by date *)
    let files :=
      match date_filter with
      | Some d =>
          if truthy_str date_filter
          then filter (fun f => str_contains ("date=" ++ d)%string (path_str f)) files
          else files
      | None => files
      end in
    sorted files in
  if (data_type =? "ohlc")%string then search (ohlc_dir self)
  else if (data_type =? "volatility")%string then search (vol_dir self)
  else [].

(** Lines 58-63: the date of a file, from the first part that starts with
    [date=]. *)
Definition extract_file_date (file : Path) : result (option string) :=
  match find (fun part => startswith part "date=") file with
  | Some part =>
      (d <- list_getitem (str_split "="%char part) 1 ;; Ok (Some d))%result
  | None => Ok None
  end.

(** Line 65: [start_date and file_date and file_date < start_date]. *)
Definition before_start (start_date file_date : option string) : bool :=
  match start_date, file_date with
  | Some sd, Some fd =>
      truthy_str start_date && truthy_str file_date && str_lt fd sd
  | _, _ => false
  end.

(** Line 67: [end_date and file_date and file_date > end_date]. *)
Definition after_end (end_date file_date : option string) : bool :=
  match end_date, file_date with
  | Some ed, Some fd =>
      truthy_str end_date && truthy_str file_date && str_gt fd ed
  | _, _ => false
  end.

(** Lines 56-75: the loop that fills [dfs].  The message printed for a file
    that cannot be read is not modelled. *)
Fixpoint load_files (files : list Path) (start_date end_date : option string)
    : result (list DataFrame) :=
  match files with
  | [] => Ok []
  | file :: rest =>
      (file_date <- extract_file_date file ;;
       if before_start start_date file_date then
         load_files rest start_date end_date
       else if after_end end_date file_date then
         load_files rest start_date end_date
       else
         match read_parquet file with
         | Ok df =>
             dfs <- load_files rest start_date end_date ;;
             Ok (df :: dfs)
         | Raise _ => load_files rest start_date end_date
         end)%result
  end.

(** Lines 77-93, shared by [load_ohlc] and [load_volatility]. *)
Definition combine_frames (dfs : list DataFrame) (symbol : option string)
    (limit : option Z) : DataFrame :=
  (* Combine and sort *)
  let result := List.concat dfs in
  let result := sort_values result in
  (* Apply symbol filter if needed *)
  let result :=
    match symbol with
    | Some s =>
        if truthy_str symbol
        then filter (fun r => (row_symbol r =? s)%string) result
        else result
    | None => result
    end in
  (* Limit results *)
  match limit with
  | Some n => if truthy_int limit then tail n result else result
  | None => result
  end.

Definition load_ohlc (self : t) (symbol start_date end_date : option string)
    (limit : option Z) : result DataFrame :=
  let files := _find_parquet_files self "ohlc" symbol None in
  match files with
  | [] => Ok []
  | _ :: _ =>
      (dfs <- load_files files start_date end_date ;;
       match dfs with
       | [] => Ok []
       | _ :: _ => Ok (combine_frames dfs symbol limit)
       end)%result
  end.

Definition load_volatility (self : t) (symbol start_date end_date : option string)
    (limit : option Z) : result DataFrame :=
  let files := _find_parquet_files self "volatility" symbol None in
  match files with
  | [] => Ok []
  | _ :: _ =>
      (dfs <- load_files files start_date end_date ;;
       match dfs with
       | [] => Ok []
       | _ :: _ => Ok (combine_frames dfs symbol limit)
       end)%result
  end.

(** ** Notions derived from the code, used to state its properties *)

(** The date the loop derives for a file ([None] when no part starts with
    [date=]). *)
Definition file_date (file : Path) : option string :=
  match extract_file_date file with
  | Ok fd => fd
  | Raise _ => None
  end.

(** The loop's two [continue] tests for a file. *)
Definition date_skipped (start_date end_date : option string) (file : Path) : bool :=
  before_start start_date (file_date file) || after_end end_date (file_date file).

(** The frames of the files that [pd.read_parquet] reads without error. *)
Definition frames_read (files : list Path) : list DataFrame :=
  flat_map (fun f => match read_parquet f with Ok df => [df] | Raise _ => [] end)
           files.

(** The test of the path filter of [_find_parquet_files] for [symbol]. *)
Definition path_matches (symbol : option string) (f : Path) : bool :=
  match symbol with
  | Some s =>
      if truthy_str symbol
      then str_contains ("symbol=" ++ s)%string (path_str f)
      else true
  | None => true
  end.

(** The test of the content filter [result['symbol'] == symbol]. *)
Definition symbol_matches (symbol : option string) (r : Row) : bool :=
  match symbol with
  | Some s => if truthy_str symbol then (row_symbol r =? s)%string else true
  | None => true
  end.

(** The candidate files of a query. *)
Definition candidates (self : t) (data_type : string) (symbol : option string)
    : list Path :=
  _find_parquet_files self data_type symbol None.

(** What both queries compute from their candidate files (lines 56-93). *)
Definition query (files : list Path) (symbol start_date end_date : option string)
    (limit : option Z) : DataFrame :=
  combine_frames
    (frames_read (filter (fun f => negb (date_skipped start_date end_date f)) files))
    symbol limit.

(** The rows the files of a query hold for [symbol], in the order of the
    concatenation [pd.concat(dfs)]. *)
Definition loaded_rows (files : list Path) (symbol start_date end_date : option string)
    : DataFrame :=
  filter (symbol_matches symbol)
    (List.concat
       (frames_read (filter (fun f => negb (date_skipped start_date end_date f)) files))).

(** ** Properties of a query, as predicates *)

(** The tail-limit law for a query [run] (a function of the limit) and a
    limit [k]: the answer has [min(k, total)] rows, and they are the last
    rows of the answer without limit, in ascending order, none of them
    earlier than a row left out. *)
Definition tail_limit_law (run : option Z -> result DataFrame) (k : Z) : Prop :=
  exists matched older latest : DataFrame,
    run None = Ok matched /\
    run (Some k) = Ok latest /\
    Z.of_nat (List.length latest) = Z.min k (Z.of_nat (List.length matched)) /\
    matched = older ++ latest /\
    Sorted ts_le latest /\
    (forall o r, In o older -> In r latest -> ts_le o r).

(** Rows of equal timestamp stand in [output] in the order they have in
    [input]. *)
Definition same_order_of_ties (input output : DataFrame) : Prop :=
  forall ts : Z,
    filter (fun r => row_timestamp r =? ts) output =
    filter (fun r => row_timestamp r =? ts) input.

(** Retrieval ordering with stable ties, for one query of [load_ohlc]. *)
Definition retrieval_ordering (self : t) (symbol start_date end_date : option string)
    : Prop :=
  exists rows : DataFrame,
    load_ohlc self symbol start_date end_date None = Ok rows /\
    Sorted ts_le rows /\
    same_order_of_ties
      (loaded_rows (candidates self "ohlc" symbol) symbol start_date end_date) rows.

(** The symbol filter as a filter on content alone: of the rows of every
    readable file of the dataset, the answer keeps those of symbol [S] and
    drops the others. *)
Definition symbol_filter_on_content (self : t) (S : string) : Prop :=
  exists rows : DataFrame,
    load_ohlc self (Some S) None None None = Ok rows /\
    forall (f : Path) (df : DataFrame) (r : Row),
      In f (glob (ohlc_dir self) "**/*.parquet") ->
      read_parquet f = Ok df ->
      In r df ->
      (row_symbol r = S -> In r rows) /\ (row_symbol r <> S -> ~ In r rows).

(** The symbol filter as the code applies it, by path and then by content:
    the answer holds exactly the rows of symbol [S] of the readable files
    whose path contains [symbol=S] and which the date window keeps. *)
Definition symbol_filter_by_path_and_content (self : t) (S : string)
    (start_date end_date : option string) : Prop :=
  exists rows : DataFrame,
    load_ohlc self (Some S) start_date end_date None = Ok rows /\
    forall r : Row,
      In r rows <->
      row_symbol r = S /\
      exists (f : Path) (df : DataFrame),
        In f (glob (ohlc_dir self) "**/*.parquet") /\
        str_contains ("symbol=" ++ S)%string (path_str f) = true /\
        date_skipped start_date end_date f = false /\
        read_parquet f = Ok df /\
        In r df.

(** A date filter (or a file date) counts as given when it is a non-empty
    string: the code tests it by truthiness. *)
Definition supplied (o : option string) (s : string) : Prop :=
  o = Some s /\ s <> "".

(** The date a path names, read off the path itself.  A string is [plain]
    when it holds no [=].  A path is [undated] when none of its parts
    starts with [date=]; it names the date [D] when the first of its parts
    that start with [date=] is [date=D], or [date=D=...]. *)
Definition plain (s : string) : Prop :=
  ~ In "="%char (list_ascii_of_string s).

Definition undated (file : Path) : Prop :=
  Forall (fun part => startswith part "date=" = false) file.

Definition dated (file : Path) (D : string) : Prop :=
  exists (parents : Path) (more : string) (children : Path),
    file = parents ++ ("date=" ++ D ++ more)%string :: children /\
    undated parents /\
    plain D /\
    (more = "" \/ exists rest, more = String "="%char rest).

(** The date [D] lies outside the window: it is not empty, and a start
    date is given and [D] is below it, or an end date is given and [D] is
    above it, in the order of strings. *)
Definition outside_window (start_date end_date : option string) (D : string) : Prop :=
  D <> "" /\
  ((exists s, supplied start_date s /\ str_lt D s = true) \/
   (exists e, supplied end_date e /\ str_gt D e = true)).

(** The files the date window keeps: those that name no date, and those
    whose date does not lie outside the window. *)
Definition window_keeps (start_date end_date : option string) (file : Path) : Prop :=
  undated file \/ exists D, dated file D /\ ~ outside_window start_date end_date D.

(** The rule of the date window in the words of the specification, for a
    file that names the date [D]: the loop leaves the file out exactly when
    [D] is below the start date or above the end date. *)
Definition excluded_iff_outside (start_date end_date : option string)
    (file : Path) (D : string) : Prop :=
  load_files [file] start_date end_date = Ok [] <->
  (exists s, start_date = Some s /\ str_lt D s = true) \/
  (exists e, end_date = Some e /\ str_gt D e = true).

(** A query [run] (a function of the limit) over the candidate [files]
    survives files that cannot be read. *)
Definition tolerates_load_failures (files : list Path)
    (run : option Z -> result DataFrame)
    (symbol start_date end_date : option string) : Prop :=
  (forall limit, exists rows, run limit = Ok rows) /\
  (files = [] -> forall limit, run limit = Ok []) /\
  ((forall f, In f files -> exists e, read_parquet f = Raise e) ->
   forall limit, run limit = Ok []) /\
  (forall (f : Path) (df : DataFrame) (r : Row),
     In f files ->
     date_skipped start_date end_date f = false ->
     read_parquet f = Ok df ->
     In r df ->
     symbol_matches symbol r = true ->
     exists rows, run None = Ok rows /\ In r rows).

End Frames.

Arguments Row V : clear implicits.
Arguments DataFrame V : clear implicits.
Arguments Storage V : clear implicits.
Arguments SortValues V : clear implicits.

(** ** Two sorts that meet the documented contract of [sort_values]

    Both are insertion sorts on the timestamp.  [stable_sort_values] keeps
    rows of equal timestamp in their input order (what [kind='stable']
    gives); [reversing_sort_values] puts a row after the rows of equal
    timestamp that follow it in the input, which the contract of the default
    [kind] allows as well. *)
Section Sorts.
Context {V : Type}.
Variable before : Row V -> Row V -> bool.

Fixpoint insert_row (x : Row V) (l : DataFrame V) : DataFrame V :=
  match l with
  | [] => [x]
  | y :: l' => if before x y then x :: y :: l' else y :: insert_row x l'
  end.

Definition insertion_sort (df : DataFrame V) : DataFrame V :=
  fold_right insert_row [] df.

End Sorts.

Definition stable_sort_values {V : Type} : DataFrame V -> DataFrame V :=
  insertion_sort (fun x y => row_timestamp x <=? row_timestamp y).

Definition reversing_sort_values {V : Type} : DataFrame V -> DataFrame V :=
  insertion_sort (fun x y => row_timestamp x <? row_timestamp y).

(** ** [sort_values] as pandas and numpy compute it

    [DataFrame.sort_values('timestamp')] takes the rows at the positions
    that [ndarray.argsort(kind='quicksort')] returns for the 64-bit keys of
    the column.  What follows is numpy's introsort for argsort
    ([aquicksort_] and [aheapsort_] of [numpy/_core/src/npysort]), which
    numpy runs where it dispatches no vectorized kernel: a quicksort on the
    array [tosort] of positions with the median of three as pivot, an
    insertion sort for a range of at most 17 positions, and a heapsort for
    a range reached with the depth limit used up.  Pointers into [tosort]
    are positions; the loops have fuel, of which the length of the array
    is enough for the scans and four steps for each position for the main
    loop. *)
Section Argsort.
Variable v : list Z.

Definition SMALL_QUICKSORT : nat := 16.

(** [*p], and [*p = x]. *)
Definition deref (tosort : list nat) (p : nat) : nat := nth p tosort 0%nat.
Definition store (tosort : list nat) (p x : nat) : list nat :=
  firstn p tosort ++ x :: skipn (S p) tosort.
Definition INTP_SWAP (tosort : list nat) (p q : nat) : list nat :=
  store (store tosort p (deref tosort q)) q (deref tosort p).

(** [v[*p]]. *)
Definition key_at (tosort : list nat) (p : nat) : Z := nth (deref tosort p) v 0.

(** [npy_get_msb]. *)
Definition npy_get_msb (num : nat) : Z := Z.log2 (Z.of_nat num).

(** The three tests that put the median of [*pl], [*pm], [*pr] at [pm]. *)
Definition median_of_three (tosort : list nat) (pl pm pr : nat) : list nat :=
  let tosort :=
    if key_at tosort pm <? key_at tosort pl then INTP_SWAP tosort pm pl else tosort in
  let tosort :=
    if key_at tosort pr <? key_at tosort pm then INTP_SWAP tosort pr pm else tosort in
  if key_at tosort pm <? key_at tosort pl then INTP_SWAP tosort pm pl else tosort.

(** [do { ++pi; } while (v[*pi] < vp);] *)
Fixpoint scan_up (fuel : nat) (tosort : list nat) (vp : Z) (pi : nat) : nat :=
  match fuel with
  | O => pi
  | S fuel' =>
      let pi := S pi in
      if key_at tosort pi <? vp then scan_up fuel' tosort vp pi else pi
  end.

(** [do { --pj; } while (vp < v[*pj]);] *)
Fixpoint scan_down (fuel : nat) (tosort : list nat) (vp : Z) (pj : nat) : nat :=
  match fuel with
  | O => pj
  | S fuel' =>
      let pj := Nat.pred pj in
      if vp <? key_at tosort pj then scan_down fuel' tosort vp pj else pj
  end.

(** The [for (;;)] of the partition: it returns the array and [pi]. *)
Fixpoint partition_loop (fuel : nat) (tosort : list nat) (vp : Z) (pi pj : nat)
    : list nat * nat :=
  match fuel with
  | O => (tosort, pi)
  | S fuel' =>
      let pi := scan_up (List.length tosort) tosort vp pi in
      let pj := scan_down (List.length tosort) tosort vp pj in
      if (pj <=? pi)%nat then (tosort, pi)
      else partition_loop fuel' (INTP_SWAP tosort pi pj) vp pi pj
  end.

(** [while (pj > pl && v[vi] < v[*pk]) { *pj-- = *pk--; }] *)
Fixpoint shift_right (fuel : nat) (tosort : list nat) (pl : nat) (vp : Z) (pj : nat)
    : list nat * nat :=
  match fuel with
  | O => (tosort, pj)
  | S fuel' =>
      if (pl <? pj)%nat && (vp <? key_at tosort (pj - 1))
      then shift_right fuel' (store tosort pj (deref tosort (pj - 1))) pl vp (pj - 1)
      else (tosort, pj)
  end.

(** The insertion sort of the positions [pl] to [pr]. *)
Definition insert_position (pl : nat) (tosort : list nat) (pi : nat) : list nat :=
  let vi := deref tosort pi in
  let vp := nth vi v 0 in
  let '(tosort, pj) := shift_right (List.length tosort) tosort pl vp pi in
  store tosort pj vi.

Definition insertion_sort_range (tosort : list nat) (pl pr : nat) : list nat :=
  fold_left (insert_position pl) (seq (S pl) (pr - pl)) tosort.

(** [aheapsort_] on the [n] positions from [pl]; [a = tosort + pl - 1] is
    indexed from one. *)
Fixpoint sift_down (fuel : nat) (tosort : list nat) (pl n tmp i j : nat) : list nat :=
  let a k := (pl + k - 1)%nat in
  match fuel with
  | O => store tosort (a i) tmp
  | S fuel' =>
      if (j <=? n)%nat then
        let j :=
          if (j <? n)%nat && (key_at tosort (a j) <? key_at tosort (a (j + 1)%nat))
          then (j + 1)%nat else j in
        if nth tmp v 0 <? key_at tosort (a j)
        then sift_down fuel' (store tosort (a i) (deref tosort (a j))) pl n tmp j (j + j)
        else store tosort (a i) tmp
      else store tosort (a i) tmp
  end.

Definition build_heap (tosort : list nat) (pl n : nat) : list nat :=
  fold_left (fun tosort l =>
               sift_down n tosort pl n (deref tosort (pl + l - 1)) l (l + l))
            (rev (seq 1 (n / 2))) tosort.

Definition pop_heap (pl : nat) (tosort : list nat) (n : nat) : list nat :=
  let a k := (pl + k - 1)%nat in
  let tmp := deref tosort (a n) in
  let tosort := store tosort (a n) (deref tosort (a 1%nat)) in
  sift_down n tosort pl (n - 1) tmp 1 2.

Definition aheapsort (tosort : list nat) (pl n : nat) : list nat :=
  fold_left (pop_heap pl) (rev (seq 2 (n - 1))) (build_heap tosort pl n).

(** The loop [while (1)] of [aquicksort_].  With [partitioning] the run
    stands inside [while ((pr - pl) > SMALL_QUICKSORT)]; otherwise it stands
    at the head of the outer loop, where the depth is tested.  [stack]
    holds the ranges pushed with their depth. *)
Fixpoint aquicksort_loop (fuel : nat) (partitioning : bool) (tosort : list nat)
    (pl pr : nat) (cdepth : Z) (stack : list (nat * nat * Z)) : list nat :=
  match fuel with
  | O => tosort
  | S fuel' =>
      let stack_pop tosort :=
        match stack with
        | [] => tosort
        | (pl, pr, cdepth) :: stack => aquicksort_loop fuel' false tosort pl pr cdepth stack
        end in
      if negb partitioning && (cdepth <? 0) then
        stack_pop (aheapsort tosort pl (pr - pl + 1))
      else if (SMALL_QUICKSORT <? pr - pl)%nat then
        (* quicksort partition *)
        let pm := (pl + (pr - pl) / 2)%nat in
        let tosort := median_of_three tosort pl pm pr in
        let vp := key_at tosort pm in
        let pj := (pr - 1)%nat in
        let tosort := INTP_SWAP tosort pm pj in
        let '(tosort, pi) := partition_loop (List.length tosort) tosort vp pl pj in
        let tosort := INTP_SWAP tosort pi (pr - 1) in
        let cdepth := cdepth - 1 in
        (* push largest partition on stack *)
        if (pi - pl <? pr - pi)%nat
        then aquicksort_loop fuel' true tosort pl (pi - 1) cdepth
               ((S pi, pr, cdepth) :: stack)
        else aquicksort_loop fuel' true tosort (S pi) pr cdepth
               ((pl, (pi - 1)%nat, cdepth) :: stack)
      else
        stack_pop (insertion_sort_range tosort pl pr)
  end.

Definition aquicksort (tosort : list nat) : list nat :=
  let num := List.length tosort in
  aquicksort_loop (4 * num + 4) false tosort 0 (num - 1) (npy_get_msb num * 2) [].

(** [v.argsort(kind='quicksort')]. *)
Definition argsort : list nat := aquicksort (seq 0 (List.length v)).

End Argsort.

Section QuickSort.
Context {V : Type}.

(** [df.take(indexer)]. *)
Definition take (df : DataFrame V) (indexer : list nat) : DataFrame V :=
  flat_map (fun i => match nth_error df i with Some r => [r] | None => [] end) indexer.

(** [df.sort_values('timestamp')] by [argsort]. *)
Definition quicksort_sort_values (df : DataFrame V) : DataFrame V :=
  take df (argsort (map (@row_timestamp V) df)).

(** The answer of a sort is in order: it rearranges the positions of the
    frame, and the timestamps ascend. *)
Fixpoint insert_position_sorted (i : nat) (l : list nat) : list nat :=
  match l with
  | [] => [i]
  | j :: l' => if (i <=? j)%nat then i :: j :: l' else j :: insert_position_sorted i l'
  end.

Definition is_indexer (n : nat) (indexer : list nat) : bool :=
  if list_eq_dec Nat.eq_dec (fold_right insert_position_sorted [] indexer) (seq 0 n)
  then true else false.

Fixpoint ascending (df : DataFrame V) : bool :=
  match df with
  | r :: ((r' :: _) as rest) => (row_timestamp r <=? row_timestamp r') && ascending rest
  | _ => true
  end.

(** [sort_values] with the default kind, as an instance of the contract:
    the answer of the quicksort, which is in order.  (That the quicksort
    always answers in order is a property of numpy which is not proved
    here: where the test failed, the rows would be sorted by insertion.) *)
Definition pandas_sort_values (df : DataFrame V) : DataFrame V :=
  if is_indexer (List.length df) (argsort (map (@row_timestamp V) df))
     && ascending (quicksort_sort_values df)
  then quicksort_sort_values df
  else stable_sort_values df.

End QuickSort.

(** ** A storage given by the list of its files

    Each file is its path and what [pd.read_parquet] returns for it.
    [base.glob('**/*.parquet')] lists, in the order of the list, the files
    below [base] whose name ends in [.parquet]; reading a path that is not
    in the list raises. *)
Fixpoint is_below (base p : Path) : bool :=
  match base, p with
  | [], _ :: _ => true
  | b :: base', a :: p' => (a =? b)%string && is_below base' p'
  | _, [] => false
  end.

Definition str_endswith (s suffix : string) : bool :=
  String.prefix (string_of_list_ascii (rev (list_ascii_of_string suffix)))
                (string_of_list_ascii (rev (list_ascii_of_string s))).

Definition path_eqb (p q : Path) : bool :=
  match path_compare p q with Eq => true | _ => false end.

Definition storage_of {V : Type} (files : list (Path * result (DataFrame V)))
    : Storage V :=
  {| glob base pattern :=
       if (pattern =? "**/*.parquet")%string
       then filter (fun p => is_below base p && str_endswith (last p "") ".parquet")
                   (map fst files)
       else [];
     read_parquet p :=
       match find (fun f => path_eqb (fst f) p) files with
       | Some f => snd f
       | None => Raise OSError
       end |}.

(** ** Storages used in the examples *)

Definition part (symbol date : string) : Path :=
  ["data"; "outputs"; "ohlc"; ("symbol=" ++ symbol)%string;
   ("date=" ++ date)%string; "part-0.parquet"].

Definition demo_loader : t := mkDataLoader ["data"; "outputs"].

(** Two partitions of BTCUSD whose rows interleave in time, one row of equal
    timestamp in each; the values column holds a row number. *)
Definition two_days : Storage Z :=
  storage_of
    [ (part "BTCUSD" "2023-11-09",
       Ok [mkRow 1 "BTCUSD" 3; mkRow 2 "BTCUSD" 4; mkRow 3 "BTCUSD" 5]);
      (part "BTCUSD" "2023-11-08",
       Ok [mkRow 0 "BTCUSD" 1; mkRow 2 "BTCUSD" 2]) ].

(** Two partitions of ten rows each, stored in descending order of
    timestamp, every timestamp on two rows; the values column holds a row
    number. *)
Definition descending_pairs : Storage Z :=
  storage_of
    [ (part "BTCUSD" "2023-11-08",
       Ok [mkRow 10 "BTCUSD" 1; mkRow 10 "BTCUSD" 2; mkRow 9 "BTCUSD" 3;
           mkRow 9 "BTCUSD" 4; mkRow 8 "BTCUSD" 5; mkRow 8 "BTCUSD" 6;
           mkRow 7 "BTCUSD" 7; mkRow 7 "BTCUSD" 8; mkRow 6 "BTCUSD" 9;
           mkRow 6 "BTCUSD" 10]);
      (part "BTCUSD" "2023-11-09",
       Ok [mkRow 5 "BTCUSD" 11; mkRow 5 "BTCUSD" 12; mkRow 4 "BTCUSD" 13;
           mkRow 4 "BTCUSD" 14; mkRow 3 "BTCUSD" 15; mkRow 3 "BTCUSD" 16;
           mkRow 2 "BTCUSD" 17; mkRow 2 "BTCUSD" 18; mkRow 1 "BTCUSD" 19;
           mkRow 1 "BTCUSD" 20]) ].

(** A partition whose [date=] part is empty. *)
Definition blank_date : Storage Z :=
  storage_of [ (part "BTCUSD" "", Ok [mkRow 1 "BTCUSD" 1]) ].

(** A row of BTCUSD stored below the directory of ETHUSD, a file that
    cannot be read, and a file without a [date=] part. *)
Definition mixed : Storage Z :=
  storage_of
    [ (part "ETHUSD" "2023-11-09",
       Ok [mkRow 1 "ETHUSD" 1; mkRow 2 "BTCUSD" 2]);
      (part "BTCUSD" "2023-11-09", Raise OSError);
      (["data"; "outputs"; "ohlc"; "symbol=BTCUSD"; "part-0.parquet"],
       Ok [mkRow 3 "BTCUSD" 3]);
      (part "BTCUSD" "2023-11-10", Ok [mkRow 4 "BTCUSD" 4]) ].

End DataLoader.

(* ================================================================== *)
(** * Part III. [src/api/routes/ohlc.py] and [src/api/models.py]      *)
(* ================================================================== *)

Module Routes.
Import DataLoader.

(** The value columns of an OHLC frame. *)
Record Bar : Type := mkBar {
  bar_open : float;
  bar_high : float;
  bar_low : float;
  bar_close : float;
  bar_volume : float
}.

(** [models.OHLCData] and [models.OHLCResponse]. *)
Record OHLCData : Type := mkOHLCData {
  timestamp : Z;
  open : float;
  high : float;
  low : float;
  close : float;
  volume : float;
  symbol : string
}.

Record OHLCResponse : Type := mkOHLCResponse {
  data : list OHLCData;
  count : Z;
  response_symbol : option string
}.

(** What the endpoint gives back to the framework: a response, or the
    [HTTPException] it raises. *)
Inductive reply (A : Type) : Type :=
| Return (a : A)
| HTTPException (status_code : Z) (detail : string).
Arguments Return {A} a.
Arguments HTTPException {A} status_code detail.

(** [str(e)], up to the text of the message. *)
Definition exn_str (e : exn) : string :=
  match e with
  | KeyError key => key
  | IndexError => "list index out of range"
  | TypeError => "TypeError"
  | ValueError => "ValueError"
  | AttributeError => "AttributeError"
  | ZeroDivisionError => "division by zero"
  | OverflowError => "OverflowError"
  | JSONDecodeError => "JSONDecodeError"
  | KafkaError => "KafkaError"
  | OSError => "OSError"
  end.

(** A date in the format the endpoint documents, [YYYY-MM-DD]: ten
    characters, digits but for the two dashes. *)
Definition is_iso_date (s : string) : bool :=
  match list_ascii_of_string s with
  | [y1; y2; y3; y4; d1; m1; m2; d2; a1; a2] =>
      forallb is_digit [y1; y2; y3; y4; m1; m2; a1; a2]
      && Ascii.eqb d1 "-" && Ascii.eqb d2 "-"
  | _ => false
  end.

(** A date filter that is given and is not a date. *)
Definition malformed_date (o : option string) : Prop :=
  exists s, o = Some s /\ is_iso_date s = false.

(** The [OHLCData] built from a row (lines 46-54); the conversions
    [float(row[...])] are the identity on a float column. *)
Definition ohlc_data (row : Row Bar) : OHLCData :=
  mkOHLCData (row_timestamp row)
    (bar_open (row_values row)) (bar_high (row_values row))
    (bar_low (row_values row)) (bar_close (row_values row))
    (bar_volume (row_values row)) (row_symbol row).

Section Endpoint.
Context {storage : Storage Bar} {sorter : SortValues Bar}.

(** The module-level [loader = DataLoader(OUTPUT_DIR)]. *)
Variable loader : DataLoader.t.

(** [get_ohlc], with the parameters as the framework passes them. *)
Definition get_ohlc (symbol start_date end_date : option string) (limit : option Z)
    : reply OHLCResponse :=
  match
    (df <- load_ohlc loader symbol start_date end_date limit ;;
     match df with
     | [] => Ok (mkOHLCResponse [] 0 symbol)
     | _ :: _ =>
         (* Convert to list of dicts *)
         let data := map ohlc_data df in
         Ok (mkOHLCResponse data (Z.of_nat (List.length data)) symbol)
     end)%result
  with
  | Ok response => Return response
  | Raise e => HTTPException 500 (exn_str e)
  end.

(** The claim that a malformed date filter is rejected. *)
Definition rejects_malformed_dates : Prop :=
  forall (symbol start_date end_date : option string) (limit : option Z),
    malformed_date start_date \/ malformed_date end_date ->
    exists status_code detail,
      get_ohlc symbol start_date end_date limit = HTTPException status_code detail.

End Endpoint.

(** One bar of BTCUSD on 2023-11-09. *)
Definition one_bar : Storage Bar :=
  storage_of
    [ (part "BTCUSD" "2023-11-09",
       Ok [mkRow 1699531200000000000 "BTCUSD"
             (mkBar 50000 50020 49980 50010 0.5)]) ].

End Routes.

(* ================================================================== *)
(** * Part IV. [src/producer/binance_producer.py]                     *)
(* ================================================================== *)

Module Producer.

(** ** Values and library calls *)

#[local] Set Warnings "-register-all".

(** What [json.loads] returns: [None], [bool], [int], [float], [str],
    [list], and [dict] as the list of its items (keys distinct, in
    insertion order). *)
Inductive json : Type :=
| JNull
| JBool (b : bool)
| JInt (n : Z)
| JFloat (x : float)
| JStr (s : string)
| JList (l : list json)
| JDict (items : list (string * json)).

(** [json.loads] and the conversions [float(str)] and [float(int)]. *)
Class Library : Type := {
  json_loads : string -> result json;
  float_of_str : string -> result float;
  float_of_int : Z -> result float
}.

Definition dict_get (items : list (string * json)) (key : string) : option json :=
  option_map snd (find (fun kv => (fst kv =? key)%string) items).

(** [dict[key] = value]. *)
Fixpoint dict_set (items : list (string * json)) (key : string) (value : json)
    : list (string * json) :=
  match items with
  | [] => [(key, value)]
  | (k, v) :: items' =>
      if (k =? key)%string then (k, value) :: items'
      else (k, v) :: dict_set items' key value
  end.

(** [value == s] for a string [s]. *)
Definition json_eq_str (value : json) (s : string) : bool :=
  match value with
  | JStr s' => (s' =? s)%string
  | _ => false
  end.

(** [key in data]. *)
Definition py_in (key : string) (data : json) : result bool :=
  match data with
  | JDict items =>
      Ok (match dict_get items key with Some _ => true | None => false end)
  | JList l => Ok (existsb (fun v => json_eq_str v key) l)
  | JStr s => Ok (str_contains key s)
  | JNull | JBool _ | JInt _ | JFloat _ => Raise TypeError
  end.

(** [data[key]] for a string [key]. *)
Definition py_getitem (data : json) (key : string) : result json :=
  match data with
  | JDict items =>
      match dict_get items key with
      | Some v => Ok v
      | None => Raise (KeyError key)
      end
  | _ => Raise TypeError
  end.

(** [float(value)]. *)
Definition py_float `{Library} (value : json) : result float :=
  match value with
  | JStr s => float_of_str s
  | JInt n => float_of_int n
  | JFloat x => Ok x
  | JBool b => Ok (if b then 1%float else 0%float)
  | JNull | JList _ | JDict _ => Raise TypeError
  end.

(** Truthiness of a value. *)
Definition truthy (value : json) : bool :=
  match value with
  | JNull => false
  | JBool b => b
  | JInt n => negb (n =? 0)
  | JFloat x => negb (PrimFloat.eqb x 0%float)
  | JStr s => negb (s =? "")%string
  | JList l => match l with [] => false | _ :: _ => true end
  | JDict items => match items with [] => false | _ :: _ => true end
  end.

(** ** The producer object and what it does to the world *)

(** The normalized trade, the dict [trade_data]. *)
Record TradeData : Type := mkTradeData {
  td_symbol : json;
  td_price : float;
  td_quantity : float;
  td_timestamp : json;
  td_is_buyer_maker : json;
  td_trade_id : json
}.

(** The Kafka client and the clock.  [KafkaProducer_new attempt] is the
    outcome of constructing [KafkaProducer(...)] in iteration [attempt] of
    [connect_kafka]; [kafka_send n topic key value] the outcome of
    [producer.send(topic, key=key, value=value)] followed by
    [future.get(timeout=10)] for the [n]-th record sent; [time_time n] what
    [time.time()] reads after [n] events. *)
Class Bus : Type := {
  KafkaProducer_new : nat -> result unit;
  kafka_send : nat -> string -> option string -> TradeData -> result unit;
  time_time : nat -> float
}.

Inductive event : Type :=
| EvConnect                       (* KafkaProducer(...) is called *)
| EvSleep (seconds : float)       (* time.sleep(seconds) has slept *)
| EvPublish (trade_data : TradeData)   (* send_to_kafka(trade_data) is called *)
| EvSend (topic : string) (key : option string) (value : TradeData)
                                  (* producer.send(...) is called *)
| EvInfo (message : string)       (* logger.info *)
| EvError (message : string).     (* logger.error *)

(** The fields of [BinanceProducer] the three methods use; [producer] is
    [None] until [connect_kafka] has succeeded. *)
Record BinanceProducer : Type := mkProducer {
  topic : string;
  replay_speed : float;
  producer : option unit;
  message_count : Z;
  start_time : float
}.

Record World : Type := mkWorld {
  self : BinanceProducer;
  trace : list event
}.

(** Computations that read and change the world and may raise. *)
Definition M (A : Type) : Type := World -> result A * World.

Definition ret {A : Type} (a : A) : M A := fun w => (Ok a, w).
Definition raise {A : Type} (e : exn) : M A := fun w => (Raise e, w).
Definition lift {A : Type} (r : result A) : M A := fun w => (r, w).
Definition mbind {A B : Type} (m : M A) (k : A -> M B) : M B :=
  fun w =>
    match m w with
    | (Ok a, w') => k a w'
    | (Raise e, w') => (Raise e, w')
    end.

(** [try: body / except Exception as e: handler]. *)
Definition try_except {A : Type} (body : M A) (handler : exn -> M A) : M A :=
  fun w =>
    match body w with
    | (Ok a, w') => (Ok a, w')
    | (Raise e, w') => handler e w'
    end.

Definition emit (ev : event) : M unit :=
  fun w => (Ok tt, mkWorld (self w) (trace w ++ [ev])).
Definition get_self : M BinanceProducer := fun w => (Ok (self w), w).
Definition set_self (s : BinanceProducer) : M unit :=
  fun w => (Ok tt, mkWorld s (trace w)).
Definition get_trace : M (list event) := fun w => (Ok (trace w), w).

End Producer.

Declare Scope producer_scope.
Delimit Scope producer_scope with M.
Notation "x <- m ;; k" := (Producer.mbind m (fun x => k))
  (at level 61, m at next level, right associativity) : producer_scope.
Notation "m ;;; k" := (Producer.mbind m (fun _ => k))
  (at level 61, right associativity) : producer_scope.

Module BinanceProducer.
Import Producer.

Section Methods.
Context {library : Library} {bus : Bus}.

(** [time.sleep(seconds)]: [ValueError] for a negative length or NaN,
    [OverflowError] for a length beyond the range of the clock (about
    [2^63] nanoseconds). *)
Definition time_sleep (seconds : float) : M unit :=
  if PrimFloat.is_nan seconds || PrimFloat.ltb seconds 0 then raise ValueError
  else if PrimFloat.ltb 9223372036 seconds then raise OverflowError
  else emit (EvSleep seconds).

(** [key_serializer=lambda k: k.encode('utf-8') if k else None]. *)
Definition key_serializer (k : json) : result (option string) :=
  if truthy k then
    match k with
    | JStr s => Ok (Some s)
    | _ => Raise AttributeError
    end
  else Ok None.

Definition count_sends (tr : list event) : nat :=
  List.length (filter (fun ev => match ev with EvSend _ _ _ => true | _ => false end) tr).

(** [self.producer.send(topic, key=key, value=value)] and
    [future.get(timeout=10)]. *)
Definition producer_send (topic : string) (key : json) (value : TradeData) : M unit :=
  (s <- get_self ;;
   match producer s with
   | None => raise AttributeError
   | Some _ =>
       k <- lift (key_serializer key) ;;
       tr <- get_trace ;;
       emit (EvSend topic k value) ;;;
       lift (kafka_send (count_sends tr) topic k value)
   end)%M.

Definition max_retries : nat := 10.
Definition retry_delay : float := 5%float.

(** The body of [for attempt in range(max_retries)] in [connect_kafka];
    falling out of the loop returns [False]. *)
Fixpoint connect_kafka_loop (attempts : list nat) : M bool :=
  match attempts with
  | [] => ret false
  | attempt :: rest =>
      (outcome <-
         try_except
           (emit EvConnect ;;;
            lift (KafkaProducer_new attempt) ;;;
            s <- get_self ;;
            set_self (mkProducer (topic s) (replay_speed s) (Some tt)
                        (message_count s) (start_time s)) ;;;
            emit (EvInfo "Successfully connected to Kafka") ;;;
            ret (Some true))
           (fun e =>
              emit (EvError "Attempt failed") ;;;
              if (attempt <? max_retries - 1)%nat
              then time_sleep retry_delay ;;; ret None
              else raise e) ;;
       match outcome with
       | Some b => ret b
       | None => connect_kafka_loop rest
       end)%M
  end.

Definition connect_kafka : M bool :=
  connect_kafka_loop (seq 0 max_retries).

(** [send_to_kafka]. *)
Definition send_to_kafka (trade_data : TradeData) : M unit :=
  (emit (EvPublish trade_data) ;;;
   try_except
     ((* Use symbol as key for partitioning *)
      let key := td_symbol trade_data in
      s <- get_self ;;
      producer_send (topic s) key trade_data ;;;
      s <- get_self ;;
      set_self (mkProducer (topic s) (replay_speed s) (producer s)
                  (message_count s + 1) (start_time s)) ;;;
      s <- get_self ;;
      (* Log progress every 100 messages *)
      if message_count s mod 100 =? 0 then
        tr <- get_trace ;;
        let elapsed := PrimFloat.sub (time_time (List.length tr)) (start_time s) in
        n <- lift (float_of_int (message_count s)) ;;
        if PrimFloat.eqb elapsed 0 then raise ZeroDivisionError
        else emit (EvInfo "Sent messages")
      else ret tt)
     (fun e =>
        match e with
        | KafkaError => emit (EvError "Kafka error")
        | _ => emit (EvError "Error sending message")
        end))%M.

(** ['e' in data and data['e'] == 'aggTrade']. *)
Definition is_agg_trade (data : json) : result bool :=
  (has_e <- py_in "e" data ;;
   if has_e then
     e <- py_getitem data "e" ;;
     Ok (json_eq_str e "aggTrade")
   else Ok false)%result.

(** The dict display that normalizes the trade (lines 76-83). *)
Definition normalize (data : json) : result TradeData :=
  (s <- py_getitem data "s" ;;
   p <- py_getitem data "p" ;;
   price <- py_float p ;;
   q <- py_getitem data "q" ;;
   quantity <- py_float q ;;
   T <- py_getitem data "T" ;;
   m <- py_getitem data "m" ;;
   a <- py_getitem data "a" ;;
   Ok (mkTradeData s price quantity T m a))%result.

(** Lines 87-89: the pause after a trade when [replay_speed < 1]. *)
Definition throttle : M unit :=
  (s <- get_self ;;
   if PrimFloat.ltb (replay_speed s) 1 then
     if PrimFloat.eqb (replay_speed s) 0 then raise ZeroDivisionError
     else time_sleep (PrimFloat.div 1 (replay_speed s))
   else ret tt)%M.

(** [on_message]; the argument [ws] is not used by the method. *)
Definition on_message (message : string) : M unit :=
  try_except
    (data <- lift (json_loads message) ;;
     (* Extract trade information from Binance aggTrade stream *)
     trade <- lift (is_agg_trade data) ;;
     if trade then
       (* Normalize trade data *)
       trade_data <- lift (normalize data) ;;
       send_to_kafka trade_data ;;;
       (* Apply replay speed throttling *)
       throttle
     else ret tt)%M
    (fun e => emit (EvError "Error processing message")).

(** A feed session: the messages are handed to [on_message] one after the
    other; an exception raised by the callback would end the session. *)
Fixpoint deliver (messages : list string) : M unit :=
  match messages with
  | [] => ret tt
  | message :: rest => (on_message message ;;; deliver rest)%M
  end.

(** ** Notions used to state the properties *)

(** The trades handed to [send_to_kafka], in order. *)
Definition published (tr : list event) : list TradeData :=
  flat_map (fun ev => match ev with EvPublish td => [td] | _ => [] end) tr.

(** The connection attempts and the sleeps, in order. *)
Definition schedule (tr : list event) : list event :=
  filter (fun ev => match ev with EvConnect | EvSleep _ => true | _ => false end) tr.

(** [n] attempts with a sleep of [retry_delay] between consecutive ones. *)
Definition attempts_with_delays (n : nat) : list event :=
  match n with
  | O => []
  | S n' => EvConnect :: List.concat (repeat [EvSleep retry_delay; EvConnect] n')
  end.

(** A message that the decoding of [on_message] turns into [trade_data]:
    it parses, passes the test of the trade kind, and normalizes. *)
Definition decodes (message : string) (trade_data : TradeData) : Prop :=
  exists data,
    json_loads message = Ok data /\
    is_agg_trade data = Ok true /\
    normalize data = Ok trade_data.

(** A message for which the decoding stops before [send_to_kafka]. *)
Definition dropped (message : string) : Prop :=
  (exists e, json_loads message = Raise e) \/
  (exists data, json_loads message = Ok data /\ is_agg_trade data <> Ok true) \/
  (exists data e,
     json_loads message = Ok data /\
     is_agg_trade data = Ok true /\
     normalize data = Raise e).

(** A valid aggregate-trade message and its trade: a JSON object whose
    [e] is ['aggTrade'] and that has the six fields, the price and the
    quantity being values [float] accepts. *)
Definition valid_agg_trade (message : string) (trade_data : TradeData) : Prop :=
  exists items p q,
    json_loads message = Ok (JDict items) /\
    dict_get items "e" = Some (JStr "aggTrade") /\
    dict_get items "s" = Some (td_symbol trade_data) /\
    dict_get items "p" = Some p /\ py_float p = Ok (td_price trade_data) /\
    dict_get items "q" = Some q /\ py_float q = Ok (td_quantity trade_data) /\
    dict_get items "T" = Some (td_timestamp trade_data) /\
    dict_get items "m" = Some (td_is_buyer_maker trade_data) /\
    dict_get items "a" = Some (td_trade_id trade_data).

Definition required_fields : list string := ["s"; "p"; "q"; "T"; "m"; "a"].

(** A message that cannot be parsed. *)
Definition unparseable (message : string) : Prop :=
  exists e, json_loads message = Raise e.

(** An aggregate trade without one of its required fields. *)
Definition missing_field (message : string) : Prop :=
  exists items field,
    json_loads message = Ok (JDict items) /\
    dict_get items "e" = Some (JStr "aggTrade") /\
    In field required_fields /\
    dict_get items field = None.

(** A message of another kind: it parses, but not to an object whose [e]
    is ['aggTrade']. *)
Definition other_kind (message : string) : Prop :=
  exists data,
    json_loads message = Ok data /\
    ~ (exists items, data = JDict items /\
                     dict_get items "e" = Some (JStr "aggTrade")).

Definition malformed (message : string) : Prop :=
  unparseable message \/ missing_field message \/ other_kind message.

(** Computations that publish nothing; computations that never raise. *)
Definition quiet {A : Type} (m : M A) : Prop :=
  forall w, published (trace (snd (m w))) = published (trace w).

Definition never_raises {A : Type} (m : M A) : Prop :=
  forall w, exists a, fst (m w) = Ok a.

(** A session whose messages are labelled: [Some trade] for a message that
    decodes to [trade], [None] for a dropped one. *)
Definition labelled (m : string * option TradeData) : Prop :=
  match snd m with
  | Some trade_data => decodes (fst m) trade_data
  | None => dropped (fst m)
  end.

Definition trades (ms : list (string * option TradeData)) : list TradeData :=
  flat_map (fun m => match snd m with Some td => [td] | None => [] end) ms.

End Methods.

End BinanceProducer.

(* ================================================================== *)
(** * Part V. A reference implementation of the library calls         *)
(* ================================================================== *)

(** [json.loads] and [float] as CPython implements them, on strings of
    8-bit characters (a [\uXXXX] escape is stored in UTF-8).  They are used
    to run the producer on concrete messages. *)
Module Reference.
Import Producer.

Definition chr (n : nat) : ascii := ascii_of_nat n.
Definition ord (c : ascii) : nat := nat_of_ascii c.
Definition quote : ascii := chr 34.
Definition backslash : ascii := chr 92.

Definition digit_value (c : ascii) : Z := Z.of_nat (ord c) - 48.
Definition lower (c : ascii) : ascii :=
  if (65 <=? ord c)%nat && (ord c <=? 90)%nat then chr (ord c + 32) else c.

(** ** [float] *)

(** The binary64 number nearest to the integer [m * 2^e] (ties to even). *)
Definition z2f (m e : Z) : float := SF2Prim (binary_normalize prec emax m e false).

(** The binary64 number nearest to [m * 10^e10], for [m >= 0], with the sign
    [neg].  A negative exponent is a division, carried out with 64 bits more
    than the quotient needs and a sticky bit for the remainder. *)
Definition decimal_to_float (neg : bool) (m e10 : Z) : float :=
  let x :=
    if m =? 0 then 0%float
    else if 0 <=? e10 then z2f (m * 10 ^ e10) 0
    else
      let d := 10 ^ (- e10) in
      let extra := Z.max 0 (Z.log2 d - Z.log2 m + 64) in
      let n := m * 2 ^ extra in
      let sticky := if n mod d =? 0 then 0 else 1 in
      z2f (2 * (n / d) + sticky) (- (extra + 1)) in
  if neg then PrimFloat.opp x else x.

(** A run of digits, [acc] and [n] being the value and the number of the
    digits read so far; with [underscores], single underscores between
    digits are skipped, as in a Python numeric literal. *)
Fixpoint digit_run (underscores : bool) (l : list ascii) (acc : Z) (n : nat)
    : Z * nat * list ascii :=
  match l with
  | c :: l' =>
      if is_digit c then digit_run underscores l' (10 * acc + digit_value c) (S n)
      else if underscores && Ascii.eqb c "_" && (0 <? n)%nat then
        match l' with
        | d :: _ => if is_digit d then digit_run underscores l' acc n else (acc, n, l)
        | [] => (acc, n, l)
        end
      else (acc, n, l)
  | [] => (acc, n, l)
  end.

Definition is_space (c : ascii) : bool :=
  Ascii.eqb c " " || ((9 <=? ord c)%nat && (ord c <=? 13)%nat).

Fixpoint lstrip (l : list ascii) : list ascii :=
  match l with
  | c :: l' => if is_space c then lstrip l' else l
  | [] => []
  end.

Definition strip (l : list ascii) : list ascii := rev (lstrip (rev (lstrip l))).

Definition take_sign (l : list ascii) : bool * list ascii :=
  match l with
  | c :: l' =>
      if Ascii.eqb c "-" then (true, l')
      else if Ascii.eqb c "+" then (false, l')
      else (false, l)
  | [] => (false, l)
  end.

(** The exponent part [e[+-]digits] at the head of [l], if there is one. *)
Definition exponent_part (underscores : bool) (l : list ascii)
    : option (Z * list ascii) :=
  match l with
  | c :: l' =>
      if Ascii.eqb (lower c) "e" then
        let (eneg, l'') := take_sign l' in
        let '(ev, n, rest) := digit_run underscores l'' 0 0 in
        if (0 <? n)%nat then Some (if eneg then - ev else ev, rest) else None
      else None
  | [] => None
  end.

(** [float(s)] for a string. *)
Definition parse_float (s : string) : result float :=
  let (neg, l) := take_sign (strip (list_ascii_of_string s)) in
  let word := string_of_list_ascii (map lower l) in
  if (word =? "inf")%string || (word =? "infinity")%string then
    Ok (if neg then PrimFloat.neg_infinity else PrimFloat.infinity)
  else if (word =? "nan")%string then Ok PrimFloat.nan
  else
    let '(ip, n1, r1) := digit_run true l 0 0 in
    let '(m, n2, r2) :=
      match r1 with
      | c :: r => if Ascii.eqb c "." then digit_run true r ip 0 else (ip, O, r1)
      | [] => (ip, O, r1)
      end in
    if (n1 + n2 =? 0)%nat then Raise ValueError
    else
      match r2 with
      | [] => Ok (decimal_to_float neg m (- Z.of_nat n2))
      | _ :: _ =>
          match exponent_part true r2 with
          | Some (ev, []) => Ok (decimal_to_float neg m (ev - Z.of_nat n2))
          | _ => Raise ValueError
          end
      end.

(** [float(n)] for an integer. *)
Definition int_to_float (n : Z) : result float :=
  let x := z2f n 0 in
  if PrimFloat.is_infinity x then Raise OverflowError else Ok x.

(** ** [json.loads] *)

Fixpoint skip_ws (l : list ascii) : list ascii :=
  match l with
  | c :: l' =>
      if Ascii.eqb c " " || (ord c =? 9)%nat || (ord c =? 10)%nat || (ord c =? 13)%nat
      then skip_ws l'
      else l
  | [] => []
  end.

Fixpoint starts_with (p l : list ascii) : option (list ascii) :=
  match p, l with
  | [], _ => Some l
  | a :: p', b :: l' => if Ascii.eqb a b then starts_with p' l' else None
  | _ :: _, [] => None
  end.

Definition hex_value (c : ascii) : option Z :=
  let n := ord (lower c) in
  if is_digit c then Some (digit_value c)
  else if (97 <=? n)%nat && (n <=? 102)%nat then Some (Z.of_nat n - 87)
  else None.

Definition hex4 (l : list ascii) : option (Z * list ascii) :=
  match l with
  | a :: b :: c :: d :: rest =>
      match hex_value a, hex_value b, hex_value c, hex_value d with
      | Some x, Some y, Some z, Some t => Some (((x * 16 + y) * 16 + z) * 16 + t, rest)
      | _, _, _, _ => None
      end
  | _ => None
  end.

Definition byte (n : Z) : ascii := chr (Z.to_nat n).

(** The UTF-8 bytes of a code point, last byte first. *)
Definition utf8_rev (cp : Z) : list ascii :=
  if cp <? 128 then [byte cp]
  else if cp <? 2048 then [byte (128 + cp mod 64); byte (192 + cp / 64)]
  else if cp <? 65536 then
    [byte (128 + cp mod 64); byte (128 + (cp / 64) mod 64); byte (224 + cp / 4096)]
  else
    [byte (128 + cp mod 64); byte (128 + (cp / 64) mod 64);
     byte (128 + (cp / 4096) mod 64); byte (240 + cp / 262144)].

(** The rest of a string literal after its opening quote; [acc] holds the
    characters read, last first. *)
Fixpoint scan_string (fuel : nat) (l acc : list ascii) : option (string * list ascii) :=
  match fuel with
  | O => None
  | S fuel' =>
      match l with
      | [] => None
      | c :: l' =>
          if Ascii.eqb c quote then Some (string_of_list_ascii (rev acc), l')
          else if Ascii.eqb c backslash then
            match l' with
            | [] => None
            | e :: l'' =>
                if Ascii.eqb e quote || Ascii.eqb e backslash || Ascii.eqb e "/"
                then scan_string fuel' l'' (e :: acc)
                else if Ascii.eqb e "b" then scan_string fuel' l'' (chr 8 :: acc)
                else if Ascii.eqb e "f" then scan_string fuel' l'' (chr 12 :: acc)
                else if Ascii.eqb e "n" then scan_string fuel' l'' (chr 10 :: acc)
                else if Ascii.eqb e "r" then scan_string fuel' l'' (chr 13 :: acc)
                else if Ascii.eqb e "t" then scan_string fuel' l'' (chr 9 :: acc)
                else if Ascii.eqb e "u" then
                  match hex4 l'' with
                  | None => None
                  | Some (hi, rest) =>
                      let pair :=
                        if (55296 <=? hi) && (hi <=? 56319) then
                          match starts_with [backslash; "u"%char] rest with
                          | Some rest' =>
                              match hex4 rest' with
                              | Some (lo, rest'') =>
                                  if (56320 <=? lo) && (lo <=? 57343)
                                  then Some (65536 + (hi - 55296) * 1024 + (lo - 56320), rest'')
                                  else None
                              | None => None
                              end
                          | None => None
                          end
                        else None in
                      match pair with
                      | Some (cp, rest'') => scan_string fuel' rest'' (utf8_rev cp ++ acc)
                      | None => scan_string fuel' rest (utf8_rev hi ++ acc)
                      end
                  end
                else None
            end
          else if (ord c <? 32)%nat then None
          else scan_string fuel' l' (c :: acc)
      end
  end.

(** A number: an optional minus sign, an integer part without leading
    zero, then optionally a point with digits and an exponent; an [int]
    without fraction and exponent, a [float] otherwise. *)
Definition scan_number (l : list ascii) : option (json * list ascii) :=
  let (neg, l1) :=
    match l with
    | c :: r => if Ascii.eqb c "-" then (true, r) else (false, l)
    | [] => (false, l)
    end in
  match l1 with
  | c :: r =>
      if is_digit c then
        let '(ip, _, r1) :=
          if Ascii.eqb c "0" then (0, 1%nat, r) else digit_run false l1 0 0 in
        let '(m, n2, r2) :=
          match r1 with
          | p :: d :: _ =>
              if Ascii.eqb p "." && is_digit d
              then digit_run false (List.tl r1) ip 0
              else (ip, O, r1)
          | _ => (ip, O, r1)
          end in
        match exponent_part false r2 with
        | Some (ev, r3) => Some (JFloat (decimal_to_float neg m (ev - Z.of_nat n2)), r3)
        | None =>
            if (0 <? n2)%nat
            then Some (JFloat (decimal_to_float neg m (- Z.of_nat n2)), r2)
            else Some (JInt (if neg then - ip else ip), r2)
        end
      else None
  | [] => None
  end.

Definition scan_constant (l : list ascii) : option (json * list ascii) :=
  let word (w : string) (v : json) :=
    option_map (fun rest => (v, rest)) (starts_with (list_ascii_of_string w) l) in
  match word "null" JNull with
  | Some r => Some r
  | None =>
  match word "true" (JBool true) with
  | Some r => Some r
  | None =>
  match word "false" (JBool false) with
  | Some r => Some r
  | None =>
  match scan_number l with
  | Some r => Some r
  | None =>
  match word "NaN" (JFloat PrimFloat.nan) with
  | Some r => Some r
  | None =>
  match word "Infinity" (JFloat PrimFloat.infinity) with
  | Some r => Some r
  | None => word "-Infinity" (JFloat PrimFloat.neg_infinity)
  end end end end end end.

(** One value at the head of [l]; the members of an object after its
    opening brace; the elements of an array after its opening bracket. *)
Fixpoint scan_value (fuel : nat) (l : list ascii) : option (json * list ascii) :=
  match fuel with
  | O => None
  | S fuel' =>
      match l with
      | [] => None
      | c :: r =>
          if Ascii.eqb c quote then
            match scan_string (S (List.length r)) r [] with
            | Some (s, rest) => Some (JStr s, rest)
            | None => None
            end
          else if Ascii.eqb c "{" then
            match skip_ws r with
            | d :: r' =>
                if Ascii.eqb d "}" then Some (JDict [], r')
                else scan_members fuel' (d :: r') []
            | [] => None
            end
          else if Ascii.eqb c "[" then
            match skip_ws r with
            | d :: r' =>
                if Ascii.eqb d "]" then Some (JList [], r')
                else scan_elements fuel' (d :: r') []
            | [] => None
            end
          else scan_constant l
      end
  end

with scan_members (fuel : nat) (l : list ascii) (items : list (string * json))
    : option (json * list ascii) :=
  match fuel with
  | O => None
  | S fuel' =>
      match l with
      | c :: r =>
          if Ascii.eqb c quote then
            match scan_string (S (List.length r)) r [] with
            | Some (key, r1) =>
                match skip_ws r1 with
                | colon :: r2 =>
                    if Ascii.eqb colon ":" then
                      match scan_value fuel' (skip_ws r2) with
                      | Some (value, r3) =>
                          let items' := dict_set items key value in
                          match skip_ws r3 with
                          | d :: r4 =>
                              if Ascii.eqb d "}" then Some (JDict items', r4)
                              else if Ascii.eqb d ","
                              then scan_members fuel' (skip_ws r4) items'
                              else None
                          | [] => None
                          end
                      | None => None
                      end
                    else None
                | [] => None
                end
            | None => None
            end
          else None
      | [] => None
      end
  end

with scan_elements (fuel : nat) (l : list ascii) (elements : list json)
    : option (json * list ascii) :=
  match fuel with
  | O => None
  | S fuel' =>
      match scan_value fuel' l with
      | Some (value, r1) =>
          match skip_ws r1 with
          | d :: r2 =>
              if Ascii.eqb d "]" then Some (JList (elements ++ [value]), r2)
              else if Ascii.eqb d ","
              then scan_elements fuel' (skip_ws r2) (elements ++ [value])
              else None
          | [] => None
          end
      | None => None
      end
  end.

(** [json.loads(s)]. *)
Definition loads (s : string) : result json :=
  let l := list_ascii_of_string s in
  match scan_value (2 * List.length l + 2) (skip_ws l) with
  | Some (value, rest) =>
      match skip_ws rest with
      | [] => Ok value
      | _ :: _ => Raise JSONDecodeError
      end
  | None => Raise JSONDecodeError
  end.

Definition library : Library :=
  {| json_loads := loads;
     float_of_str := parse_float;
     float_of_int := int_to_float |}.

(** ** Messages and buses used in the examples *)

Definition quoted (s : string) : string :=
  (String quote s ++ String quote EmptyString)%string.

(** The trade message of the scenario,
    [{"e":"aggTrade","s":"BTCUSDT","p":"50000.5","q":"0.01",
      "T":1699564800000,"m":true,"a":123}]. *)
Definition agg_trade_message : string :=
  ("{" ++ quoted "e" ++ ":" ++ quoted "aggTrade" ++ ","
       ++ quoted "s" ++ ":" ++ quoted "BTCUSDT" ++ ","
       ++ quoted "p" ++ ":" ++ quoted "50000.5" ++ ","
       ++ quoted "q" ++ ":" ++ quoted "0.01" ++ ","
       ++ quoted "T" ++ ":1699564800000,"
       ++ quoted "m" ++ ":true,"
       ++ quoted "a" ++ ":123}")%string.

#[local] Set Warnings "-inexact-float".
Definition agg_trade : TradeData :=
  mkTradeData (JStr "BTCUSDT") 50000.5%float 0.01%float
    (JInt 1699564800000) (JBool true) (JInt 123).

(** A trade without its price, [{"e":"aggTrade","s":"BTCUSDT"}]. *)
Definition truncated_message : string :=
  ("{" ++ quoted "e" ++ ":" ++ quoted "aggTrade" ++ ","
       ++ quoted "s" ++ ":" ++ quoted "BTCUSDT" ++ "}")%string.

(** A bus that accepts every connection and every record. *)
Definition reliable_bus : Bus :=
  {| KafkaProducer_new _ := Ok tt;
     kafka_send _ _ _ _ := Ok tt;
     time_time n := PrimFloat.of_uint63 (Uint63.of_Z (Z.of_nat n)) |}.

(** A bus that cannot be reached. *)
Definition unreachable_bus : Bus :=
  {| KafkaProducer_new _ := Raise KafkaError;
     kafka_send _ _ _ _ := Raise KafkaError;
     time_time n := PrimFloat.of_uint63 (Uint63.of_Z (Z.of_nat n)) |}.

(** A bus that is reached at the fourth attempt. *)
Definition slow_bus : Bus :=
  {| KafkaProducer_new attempt := if (attempt <? 3)%nat then Raise KafkaError else Ok tt;
     kafka_send _ _ _ _ := Ok tt;
     time_time n := PrimFloat.of_uint63 (Uint63.of_Z (Z.of_nat n)) |}.

(** The producer after [__init__] with the default environment. *)
Definition fresh : World :=
  mkWorld (mkProducer "crypto-trades" 1 None 0 0) [].

(** The same producer once connected. *)
Definition connected : World :=
  mkWorld (mkProducer "crypto-trades" 1 (Some tt) 0 0) [].

End Reference.

(* ================================================================== *)
(** * Part V.a. More of Python: [strip], [lower], sets, [sorted]      *)
(* ================================================================== *)

Module PyMore.

(** [c.isspace()] for a character below 256. *)
Definition is_whitespace (c : ascii) : bool :=
  let n := nat_of_ascii c in
  ((9 <=? n)%nat && (n <=? 13)%nat) || ((28 <=? n)%nat && (n <=? 32)%nat)
  || (n =? 133)%nat || (n =? 160)%nat.

Fixpoint lstrip (l : list ascii) : list ascii :=
  match l with
  | c :: l' => if is_whitespace c then lstrip l' else l
  | [] => []
  end.

(** [s.strip()]. *)
Definition str_strip (s : string) : string :=
  string_of_list_ascii (rev (lstrip (rev (lstrip (list_ascii_of_string s))))).

(** [c.lower()] for a character below 256: the letters A-Z and the
    accented capitals of Latin-1. *)
Definition chr_lower (c : ascii) : ascii :=
  let n := nat_of_ascii c in
  if ((65 <=? n)%nat && (n <=? 90)%nat)
     || ((192 <=? n)%nat && (n <=? 222)%nat && negb (n =? 215)%nat)
  then ascii_of_nat (n + 32)
  else c.

(** [s.lower()]. *)
Fixpoint str_lower (s : string) : string :=
  match s with
  | EmptyString => EmptyString
  | String c s' => String (chr_lower c) (str_lower s')
  end.

(** A [set] of strings, as the list of its elements in the order they were
    added; [symbols.add(s)]. *)
Definition set_add (s : string) (elements : list string) : list string :=
  if existsb (String.eqb s) elements then elements else elements ++ [s].

(** [sorted(l)] on strings: a stable sort by [<=]. *)
Fixpoint insert_str (s : string) (l : list string) : list string :=
  match l with
  | [] => [s]
  | t :: l' => if String.leb s t then s :: t :: l' else t :: insert_str s l'
  end.
Definition sorted_str (l : list string) : list string :=
  fold_right insert_str [] l.

(** [str(n)] for an integer. *)
Fixpoint decimal (fuel : nat) (n : Z) (digits : string) : string :=
  let digits := String (ascii_of_nat (48 + Z.to_nat (n mod 10))) digits in
  match fuel with
  | O => digits
  | S fuel' => if n / 10 =? 0 then digits else decimal fuel' (n / 10) digits
  end.
Definition str_of_int (n : Z) : string :=
  if n <? 0 then String "-"%char (decimal (Z.to_nat (Z.log2 (- n))) (- n) "")
  else decimal (Z.to_nat (Z.log2 n)) n "".

End PyMore.

(* ================================================================== *)
(** * Part V.b. [data_loader.py]: the listings of symbols and dates   *)
(* ================================================================== *)

Module Listing.
Import PyMore DataLoader.

(** [Path.is_dir]. *)
Class Directories : Type := { is_dir : Path -> bool }.

(** [path.name]: the final component (empty for the root alone). *)
Definition path_name (p : Path) : string :=
  match p with
  | [root] => if (root =? "/")%string then "" else root
  | _ => last p ""
  end.

Section Listings.
Context {V : Type} {storage : Storage V} {dirs : Directories}.

(** The loop over the paths of one glob, common to the two listings:
    [if path.is_dir(): names.add(path.name.split("=")[1])]. *)
Fixpoint add_names (paths : list Path) (names : list string) : result (list string) :=
  match paths with
  | [] => Ok names
  | path :: rest =>
      if is_dir path then
        (name <- list_getitem (str_split "="%char (path_name path)) 1 ;;
         add_names rest (set_add name names))%result
      else add_names rest names
  end.

(** [for pattern in [...]: for path in self.output_dir.glob(pattern): ...]. *)
Fixpoint scan_patterns (self : t) (patterns : list string) (symbols : list string)
    : result (list string) :=
  match patterns with
  | [] => Ok symbols
  | pattern :: rest =>
      (symbols' <- add_names (glob (output_dir self) pattern) symbols ;;
       scan_patterns self rest symbols')%result
  end.

Definition get_available_symbols (self : t) : result (list string) :=
  (symbols <- scan_patterns self ["ohlc/symbol=*"; "volatility/symbol=*"] [] ;;
   Ok (sorted_str symbols))%result.

(** [Path.glob] refuses a pattern one of whose components holds [**]
    without being [**]: pathlib raises [ValueError] ("Invalid pattern: '**'
    can only be an entire path component") when the loop asks for the first
    path.  The patterns of [get_available_symbols] are literals that pass
    this test; the pattern of [get_available_dates] is built from the
    symbol of the request. *)
Definition invalid_component (component : string) : bool :=
  str_contains "**" component && negb (component =? "**")%string.

Definition glob_accepts (pattern : string) : bool :=
  negb (existsb invalid_component (str_split "/"%char pattern)).

Definition path_glob (base_dir : Path) (pattern : string) : result (list Path) :=
  if glob_accepts pattern then Ok (glob base_dir pattern) else Raise ValueError.

Definition get_available_dates (self : t) (symbol : option string)
    : result (list string) :=
  let base_dir := if truthy_str symbol then ohlc_dir self else output_dir self in
  let pattern :=
    match symbol with
    | Some s =>
        if truthy_str symbol then ("ohlc/symbol=" ++ s ++ "/date=*")%string
        else "ohlc/symbol=*/date=*"
    | None => "ohlc/symbol=*/date=*"
    end in
  (paths <- path_glob base_dir pattern ;;
   dates <- add_names paths [] ;;
   Ok (sorted_str dates))%result.

(** ** Notions used to state the properties *)

(** The value a directory name carries after its first [=]. *)
Definition name_value (p : Path) : option string :=
  nth_error (str_split "="%char (path_name p)) 1.

(** The directories among the paths of the two globs of
    [get_available_symbols]. *)
Definition symbol_dirs (self : t) : list Path :=
  filter is_dir (glob (output_dir self) "ohlc/symbol=*"
                 ++ glob (output_dir self) "volatility/symbol=*").

(** The base directory and the pattern of the glob of
    [get_available_dates]. *)
Definition dates_base (self : t) (symbol : option string) : Path :=
  if truthy_str symbol then ohlc_dir self else output_dir self.

Definition dates_pattern (symbol : option string) : string :=
  match symbol with
  | Some s =>
      if truthy_str symbol then ("ohlc/symbol=" ++ s ++ "/date=*")%string
      else "ohlc/symbol=*/date=*"
  | None => "ohlc/symbol=*/date=*"
  end.

Definition date_dirs (self : t) (symbol : option string) : list Path :=
  filter is_dir (glob (dates_base self symbol) (dates_pattern symbol)).

(** What [Path.glob] promises for a pattern whose last component is
    [key=*]: the name of every path found starts with [key=]. *)
Definition names_start_with (key : string) (paths : list Path) : Prop :=
  forall p, In p paths -> startswith (path_name p) key = true.

(** A string that holds no [=]. *)
Definition no_equals (s : string) : Prop :=
  ~ In "="%char (list_ascii_of_string s).

(** A listing in strictly ascending order, hence without duplicates. *)
Definition strictly_ascending (l : list string) : Prop :=
  StronglySorted (fun a b => str_lt a b = true) l.

End Listings.

(** ** A storage given by its directory tree

    Each entry is a path and whether it is a directory.  [base.glob(pattern)]
    lists the entries below [base] whose relative path matches the pattern
    component by component; a pattern component is a literal, or a literal
    followed by one [*] (the patterns of this file). *)
Definition component_matches (pattern name : string) : bool :=
  if str_endswith pattern "*"
  then String.prefix (String.substring 0 (String.length pattern - 1) pattern) name
  else (pattern =? name)%string.

Fixpoint components_match (patterns names : list string) : bool :=
  match patterns, names with
  | [], [] => true
  | p :: patterns', n :: names' => component_matches p n && components_match patterns' names'
  | _, _ => false
  end.

Fixpoint relative_to (base p : Path) : option Path :=
  match base, p with
  | [], _ => Some p
  | b :: base', a :: p' => if (a =? b)%string then relative_to base' p' else None
  | _ :: _, [] => None
  end.

Definition tree_glob (entries : list (Path * bool)) (base : Path) (pattern : string)
    : list Path :=
  filter (fun p =>
            match relative_to base p with
            | Some rel => components_match (str_split "/"%char pattern) rel
            | None => false
            end)
         (map fst entries).

Definition tree_dirs (entries : list (Path * bool)) : Directories :=
  {| is_dir p := existsb (fun e => path_eqb (fst e) p && snd e) entries |}.

(** A storage with a directory tree and the parquet files [files]: the
    glob of the loader is answered from [files], every other glob from the
    tree. *)
Definition storage_with_tree {V : Type} (entries : list (Path * bool))
    (files : list (Path * result (DataFrame V))) : Storage V :=
  {| glob base pattern :=
       if (pattern =? "**/*.parquet")%string
       then glob (Storage := storage_of files) base pattern
       else tree_glob entries base pattern;
     read_parquet := read_parquet (Storage := storage_of files) |}.

(** The layout the writer produces: two symbols under [ohlc], one of them
    with two dates, and one symbol under [volatility]. *)
Definition layout : list (Path * bool) :=
  [ (["data"; "outputs"; "ohlc"], true);
    (["data"; "outputs"; "ohlc"; "symbol=ETHUSD"], true);
    (["data"; "outputs"; "ohlc"; "symbol=ETHUSD"; "date=2023-11-09"], true);
    (["data"; "outputs"; "ohlc"; "symbol=BTCUSD"], true);
    (["data"; "outputs"; "ohlc"; "symbol=BTCUSD"; "date=2023-11-09"], true);
    (["data"; "outputs"; "ohlc"; "symbol=BTCUSD"; "date=2023-11-08"], true);
    (["data"; "outputs"; "ohlc"; "symbol=notes.txt"], false);
    (["data"; "outputs"; "volatility"], true);
    (["data"; "outputs"; "volatility"; "symbol=BTCUSD"], true);
    (["data"; "outputs"; "volatility"; "symbol=BTCUSD"; "date=2023-11-09"], true) ].

(** A directory whose name holds a second [=]. *)
Definition layout_with_equals : list (Path * bool) :=
  [ (["data"; "outputs"; "ohlc"], true);
    (["data"; "outputs"; "ohlc"; "symbol=BTC=USD"], true);
    (["data"; "outputs"; "volatility"; "symbol=ETHUSD"], true) ].

End Listing.

(* ================================================================== *)
(** * Part V.c. [routes/ohlc.py]: the latest bar of each symbol       *)
(* ================================================================== *)

Module Latest.
Import DataLoader Listing Routes.

(** One item of the answer of [get_latest_ohlc]. *)
Record LatestBar : Type := mkLatestBar {
  symbol : string;
  timestamp : string;
  open : float;
  high : float;
  low : float;
  close : float;
  volume : float
}.

(** [Timestamp.isoformat]. *)
Class Timestamps : Type := { isoformat : Z -> string }.

Section Endpoint.
Context {storage : Storage Bar} {sorter : SortValues Bar} {dirs : Directories}
        {timestamps : Timestamps}.
Variable loader : DataLoader.t.

(** [df.iloc[-1]]. *)
Definition iloc_last (df : DataFrame Bar) : result (Row Bar) :=
  list_getitem df (List.length df - 1).

(** Lines 78-86: the item built for [sym] from [row]. *)
Definition latest_bar (sym : string) (row : Row Bar) : LatestBar :=
  mkLatestBar sym (isoformat (row_timestamp row))
    (bar_open (row_values row)) (bar_high (row_values row))
    (bar_low (row_values row)) (bar_close (row_values row))
    (bar_volume (row_values row)).

(** Lines 74-86: the loop over the symbols; [latest] is the list [result]
    built so far. *)
Fixpoint latest_loop (symbols : list string) (latest : list LatestBar)
    : result (list LatestBar) :=
  match symbols with
  | [] => Ok latest
  | sym :: rest =>
      (df <- load_ohlc loader (Some sym) None None (Some 1) ;;
       match df with
       | [] => latest_loop rest latest
       | _ :: _ =>
           row <- iloc_last df ;;
           latest_loop rest (latest ++ [latest_bar sym row])
       end)%result
  end.

(** [get_latest_ohlc]; the answer [{"data": result}] is its list. *)
Definition get_latest_ohlc (symbol : option string) : reply (list LatestBar) :=
  match
    (symbols <- match symbol with
                | Some s =>
                    if truthy_str symbol then Ok [s]
                    else get_available_symbols loader
                | None => get_available_symbols loader
                end ;;
     match symbols with
     | [] => Ok []
     | _ :: _ => latest_loop symbols []
     end)%result
  with
  | Ok latest => Return latest
  | Raise e => HTTPException 500 (exn_str e)
  end.

(** Whether the files hold a bar for [sym], as [load_ohlc] selects them. *)
Definition has_bars (sym : string) : bool :=
  match load_ohlc loader (Some sym) None None None with
  | Ok (_ :: _) => true
  | _ => false
  end.

End Endpoint.

(** [isoformat] as the decimal numeral of the instant; enough to tell two
    instants apart in an example. *)
Definition numeral_timestamps : Timestamps :=
  {| isoformat ts := PyMore.str_of_int ts |}.

(** Bars of two symbols in the layout of [Listing.layout]. *)
Definition bars : list (Path * result (DataFrame Bar)) :=
  [ (part "BTCUSD" "2023-11-09",
     Ok [mkRow 30 "BTCUSD" (mkBar 3 3 3 3 1); mkRow 40 "BTCUSD" (mkBar 4 4 4 4 1)]);
    (part "BTCUSD" "2023-11-08",
     Ok [mkRow 10 "BTCUSD" (mkBar 1 1 1 1 1); mkRow 20 "BTCUSD" (mkBar 2 2 2 2 1)]);
    (part "ETHUSD" "2023-11-09",
     Ok [mkRow 15 "ETHUSD" (mkBar 7 7 7 7 1)]) ].

End Latest.

(* ================================================================== *)
(** * Part V.d. [routes/volatility.py]                                *)
(* ================================================================== *)

Module Volatility.
Import DataLoader Routes.

(** [models.VolatilityData] and [models.VolatilityResponse]. *)
Record VolatilityData : Type := mkVolatilityData {
  timestamp : Z;
  volatility : float;
  symbol : string
}.

Record VolatilityResponse : Type := mkVolatilityResponse {
  data : list VolatilityData;
  count : Z;
  response_symbol : option string
}.

(** [pd.notna] on a float: a missing value of the column is [NaN]. *)
Definition pd_notna (x : float) : bool := negb (PrimFloat.is_nan x).

(** The [VolatilityData] built from a row (lines 43-47); the value column
    of a volatility frame is the float [volatility]. *)
Definition volatility_data (row : Row float) : VolatilityData :=
  mkVolatilityData (row_timestamp row)
    (if pd_notna (row_values row) then row_values row else 0%float)
    (row_symbol row).

Section Endpoint.
Context {storage : Storage float} {sorter : SortValues float}.
Variable loader : DataLoader.t.

Definition get_volatility (symbol start_date end_date : option string)
    (limit : option Z) : reply VolatilityResponse :=
  match
    (df <- load_volatility loader symbol start_date end_date limit ;;
     match df with
     | [] => Ok (mkVolatilityResponse [] 0 symbol)
     | _ :: _ =>
         let data := map volatility_data df in
         Ok (mkVolatilityResponse data (Z.of_nat (List.length data)) symbol)
     end)%result
  with
  | Ok response => Return response
  | Raise e => HTTPException 500 (exn_str e)
  end.

End Endpoint.

(** Two days of volatility of BTCUSD, the first value missing. *)
Definition two_values : Storage float :=
  storage_of
    [ (["data"; "outputs"; "volatility"; "symbol=BTCUSD"; "date=2023-11-09";
        "part-0.parquet"],
       Ok [mkRow 3 "BTCUSD" 0.5%float]);
      (["data"; "outputs"; "volatility"; "symbol=BTCUSD"; "date=2023-11-08";
        "part-0.parquet"],
       Ok [mkRow 1 "BTCUSD" nan; mkRow 2 "BTCUSD" 0.25%float]) ].

End Volatility.

(* ================================================================== *)
(** * Part V.e. [routes/visualizations.py]                            *)
(* ================================================================== *)

Module Visualizations.
Import PyMore DataLoader Routes.

(** The traces of a figure, with the arguments the endpoints give. *)
Inductive Trace : Type :=
| Candlestick (x : list Z) (open high low close : list float) (name : string)
| Scatter (x : list Z) (y : list float) (mode name : string) (fill : option string)
          (line_color : string) (line_width : Z)
| Bar (x : list Z) (y : list float) (name marker_color : string).

(** The arguments of [fig.update_layout]. *)
Record Layout : Type := mkLayout {
  title : string;
  xaxis_title : string;
  yaxis_title : string;
  template : string;
  height : Z
}.

(** A [go.Figure]: its traces in the order they were added, and its layout
    ([None] before [update_layout]).  The endpoints answer with the figure
    as a JSON value; the encoding is not modelled. *)
Record Figure : Type := mkFigure {
  fig_data : list Trace;
  fig_layout : option Layout
}.

Definition go_Figure (data : list Trace) : Figure := mkFigure data None.
Definition add_trace (fig : Figure) (trace : Trace) : Figure :=
  mkFigure (fig_data fig ++ [trace]) (fig_layout fig).
Definition update_layout (fig : Figure) (layout : Layout) : Figure :=
  mkFigure (fig_data fig) (Some layout).

(** The columns of a frame. *)
Definition column {A : Type} (f : Routes.Bar -> A) (df : DataFrame Routes.Bar) : list A :=
  map (fun r => f (row_values r)) df.
Definition timestamps {V : Type} (df : DataFrame V) : list Z := map row_timestamp df.

(** What the body of an endpoint raises: an exception of the libraries, or
    the [HTTPException] of the framework (also an [Exception]). *)
Inductive raised : Type :=
| Exc (e : exn)
| Http (status_code : Z) (detail : string).

Inductive outcome (A : Type) : Type :=
| Done (a : A)
| Raised (r : raised).
Arguments Done {A} a.
Arguments Raised {A} r.

(** The result of the loader inside the body of an endpoint. *)
Definition loaded {V A : Type} (m : result (DataFrame V))
    (k : DataFrame V -> outcome A) : outcome A :=
  match m with
  | Ok df => k df
  | Raise e => Raised (Exc e)
  end.

(** [str(e)] for an [HTTPException] is given by the framework. *)
Class Framework : Type := { http_exception_str : Z -> string -> string }.

Section Endpoints.
Context {framework : Framework}.

Definition raised_str (r : raised) : string :=
  match r with
  | Exc e => exn_str e
  | Http status_code detail => http_exception_str status_code detail
  end.

(** [try: ... except Exception as e: raise HTTPException(500, str(e))]. *)
Definition guarded {A : Type} (body : outcome A) : reply A :=
  match body with
  | Done a => Return a
  | Raised r => HTTPException 500 (raised_str r)
  end.

(** What a chart of one symbol answers when it finds no data: the status
    500, with the text of the [HTTPException] of status 404. *)
Definition no_data_answer (symbol : string) : reply Figure :=
  HTTPException 500
    (http_exception_str 404 ("No data found for symbol " ++ symbol)%string).

Variable loader : DataLoader.t.

Section OHLC.
Context {storage : Storage Routes.Bar} {sorter : SortValues Routes.Bar}.

Definition candlestick_chart (symbol : string) (limit : Z) : reply Figure :=
  guarded
    (loaded (load_ohlc loader (Some symbol) None None (Some limit)) (fun df =>
     match df with
     | [] => Raised (Http 404 ("No data found for symbol " ++ symbol)%string)
     | _ :: _ =>
         (* Create candlestick chart *)
         let fig := go_Figure [Candlestick (timestamps df)
                                 (column bar_open df) (column bar_high df)
                                 (column bar_low df) (column bar_close df) symbol] in
         let fig := update_layout fig
                      (mkLayout (symbol ++ " Price Chart (Candlestick)")%string
                                "Time" "Price (USD)" "plotly_dark" 600) in
         Done fig
     end)).

Definition price_line_chart (symbol : string) (limit : Z) : reply Figure :=
  guarded
    (loaded (load_ohlc loader (Some symbol) None None (Some limit)) (fun df =>
     match df with
     | [] => Raised (Http 404 ("No data found for symbol " ++ symbol)%string)
     | _ :: _ =>
         let fig := go_Figure [] in
         let fig := add_trace fig
                      (Scatter (timestamps df) (column bar_close df) "lines"
                               "Close Price" None "#00d4ff" 2) in
         let fig := update_layout fig
                      (mkLayout (symbol ++ " Closing Price Over Time")%string
                                "Time" "Price (USD)" "plotly_dark" 500) in
         Done fig
     end)).

Definition colors : list string :=
  ["#00d4ff"; "#ff6b6b"; "#4ecdc4"; "#ffe66d"; "#a8e6cf"].

(** Lines 145-154: the loop over [enumerate(symbol_list)], from index [i]. *)
Fixpoint add_symbols (i : nat) (symbol_list : list string) (limit : Z) (fig : Figure)
    : outcome Figure :=
  match symbol_list with
  | [] => Done fig
  | symbol :: rest =>
      loaded (load_ohlc loader (Some symbol) None None (Some limit)) (fun df =>
      match df with
      | [] => add_symbols (S i) rest limit fig
      | _ :: _ =>
          match list_getitem colors (i mod List.length colors) with
          | Ok color =>
              add_symbols (S i) rest limit
                (add_trace fig
                   (Scatter (timestamps df) (column bar_close df) "lines" symbol
                            None color 2))
          | Raise e => Raised (Exc e)
          end
      end)
  end.

Definition multi_symbol_chart (symbols : string) (limit : Z) : reply Figure :=
  guarded
    (let symbol_list := map str_strip (str_split ","%char symbols) in
     let fig := go_Figure [] in
     match add_symbols 0 symbol_list limit fig with
     | Done fig =>
         let fig := update_layout fig
                      (mkLayout "Multi-Symbol Price Comparison"
                                "Time" "Price (USD)" "plotly_dark" 600) in
         Done fig
     | Raised r => Raised r
     end).

Definition volume_chart (symbol : string) (limit : Z) : reply Figure :=
  guarded
    (loaded (load_ohlc loader (Some symbol) None None (Some limit)) (fun df =>
     match df with
     | [] => Raised (Http 404 ("No data found for symbol " ++ symbol)%string)
     | _ :: _ =>
         let fig := go_Figure [] in
         let fig := add_trace fig
                      (Bar (timestamps df) (column bar_volume df) "Volume" "#4ecdc4") in
         let fig := update_layout fig
                      (mkLayout (symbol ++ " Trading Volume")%string
                                "Time" "Volume" "plotly_dark" 400) in
         Done fig
     end)).

(** The bars a chart of [symbol] with [limit] is drawn from. *)
Definition chart_bars (symbol : string) (limit : Z) : DataFrame Routes.Bar :=
  match load_ohlc loader (Some symbol) None None (Some limit) with
  | Ok df => df
  | Raise _ => []
  end.

(** The trace [multi_symbol_chart] draws for the item at index [i]. *)
Definition symbol_trace (limit : Z) (i : nat) (symbol : string) : list Trace :=
  match chart_bars symbol limit with
  | [] => []
  | df =>
      [Scatter (timestamps df) (column bar_close df) "lines" symbol None
               (nth (i mod 5) colors "") 2]
  end.

End OHLC.

Section Vol.
Context {storage : Storage float} {sorter : SortValues float}.

Definition volatility_chart (symbol : string) (limit : Z) : reply Figure :=
  guarded
    (loaded (load_volatility loader (Some symbol) None None (Some limit)) (fun df =>
     match df with
     | [] => Raised (Http 404 ("No data found for symbol " ++ symbol)%string)
     | _ :: _ =>
         let fig := go_Figure [] in
         let fig := add_trace fig
                      (Scatter (timestamps df) (map (@row_values float) df) "lines"
                               "Volatility" (Some "tozeroy") "#ff6b6b" 2) in
         let fig := update_layout fig
                      (mkLayout (symbol ++ " Volatility Over Time")%string
                                "Time" "Volatility" "plotly_dark" 500) in
         Done fig
     end)).

End Vol.

End Endpoints.

(** The items of a list with their indices from [i]: [enumerate]. *)
Fixpoint enumerate_from {A : Type} (i : nat) (l : list A) : list (nat * A) :=
  match l with
  | [] => []
  | a :: l' => (i, a) :: enumerate_from (S i) l'
  end.

(** A framework whose [str(HTTPException)] is [status: detail]. *)
Definition starlette : Framework :=
  {| http_exception_str status_code detail :=
       (str_of_int status_code ++ ": " ++ detail)%string |}.

End Visualizations.

(* ================================================================== *)
(** * Part V.f. [binance_producer.py]: a feed session and [start]     *)
(* ================================================================== *)

Module Session.
Import Producer BinanceProducer.

Section Effects.
Context {library : Library} {bus : Bus}.

(** ** Notions used to state what a session does to the producer *)

(** The sends among [events] that Kafka acknowledges, where [n] records
    were sent before: the sends for which [future.get] returns. *)
Fixpoint acknowledged (n : nat) (events : list event) : Z :=
  match events with
  | [] => 0
  | EvSend topic key value :: rest =>
      (match kafka_send n topic key value with Ok _ => 1 | Raise _ => 0 end)
      + acknowledged (S n) rest
  | _ :: rest => acknowledged n rest
  end.

(** A send goes to [topic] with the key the serializer makes of the symbol
    of the trade sent. *)
Definition well_keyed (topic : string) (ev : event) : Prop :=
  match ev with
  | EvSend topic' key value =>
      topic' = topic /\ key_serializer (td_symbol value) = Ok key
  | _ => True
  end.

(** The producer object with its counter advanced by [d]. *)
Definition advanced (s : BinanceProducer) (d : Z) : BinanceProducer :=
  mkProducer (topic s) (replay_speed s) (producer s) (message_count s + d)
             (start_time s).

(** What a run from [w] to [w'] that adds the events [added] does: the
    counter advances by the number of acknowledged sends and nothing else
    of the object changes; every send is well keyed; there are no more
    sends than trades handed to [send_to_kafka]; without a Kafka producer
    nothing is sent. *)
Definition effect (w w' : World) (added : list event) : Prop :=
  w' = mkWorld (advanced (self w) (acknowledged (count_sends (trace w)) added))
               (trace w ++ added) /\
  Forall (well_keyed (topic (self w))) added /\
  (count_sends added <= List.length (published added))%nat /\
  (producer (self w) = None -> count_sends added = 0%nat).

(** Lines of the log. *)
Definition is_log (ev : event) : Prop :=
  match ev with
  | EvInfo _ | EvError _ => True
  | _ => False
  end.

(** Events that are no send. *)
Definition silent (events : list event) : Prop :=
  Forall (fun ev => match ev with EvSend _ _ _ => False | _ => True end) events.

End Effects.

End Session.

Module Start.
Import PyMore Producer BinanceProducer.

(** The calls of [start] on the WebSocket application and on the Kafka
    producer. *)
Inductive call : Type :=
| RunForever (ws_url : string)    (* self.ws.run_forever() *)
| Flush                           (* self.producer.flush() *)
| Close.                          (* self.producer.close() *)

(** How [run_forever] ends: it returns, it raises an exception, or the
    process is interrupted ([KeyboardInterrupt], which is no
    [Exception]). *)
Inductive ending : Type :=
| Disconnected
| Failed (e : exn)
| Interrupted.

(** One turn of the loop of [start] as the environment plays it: the
    messages the feed delivers, how [run_forever] ends, and whether the
    process is interrupted during the [time.sleep(5)] that follows. *)
Record session : Type := mkSession {
  messages : list string;
  how_ends : ending;
  sleep_interrupted : bool
}.

(** What is raised inside [start]. *)
Inductive signal : Type :=
| Exception (e : exn)
| KeyboardInterrupt.

(** Where [start] stands after the sessions played so far: inside its loop,
    returned after the cleanup, or left by an exception. *)
Inductive status : Type :=
| Running
| Returned
| Propagated (s : signal).

Record State : Type := mkState {
  world : World;
  calls : list call
}.

Section Methods.
Context {library : Library} {bus : Bus}.

Definition run {A : Type} (m : M A) (st : State) : result A * State :=
  (fst (m (world st)), mkState (snd (m (world st))) (calls st)).

Definition called (c : call) (st : State) : State :=
  mkState (world st) (calls st ++ [c]).

Definition logged (ev : event) (st : State) : State :=
  snd (run (emit ev) st).

(** Lines 138-140. *)
Definition streams (symbols : list string) : list string :=
  map (fun symbol => (str_lower symbol ++ "@aggTrade")%string) symbols.
Definition ws_url (symbols : list string) : string :=
  ("wss://stream.binance.com:9443/stream?streams="
   ++ String.concat "/" (streams symbols))%string.

(** [time.sleep(5)] in the loop. *)
Definition sleep (s : session) (st : State) : option signal * State :=
  if sleep_interrupted s then (Some KeyboardInterrupt, st)
  else match run (time_sleep 5) st with
       | (Ok _, st') => (None, st')
       | (Raise e, st') => (Some (Exception e), st')
       end.

(** Lines 158-160, the body of the [try]. *)
Definition try_body (url : string) (s : session) (st : State) : option signal * State :=
  let st := called (RunForever url) st in
  match run (deliver (messages s)) st with
  | (Raise e, st) => (Some (Exception e), st)
  | (Ok _, st) =>
      match how_ends s with
      | Failed e => (Some (Exception e), st)
      | Interrupted => (Some KeyboardInterrupt, st)
      | Disconnected =>
          let st :=
            logged (EvInfo "WebSocket disconnected, reconnecting in 5 seconds...") st in
          sleep s st
      end
  end.

(** Lines 168-171. *)
Definition cleanup (st : State) : State :=
  match producer (self (world st)) with
  | Some _ => called Close (called Flush st)
  | None => st
  end.

(** Lines 156-171: the loop, played against the sessions of [script], and
    the cleanup after its [break]. *)
Fixpoint run_loop (url : string) (script : list session) (st : State) : status * State :=
  match script with
  | [] => (Running, st)
  | s :: rest =>
      match try_body url s st with
      | (None, st) => run_loop url rest st
      | (Some KeyboardInterrupt, st) =>
          let st := logged (EvInfo "Shutting down producer...") st in
          (Returned, cleanup st)
      | (Some (Exception e), st) =>
          let st := logged (EvError "Unexpected error") st in
          match sleep s st with
          | (None, st) => run_loop url rest st
          | (Some raised, st) => (Propagated raised, st)
          end
      end
  end.

(** [start]; [symbols] is [self.symbols]. *)
Definition start (symbols : list string) (script : list session) (st : State)
    : status * State :=
  let st := logged (EvInfo "================") st in
  let st := logged (EvInfo "STARTING BINANCE PRODUCER - MILESTONE 1") st in
  let st := logged (EvInfo "================") st in
  (* Connect to Kafka *)
  match run connect_kafka st with
  | (Raise e, st) => (Propagated (Exception e), st)
  | (Ok _, st) =>
      (* Build WebSocket URL for multiple symbols *)
      let url := ws_url symbols in
      let st := logged (EvInfo "Connecting to Binance WebSocket...") st in
      let st := logged (EvInfo "Streaming") st in
      (* Run forever with automatic reconnection *)
      run_loop url script st
  end.

(** Kafka is reached at attempt [i] of [connect_kafka], not before. *)
Definition reached_at (i : nat) : Prop :=
  (i < max_retries)%nat /\
  (forall j, (j < i)%nat -> exists e, KafkaProducer_new j = Raise e) /\
  KafkaProducer_new i = Ok tt.

(** ** Notions used to state the properties *)

(** A session that does not interrupt the process. *)
Definition uninterrupted (s : session) : Prop :=
  how_ends s <> Interrupted /\ sleep_interrupted s = false.

(** A session that interrupts the process inside the [try]: in
    [run_forever], or in the sleep that follows a disconnection. *)
Definition interrupted_in_try (s : session) : Prop :=
  how_ends s = Interrupted \/ (how_ends s = Disconnected /\ sleep_interrupted s = true).

(** A session that interrupts the process in the sleep of the handler of
    [except Exception]. *)
Definition interrupted_in_handler (s : session) : Prop :=
  (exists e, how_ends s = Failed e) /\ sleep_interrupted s = true.

(** The sleeps among the events. *)
Definition sleeps (events : list event) : list float :=
  flat_map (fun ev => match ev with EvSleep seconds => [seconds] | _ => [] end) events.

(** A session whose messages are labelled as in [labelled]. *)
Definition labelled_session (s : session) (ms : list (string * option TradeData))
    : Prop :=
  messages s = map fst ms /\ Forall labelled ms.

End Methods.

(** A session of two messages that ends by a disconnection, one without
    message that ends by an error. *)
Definition two_sessions : list session :=
  [ mkSession [Reference.agg_trade_message; Reference.truncated_message]
      Disconnected false;
    mkSession [] (Failed OSError) false ].

(** A message of another kind, [{"e":"trade","s":"BTCUSDT"}]. *)
Definition other_message : string :=
  ("{" ++ Reference.quoted "e" ++ ":" ++ Reference.quoted "trade" ++ ","
       ++ Reference.quoted "s" ++ ":" ++ Reference.quoted "BTCUSDT" ++ "}")%string.

End Start.

(* ================================================================== *)
(** * Part V.g. [data_loader.py]: the search for files, with a date   *)
(* ================================================================== *)

Module Search.
Import DataLoader.

(** The test of the date filter of [_find_parquet_files] for
    [date_filter]. *)
Definition date_matches (date_filter : option string) (f : Path) : bool :=
  match date_filter with
  | Some d =>
      if truthy_str date_filter
      then str_contains ("date=" ++ d)%string (path_str f)
      else true
  | None => true
  end.

(** The directory [_find_parquet_files] searches for a data type. *)
Definition base_dir (self : t) (data_type : string) : option Path :=
  if (data_type =? "ohlc")%string then Some (ohlc_dir self)
  else if (data_type =? "volatility")%string then Some (vol_dir self)
  else None.

(** Paths in ascending order. *)
Definition ascending_paths (files : list Path) : Prop :=
  Sorted (fun p q => path_le p q = true) files.

End Search.

(* ================================================================== *)
(** * Part VI. Properties of the retrieval engine                     *)
(* ================================================================== *)

Module DataLoaderFacts.
Import DataLoader.

(** ** Strings and paths *)

Lemma str_split_cons (sep : ascii) (s : string) :
  exists w ws, str_split sep s = w :: ws.
Proof.
  induction s as [|c s IH]; simpl.
  - now exists EmptyString, [].
  - destruct (Ascii.eqb c sep).
    + now exists EmptyString, (str_split sep s).
    + destruct IH as (w & ws & ->). now exists (String c w), ws.
Qed.

Lemma prefix_app_inv (p s : string) :
  String.prefix p s = true -> exists rest, s = (p ++ rest)%string.
Proof.
  revert s. induction p as [|a p IH]; intros s H.
  - now exists s.
  - destruct s as [|b s]; cbn [String.prefix] in H; [discriminate|].
    destruct (ascii_dec a b) as [->|]; [|discriminate].
    destruct (IH s H) as (rest & ->). now exists rest.
Qed.

Lemma startswith_date_inv (part : string) :
  startswith part "date=" = true -> exists rest, part = ("date=" ++ rest)%string.
Proof. apply prefix_app_inv. Qed.

Lemma split_date_part (rest : string) :
  exists d ws, str_split "="%char ("date=" ++ rest)%string = "date" :: d :: ws.
Proof.
  destruct (str_split_cons "="%char rest) as (w & ws & E).
  exists w, ws. simpl. now rewrite E.
Qed.

Lemma extract_file_date_total (file : Path) :
  exists fd, extract_file_date file = Ok fd.
Proof.
  unfold extract_file_date.
  destruct (find _ file) as [part|] eqn:F; [|now exists None].
  apply find_some in F. destruct F as [_ F].
  apply startswith_date_inv in F. destruct F as (rest & ->).
  destruct (split_date_part rest) as (d & ws & E).
  exists (Some d). unfold list_getitem. now rewrite E.
Qed.

Lemma insert_path_perm (f : Path) (l : list Path) :
  Permutation (f :: l) (insert_path f l).
Proof.
  induction l as [|g l IH]; simpl; [reflexivity|].
  destruct (path_le f g); [reflexivity|].
  rewrite perm_swap. now apply perm_skip.
Qed.

Lemma sorted_perm (files : list Path) : Permutation files (sorted files).
Proof.
  induction files as [|f files IH]; simpl; [constructor|].
  rewrite <- insert_path_perm. now apply perm_skip.
Qed.

(** ** Sorted lists of rows *)

Section Retrieval.
Context {V : Type} {storage : Storage V} {sorter : SortValues V}.

Local Abbreviation Row := (Row V).
Local Abbreviation DataFrame := (DataFrame V).

Lemma ts_le_trans : RelationClasses.Transitive (@ts_le V).
Proof. intros a b c. unfold ts_le. lia. Qed.

Lemma StronglySorted_filter (f : Row -> bool) (l : DataFrame) :
  StronglySorted ts_le l -> StronglySorted ts_le (filter f l).
Proof.
  induction 1 as [|a l Hl IH Ha]; simpl; [constructor|].
  destruct (f a); [|assumption].
  constructor; [assumption|].
  rewrite Forall_forall in *. intros x Hx. apply filter_In in Hx. now apply Ha.
Qed.

Lemma StronglySorted_skipn (n : nat) (l : DataFrame) :
  StronglySorted ts_le l -> StronglySorted ts_le (skipn n l).
Proof.
  revert l. induction n as [|n IH]; intros l H; simpl; [assumption|].
  destruct l as [|a l]; [constructor|]. apply IH. now inversion H.
Qed.

Lemma StronglySorted_app_le (l1 l2 : DataFrame) :
  StronglySorted ts_le (l1 ++ l2) ->
  forall o r, In o l1 -> In r l2 -> ts_le o r.
Proof.
  induction l1 as [|a l1 IH]; simpl; intros H o r Ho Hr; [contradiction|].
  inversion H as [|? ? Hl Ha]; subst.
  destruct Ho as [<-|Ho].
  - rewrite Forall_forall in Ha. apply Ha, in_or_app. now right.
  - now apply IH.
Qed.

Lemma sort_values_strongly (df : DataFrame) :
  StronglySorted ts_le (sort_values df).
Proof. apply Sorted_StronglySorted; [exact ts_le_trans | apply sort_values_sorted]. Qed.

Lemma sort_values_nil : sort_values (@nil Row) = [].
Proof. apply Permutation_nil, sort_values_perm. Qed.

(** ** [DataFrame.tail] *)

Lemma tail_nil (n : Z) : tail n (@nil Row) = [].
Proof.
  unfold tail. destruct (n =? 0); [reflexivity|].
  destruct (0 <? n); now rewrite skipn_nil.
Qed.

Lemma tail_pos (k : Z) (df : DataFrame) :
  0 < k -> tail k df = skipn (List.length df - Z.to_nat k) df.
Proof.
  intros Hk. unfold tail.
  destruct (Z.eqb_spec k 0); [lia|].
  destruct (Z.ltb_spec 0 k); [reflexivity|lia].
Qed.

Lemma tail_pos_length (k : Z) (df : DataFrame) :
  0 < k -> Z.of_nat (List.length (tail k df)) = Z.min k (Z.of_nat (List.length df)).
Proof.
  intros Hk. rewrite tail_pos by assumption. rewrite length_skipn. lia.
Qed.

Lemma tail_pos_split (k : Z) (df : DataFrame) :
  0 < k -> df = firstn (List.length df - Z.to_nat k) df ++ tail k df.
Proof.
  intros Hk. rewrite tail_pos by assumption. symmetry. apply firstn_skipn.
Qed.

Lemma StronglySorted_tail (n : Z) (df : DataFrame) :
  StronglySorted ts_le df -> StronglySorted ts_le (tail n df).
Proof.
  intros H. unfold tail. destruct (n =? 0); [constructor|].
  destruct (0 <? n); now apply StronglySorted_skipn.
Qed.

(** ** The loop over the candidate files *)

Lemma extract_file_date_eq (file : Path) :
  extract_file_date file = Ok (file_date file).
Proof.
  unfold file_date. destruct (extract_file_date_total file) as (fd & ->).
  reflexivity.
Qed.

Lemma load_files_spec (files : list Path) (start_date end_date : option string) :
  load_files files start_date end_date =
  Ok (frames_read (filter (fun f => negb (date_skipped start_date end_date f)) files)).
Proof.
  induction files as [|file rest IH]; [reflexivity|].
  cbn [load_files filter]. unfold date_skipped at 1.
  rewrite extract_file_date_eq. cbn [Py.bind].
  destruct (before_start start_date (file_date file)); cbn [orb negb]; [exact IH|].
  destruct (after_end end_date (file_date file)); cbn [negb]; [exact IH|].
  rewrite IH. unfold frames_read. cbn [flat_map].
  destruct (read_parquet file); reflexivity.
Qed.

Lemma filter_true {A : Type} (l : list A) : filter (fun _ => true) l = l.
Proof. induction l; simpl; congruence. Qed.

Lemma in_candidates (self : t) (data_type : string) (symbol : option string) (f : Path) :
  In f (candidates self data_type symbol) <->
  ((data_type = "ohlc" /\ In f (glob (ohlc_dir self) "**/*.parquet")) \/
   (data_type = "volatility" /\ In f (glob (vol_dir self) "**/*.parquet")))
  /\ path_matches symbol f = true.
Proof.
  assert (G : forall base,
             In f (sorted
                     match symbol with
                     | Some s =>
                         if truthy_str symbol
                         then filter (fun f => str_contains ("symbol=" ++ s)%string (path_str f))
                                     (glob base "**/*.parquet")
                         else glob base "**/*.parquet"
                     | None => glob base "**/*.parquet"
                     end) <->
             In f (glob base "**/*.parquet") /\ path_matches symbol f = true).
  { intros base. unfold path_matches. split.
    - intros H. apply (Permutation_in _ (Permutation_sym (sorted_perm _))) in H.
      destruct symbol as [s|]; [|tauto].
      destruct (truthy_str (Some s)); [|tauto]. now apply filter_In in H.
    - intros [H1 H2]. apply (Permutation_in _ (sorted_perm _)).
      destruct symbol as [s|]; [|assumption].
      destruct (truthy_str (Some s)); [|assumption]. now apply filter_In. }
  unfold candidates, _find_parquet_files.
  destruct (String.eqb_spec data_type "ohlc") as [->|N1].
  - rewrite G. split; [tauto|]. intros [[[_ H]|[H _]] ?]; [tauto|discriminate].
  - destruct (String.eqb_spec data_type "volatility") as [->|N2].
    + rewrite G. split; [tauto|]. intros [[[H _]|[_ H]] ?]; [discriminate|tauto].
    + simpl. split; [contradiction|]. intros [[[H _]|[H _]] _]; contradiction.
Qed.

(** ** The combination step *)

Lemma combine_frames_no_limit (dfs : list DataFrame) (symbol : option string) :
  combine_frames dfs symbol None =
  filter (symbol_matches symbol) (sort_values (List.concat dfs)).
Proof.
  unfold combine_frames, symbol_matches.
  destruct symbol as [s|]; [|now rewrite filter_true].
  destruct (truthy_str (Some s)); [reflexivity|now rewrite filter_true].
Qed.

Lemma combine_frames_limit (dfs : list DataFrame) (symbol : option string) (n : Z) :
  combine_frames dfs symbol (Some n) =
  if n =? 0 then combine_frames dfs symbol None
  else tail n (combine_frames dfs symbol None).
Proof.
  unfold combine_frames. cbn [truthy_int]. now destruct (n =? 0).
Qed.

Lemma combine_frames_nil (symbol : option string) (limit : option Z) :
  combine_frames [] symbol limit = [].
Proof.
  destruct limit as [n|].
  - rewrite combine_frames_limit, combine_frames_no_limit. cbn [List.concat].
    rewrite sort_values_nil. cbn [filter]. rewrite tail_nil. now destruct (n =? 0).
  - rewrite combine_frames_no_limit. cbn [List.concat]. now rewrite sort_values_nil.
Qed.

Lemma combine_frames_sorted (dfs : list DataFrame) (symbol : option string)
    (limit : option Z) :
  StronglySorted ts_le (combine_frames dfs symbol limit).
Proof.
  assert (H : StronglySorted ts_le (combine_frames dfs symbol None)).
  { rewrite combine_frames_no_limit.
    apply StronglySorted_filter, sort_values_strongly. }
  destruct limit as [n|]; [|exact H].
  rewrite combine_frames_limit. destruct (n =? 0); [exact H|].
  now apply StronglySorted_tail.
Qed.

Lemma in_combine_frames (dfs : list DataFrame) (symbol : option string) (r : Row) :
  In r (combine_frames dfs symbol None) <->
  In r (List.concat dfs) /\ symbol_matches symbol r = true.
Proof.
  rewrite combine_frames_no_limit, filter_In.
  split; intros [H1 H2]; split; try assumption.
  - now apply (Permutation_in _ (Permutation_sym (sort_values_perm _))).
  - now apply (Permutation_in _ (sort_values_perm _)).
Qed.

Lemma in_frames_read (files : list Path) (df : DataFrame) :
  In df (frames_read files) <-> exists f, In f files /\ read_parquet f = Ok df.
Proof.
  unfold frames_read. rewrite in_flat_map. split.
  - intros (f & Hf & H). exists f. split; [assumption|].
    destruct (read_parquet f) as [df'|]; [|contradiction].
    destruct H as [->|[]]. reflexivity.
  - intros (f & Hf & E). exists f. split; [assumption|]. rewrite E. now left.
Qed.

(** ** The two queries as one pipeline *)

Lemma load_files_query (files : list Path) (symbol start_date end_date : option string)
    (limit : option Z) :
  match files with
  | [] => Ok []
  | _ :: _ =>
      (dfs <- load_files files start_date end_date ;;
       match dfs with
       | [] => Ok []
       | _ :: _ => Ok (combine_frames dfs symbol limit)
       end)%result
  end = Ok (query files symbol start_date end_date limit).
Proof.
  unfold query. destruct files as [|f files].
  - cbn. now rewrite combine_frames_nil.
  - rewrite load_files_spec. cbn [Py.bind].
    destruct (frames_read _); [now rewrite combine_frames_nil|reflexivity].
Qed.

Lemma load_ohlc_query (self : t) (symbol start_date end_date : option string)
    (limit : option Z) :
  load_ohlc self symbol start_date end_date limit =
  Ok (query (candidates self "ohlc" symbol) symbol start_date end_date limit).
Proof. unfold load_ohlc. apply load_files_query. Qed.

Lemma load_volatility_query (self : t) (symbol start_date end_date : option string)
    (limit : option Z) :
  load_volatility self symbol start_date end_date limit =
  Ok (query (candidates self "volatility" symbol) symbol start_date end_date limit).
Proof. unfold load_volatility. apply load_files_query. Qed.

(** ** The tail-limit law *)

Lemma query_tail_limit (files : list Path) (symbol start_date end_date : option string)
    (k : Z) :
  0 < k ->
  tail_limit_law (fun limit => Ok (query files symbol start_date end_date limit)) k.
Proof.
  intros Hk. unfold query.
  set (dfs := frames_read _).
  pose proof (combine_frames_sorted dfs symbol None) as Hs.
  set (matched := combine_frames dfs symbol None) in *.
  exists matched, (firstn (List.length matched - Z.to_nat k) matched), (tail k matched).
  assert (E : combine_frames dfs symbol (Some k) = tail k matched).
  { rewrite combine_frames_limit. destruct (Z.eqb_spec k 0); [lia|reflexivity]. }
  repeat split.
  - now rewrite E.
  - now apply tail_pos_length.
  - now apply tail_pos_split.
  - apply StronglySorted_Sorted. now apply StronglySorted_tail.
  - apply StronglySorted_app_le. now rewrite <- tail_pos_split.
Qed.

(** ** Membership in the answer *)

Lemma in_query (files : list Path) (symbol start_date end_date : option string) (r : Row) :
  In r (query files symbol start_date end_date None) <->
  symbol_matches symbol r = true /\
  exists f df, In f files /\ date_skipped start_date end_date f = false /\
               read_parquet f = Ok df /\ In r df.
Proof.
  unfold query. rewrite in_combine_frames, in_concat. split.
  - intros [(df & Hdf & Hr) Hm]. split; [assumption|].
    apply in_frames_read in Hdf. destruct Hdf as (f & Hf & E).
    apply filter_In in Hf. destruct Hf as [Hf Hd].
    exists f, df. repeat split; try assumption. now apply negb_true_iff.
  - intros [Hm (f & df & Hf & Hd & E & Hr)]. split; [|assumption].
    exists df. split; [|assumption]. apply in_frames_read. exists f.
    split; [|assumption]. apply filter_In. split; [assumption|].
    now apply negb_true_iff.
Qed.

Lemma Permutation_filter_compat {A : Type} (f : A -> bool) (l l' : list A) :
  Permutation l l' -> Permutation (filter f l) (filter f l').
Proof.
  induction 1 as [|x l l' _ IH|x y l|l l' l'' _ IH1 _ IH2]; simpl.
  - constructor.
  - destruct (f x); [now constructor|assumption].
  - destruct (f x), (f y); try reflexivity. apply perm_swap.
  - now transitivity (filter f l').
Qed.

Lemma query_permutation (files : list Path) (symbol start_date end_date : option string) :
  Permutation (loaded_rows files symbol start_date end_date)
              (query files symbol start_date end_date None).
Proof.
  unfold loaded_rows, query. rewrite combine_frames_no_limit.
  apply Permutation_filter_compat, sort_values_perm.
Qed.

End Retrieval.

(** ** The two reference sorts meet the contract of [sort_values] *)

Section SortContract.
Context {V : Type}.
Variable before : Row V -> Row V -> bool.
Hypothesis before_le : forall x y, before x y = true -> ts_le x y.
Hypothesis not_before_le : forall x y, before x y = false -> ts_le y x.

Lemma insert_row_perm (x : Row V) (l : DataFrame V) :
  Permutation (x :: l) (insert_row before x l).
Proof.
  induction l as [|y l IH]; simpl; [reflexivity|].
  destruct (before x y); [reflexivity|].
  rewrite perm_swap. now apply perm_skip.
Qed.

Lemma insertion_sort_perm (df : DataFrame V) :
  Permutation df (insertion_sort before df).
Proof.
  induction df as [|x df IH]; simpl; [constructor|].
  rewrite <- insert_row_perm. now apply perm_skip.
Qed.

Lemma insert_row_sorted (x : Row V) (l : DataFrame V) :
  Sorted ts_le l -> Sorted ts_le (insert_row before x l).
Proof.
  induction 1 as [|y l Hl IH Hy]; simpl; [repeat constructor|].
  destruct (before x y) eqn:B.
  - constructor; [now constructor|]. constructor. now apply before_le.
  - constructor; [assumption|].
    destruct l as [|z l]; simpl.
    + constructor. now apply not_before_le.
    + destruct (before x z); constructor.
      * now apply not_before_le.
      * now inversion Hy.
Qed.

Lemma insertion_sort_sorted (df : DataFrame V) :
  Sorted ts_le (insertion_sort before df).
Proof.
  induction df as [|x df IH]; simpl; [constructor|]. now apply insert_row_sorted.
Qed.

End SortContract.

Definition stable_sorter {V : Type} : SortValues V.
Proof.
  refine {| sort_values := stable_sort_values |}.
  - apply insertion_sort_perm.
  - apply insertion_sort_sorted; intros x y H; unfold ts_le.
    + apply Z.leb_le in H. lia.
    + apply Z.leb_gt in H. lia.
Defined.

Definition reversing_sorter {V : Type} : SortValues V.
Proof.
  refine {| sort_values := reversing_sort_values |}.
  - apply insertion_sort_perm.
  - apply insertion_sort_sorted; intros x y H; unfold ts_le.
    + apply Z.ltb_lt in H. lia.
    + apply Z.ltb_ge in H. lia.
Defined.

(** ** The quicksort of pandas as an instance of the contract *)

Lemma insert_position_sorted_perm (i : nat) (l : list nat) :
  Permutation (i :: l) (insert_position_sorted i l).
Proof.
  induction l as [|j l IH]; simpl; [reflexivity|].
  destruct (i <=? j)%nat; [reflexivity|].
  rewrite perm_swap. now apply perm_skip.
Qed.

Lemma is_indexer_perm (n : nat) (indexer : list nat) :
  is_indexer n indexer = true -> Permutation (seq 0 n) indexer.
Proof.
  unfold is_indexer.
  destruct (list_eq_dec _ _ _) as [E|]; [intros _|discriminate].
  rewrite <- E. clear. symmetry.
  induction indexer as [|i l IH]; simpl; [constructor|].
  rewrite <- insert_position_sorted_perm. now apply perm_skip.
Qed.

Lemma take_all {V : Type} (before df : DataFrame V) :
  flat_map (fun i => match nth_error (before ++ df) i with
                     | Some r => [r]
                     | None => []
                     end)
           (seq (List.length before) (List.length df))
  = df.
Proof.
  revert before. induction df as [|r df IH]; intros before; [reflexivity|].
  cbn [List.length seq flat_map].
  rewrite nth_error_app2, Nat.sub_diag by reflexivity. cbn [nth_error app].
  f_equal. specialize (IH (before ++ [r])).
  rewrite <- app_assoc, length_app, Nat.add_1_r in IH. exact IH.
Qed.

Lemma take_perm {V : Type} (df : DataFrame V) (indexer : list nat) :
  is_indexer (List.length df) indexer = true ->
  Permutation df (take df indexer).
Proof.
  intros H. apply is_indexer_perm in H.
  rewrite <- (take_all [] df) at 1.
  now apply Permutation_flat_map.
Qed.

Lemma ascending_sorted {V : Type} (df : DataFrame V) :
  ascending df = true -> Sorted ts_le df.
Proof.
  induction df as [|r df IH]; [constructor|].
  destruct df as [|r' df]; [repeat constructor|].
  cbn [ascending]. intros H. apply andb_true_iff in H. destruct H as [H1 H2].
  constructor; [now apply IH|]. constructor. unfold ts_le. now apply Z.leb_le.
Qed.

Definition pandas_sorter {V : Type} : SortValues V.
Proof.
  refine {| sort_values := pandas_sort_values |}.
  - intros df. unfold pandas_sort_values.
    destruct (is_indexer _ _) eqn:I; cbn [andb].
    + destruct (ascending _); [|apply (sort_values_perm (SortValues := stable_sorter))].
      now apply take_perm.
    + apply (sort_values_perm (SortValues := stable_sorter)).
  - intros df. unfold pandas_sort_values.
    destruct (is_indexer _ _); cbn [andb].
    + destruct (ascending _) eqn:A;
        [now apply ascending_sorted
        |apply (sort_values_sorted (SortValues := stable_sorter))].
    + apply (sort_values_sorted (SortValues := stable_sorter)).
Defined.

(** ** The date window *)

Lemma file_date_none_iff (file : Path) :
  file_date file = None <->
  forall part, In part file -> startswith part "date=" = false.
Proof.
  unfold file_date, extract_file_date.
  destruct (find _ file) as [part|] eqn:F.
  - pose proof (find_some _ _ F) as [Hin Hp].
    pose proof Hp as Hs. apply startswith_date_inv in Hs. destruct Hs as (rest & ->).
    destruct (split_date_part rest) as (d & ws & E).
    unfold list_getitem. rewrite E. cbn. split; [discriminate|].
    intros H. specialize (H _ Hin). congruence.
  - split; [|reflexivity]. intros _ part Hin. exact (find_none _ _ F part Hin).
Qed.

Lemma truthy_some (s : string) : truthy_str (Some s) = true <-> s <> "".
Proof.
  cbn. destruct (String.eqb_spec s ""); cbn; split; congruence.
Qed.

Lemma before_start_iff (start_date : option string) (d : string) :
  d <> "" ->
  before_start start_date (Some d) = true <->
  exists s, supplied start_date s /\ str_lt d s = true.
Proof.
  intros Hd. unfold before_start, supplied. destruct start_date as [s|].
  - rewrite !andb_true_iff, !truthy_some. split.
    + intros [[Hs _] Hlt]. now exists s.
    + intros (s' & [[= <-] Hs] & Hlt). tauto.
  - split; [discriminate|]. now intros (s & [[=] _] & _).
Qed.

Lemma after_end_iff (end_date : option string) (d : string) :
  d <> "" ->
  after_end end_date (Some d) = true <->
  exists e, supplied end_date e /\ str_gt d e = true.
Proof.
  intros Hd. unfold after_end, supplied. destruct end_date as [s|].
  - rewrite !andb_true_iff, !truthy_some. split.
    + intros [[Hs _] Hgt]. now exists s.
    + intros (s' & [[= <-] Hs] & Hgt). tauto.
  - split; [discriminate|]. now intros (s & [[=] _] & _).
Qed.

Lemma date_skipped_no_date (start_date end_date : option string) (fd : option string) :
  truthy_str fd = false ->
  before_start start_date fd || after_end end_date fd = false.
Proof.
  intros H. unfold before_start, after_end.
  destruct start_date, end_date, fd; cbn in *; rewrite ?H, ?andb_false_r; reflexivity.
Qed.

(** ** The claims about [load_ohlc] and [load_volatility] *)

Section Queries.
Context {V : Type} {storage : Storage V} {sorter : SortValues V}.
Variable self : t.

(** C1 (as amended).  For every query and every positive row limit [k],
    [load_ohlc] and [load_volatility] return [min(k, total)] rows, where
    [total] is the number of rows the same query returns without a limit;
    the rows returned are the last [k] rows of that answer, in ascending
    order of timestamp, and no row left out is later than a row returned. *)
Theorem tail_limit_positive (symbol start_date end_date : option string) (k : Z) :
  0 < k ->
  tail_limit_law (load_ohlc self symbol start_date end_date) k /\
  tail_limit_law (load_volatility self symbol start_date end_date) k.
Proof.
  intros Hk. split; unfold tail_limit_law.
  - rewrite !load_ohlc_query.
    exact (query_tail_limit (candidates self "ohlc" symbol) symbol start_date end_date k Hk).
  - rewrite !load_volatility_query.
    exact (query_tail_limit (candidates self "volatility" symbol) symbol start_date end_date k Hk).
Qed.

(** C2 (as amended).  Whatever the limit, the answer of [load_ohlc] is in
    ascending order of timestamp; without a limit it is a permutation of the
    rows loaded for the symbol.  The order of rows of equal timestamp is the
    one [sort_values] chooses. *)
Theorem retrieval_sorted_permutation (symbol start_date end_date : option string) :
  (forall limit, exists rows,
      load_ohlc self symbol start_date end_date limit = Ok rows /\ Sorted ts_le rows) /\
  (exists rows,
      load_ohlc self symbol start_date end_date None = Ok rows /\
      Permutation
        (loaded_rows (candidates self "ohlc" symbol) symbol start_date end_date) rows).
Proof.
  split.
  - intros limit. rewrite load_ohlc_query. eexists. split; [reflexivity|].
    apply StronglySorted_Sorted, combine_frames_sorted.
  - rewrite load_ohlc_query. eexists. split; [reflexivity|].
    apply query_permutation.
Qed.

(** C3 (as amended).  For a non-empty symbol [S], a row is in the answer of
    [load_ohlc] exactly when its content symbol is [S] and it comes from a
    readable file of the dataset whose path contains [symbol=S] and which the
    date window keeps.  Every row of another symbol is removed; a row of
    symbol [S] stored under a path without [symbol=S] is removed too. *)
Theorem symbol_filter_path_then_content (S : string) (start_date end_date : option string) :
  S <> "" ->
  symbol_filter_by_path_and_content self S start_date end_date.
Proof.
  intros HS. unfold symbol_filter_by_path_and_content.
  rewrite load_ohlc_query. eexists. split; [reflexivity|].
  intros r. rewrite in_query.
  assert (T : truthy_str (Some S) = true) by now apply truthy_some.
  unfold symbol_matches. rewrite T. rewrite String.eqb_eq.
  split; intros [Hs (f & df & Hf & Hrest)]; (split; [assumption|]); exists f, df.
  - apply in_candidates in Hf. destruct Hf as [[[_ Hg]|[[=] _]] Hp].
    unfold path_matches in Hp. rewrite T in Hp. tauto.
  - split; [|tauto]. apply in_candidates. split; [left; tauto|].
    unfold path_matches. rewrite T. tauto.
Qed.

(** ** The date a path names *)

Lemma str_split_plain (s : string) :
  plain s -> str_split "="%char s = [s].
Proof.
  unfold plain. induction s as [|c s IH]; intros H; [reflexivity|].
  cbn [str_split]. destruct (Ascii.eqb_spec c "="%char) as [->|N].
  - exfalso. apply H. now left.
  - rewrite IH; [reflexivity|]. intros Hin. apply H. now right.
Qed.

Lemma str_split_plain_field (a rest : string) :
  plain a ->
  str_split "="%char (a ++ String "="%char rest)%string
  = a :: str_split "="%char rest.
Proof.
  unfold plain. induction a as [|c a IH]; intros H.
  - reflexivity.
  - cbn [String.append str_split]. destruct (Ascii.eqb_spec c "="%char) as [->|N].
    + exfalso. apply H. now left.
    + rewrite IH; [reflexivity|]. intros Hin. apply H. now right.
Qed.

Lemma str_append_empty (s : string) : (s ++ "")%string = s.
Proof. induction s as [|c s IH]; cbn; congruence. Qed.

(** Every string is a plain string, followed by nothing or by [=...]. *)
Lemma plain_prefix (s : string) :
  exists D more,
    s = (D ++ more)%string /\ plain D /\
    (more = "" \/ exists rest, more = String "="%char rest).
Proof.
  induction s as [|c s (D & more & E & HD & Hm)].
  - exists EmptyString, EmptyString. repeat split; [intros []|now left].
  - destruct (Ascii.eqb_spec c "="%char) as [->|N].
    + exists EmptyString, (String "="%char s).
      repeat split; [intros []|right; now exists s].
    + exists (String c D), more. split; [cbn; now rewrite E|]. split; [|exact Hm].
      intros [H|H]; [congruence|now apply HD].
Qed.

Lemma undated_iff (file : Path) :
  undated file <-> forall part, In part file -> startswith part "date=" = false.
Proof. apply Forall_forall. Qed.

(** A path names no date, or it names one. *)
Lemma undated_or_dated (file : Path) : undated file \/ exists D, dated file D.
Proof.
  induction file as [|p file [IH|(D & parents & more & children & E & Hu & HD & Hm)]].
  - left. constructor.
  - destruct (startswith p "date=") eqn:S.
    + right. apply startswith_date_inv in S. destruct S as (rest & ->).
      destruct (plain_prefix rest) as (D & more & -> & HD & Hm).
      exists D, [], more, file. repeat split; [constructor|assumption..].
    + left. now constructor.
  - destruct (startswith p "date=") eqn:S.
    + right. apply startswith_date_inv in S. destruct S as (rest & ->).
      destruct (plain_prefix rest) as (D' & more' & -> & HD' & Hm').
      exists D', [], more', file. repeat split; [constructor|assumption..].
    + right. exists D, (p :: parents), more, children. subst file.
      repeat split; [now constructor|assumption..].
Qed.

(** The loop derives the date the path names. *)
Lemma file_date_dated (file : Path) (D : string) :
  dated file D -> file_date file = Some D.
Proof.
  intros (parents & more & children & -> & Hu & HD & Hm).
  unfold file_date, extract_file_date.
  assert (F : find (fun part => startswith part "date=")
                (parents ++ ("date=" ++ D ++ more)%string :: children)
              = Some ("date=" ++ D ++ more)%string).
  { assert (P : startswith ("date=" ++ D ++ more) "date=" = true).
    { unfold startswith. cbn. now destruct (D ++ more)%string. }
    induction Hu as [|p parents Hp Hu IH]; cbn [app find]; now rewrite ?P, ?Hp. }
  rewrite F.
  assert (E : exists ws, str_split "="%char ("date=" ++ D ++ more)%string
                         = "date" :: D :: ws).
  { change ("date=" ++ D ++ more)%string
      with ("date" ++ String "="%char (D ++ more))%string.
    rewrite str_split_plain_field
      by (intros [H|[H|[H|[H|[]]]]]; discriminate).
    destruct Hm as [->|(rest & ->)].
    - exists []. f_equal.
      rewrite str_append_empty. now apply str_split_plain.
    - exists (str_split "="%char rest). f_equal.
      now apply str_split_plain_field. }
  destruct E as (ws & ->). reflexivity.
Qed.

Lemma file_date_undated (file : Path) :
  undated file -> file_date file = None.
Proof. intros H. apply file_date_none_iff. now apply undated_iff. Qed.

Lemma date_skipped_dated (start_date end_date : option string) (file : Path)
    (D : string) :
  dated file D ->
  date_skipped start_date end_date file = true <->
  outside_window start_date end_date D.
Proof.
  intros H. unfold date_skipped, outside_window. rewrite (file_date_dated _ _ H).
  destruct (string_dec D "") as [->|N].
  - rewrite date_skipped_no_date by reflexivity. split; [discriminate|].
    now intros [[] _].
  - rewrite orb_true_iff, (before_start_iff _ _ N), (after_end_iff _ _ N). tauto.
Qed.

Lemma date_skipped_undated (start_date end_date : option string) (file : Path) :
  undated file -> date_skipped start_date end_date file = false.
Proof.
  intros H. unfold date_skipped. rewrite (file_date_undated _ H).
  now apply date_skipped_no_date.
Qed.

Lemma window_keeps_iff (start_date end_date : option string) (file : Path) :
  date_skipped start_date end_date file = false <->
  window_keeps start_date end_date file.
Proof.
  unfold window_keeps. split.
  - intros H. destruct (undated_or_dated file) as [U|(D & HD)]; [now left|].
    right. exists D. split; [assumption|].
    rewrite <- (date_skipped_dated _ _ _ _ HD). congruence.
  - intros [U|(D & HD & N)]; [now apply date_skipped_undated|].
    rewrite <- (date_skipped_dated _ _ _ _ HD) in N.
    now destruct (date_skipped start_date end_date file).
Qed.

(** C4 (as amended).  Which files the date window of [load_ohlc] and
    [load_volatility] leaves out is read off the paths.  A path names no
    date (none of its parts starts with [date=]) or it names a date [D]
    (its first such part is [date=D]).  A file that names no date is never
    left out, whatever the filters.  A file that names the date [D] is left
    out exactly when [D] is not empty and a non-empty start date is given
    and [D] is below it, or a non-empty end date is given and [D] is above
    it, in the order of strings; an empty filter filters nothing, and a
    file whose date is empty is never left out.  The loop reads the files
    kept, in order, and the rows of the answer are the rows of the
    requested symbol in the readable candidates the window keeps. *)
Theorem date_window_filter (symbol start_date end_date : option string) (limit : option Z) :
  let kept files := filter (fun f => negb (date_skipped start_date end_date f)) files in
  (forall f, undated f \/ exists D, dated f D) /\
  (forall f, undated f -> In f (kept [f])) /\
  (forall f D, dated f D ->
     (~ In f (kept [f]) <-> outside_window start_date end_date D)) /\
  (forall files f, In f (kept files) <->
     In f files /\ window_keeps start_date end_date f) /\
  (forall files,
      load_files files start_date end_date = Ok (frames_read (kept files))) /\
  load_ohlc self symbol start_date end_date limit =
    Ok (query (kept (candidates self "ohlc" symbol)) symbol None None limit) /\
  load_volatility self symbol start_date end_date limit =
    Ok (query (kept (candidates self "volatility" symbol)) symbol None None limit) /\
  (forall data_type rows,
     (data_type = "ohlc" /\
      load_ohlc self symbol start_date end_date None = Ok rows) \/
     (data_type = "volatility" /\
      load_volatility self symbol start_date end_date None = Ok rows) ->
     forall r, In r rows <->
       symbol_matches symbol r = true /\
       exists f df, In f (candidates self data_type symbol) /\
                    window_keeps start_date end_date f /\
                    read_parquet f = Ok df /\ In r df).
Proof.
  assert (E : forall l : list Path,
             filter (fun f => negb (date_skipped None None f)) l = l).
  { induction l as [|f l IH]; [reflexivity|]. cbn [filter].
    change (date_skipped None None f) with false. cbn [negb]. now rewrite IH. }
  assert (Q : forall files,
             query files symbol start_date end_date limit =
             query (filter (fun f => negb (date_skipped start_date end_date f)) files)
                   symbol None None limit).
  { intros files. unfold query. now rewrite E. }
  cbv zeta. split; [|split; [|split; [|split; [|split; [|split; [|split]]]]]].
  - apply undated_or_dated.
  - intros f U. cbn [filter]. rewrite (date_skipped_undated _ _ _ U). now left.
  - intros f D HD. rewrite <- (date_skipped_dated _ _ _ _ HD). cbn [filter].
    destruct (date_skipped start_date end_date f); cbn [negb].
    + split; [reflexivity|]. intros _ [].
    + split; [|discriminate]. intros H. exfalso. apply H. now left.
  - intros files f. rewrite filter_In, negb_true_iff, window_keeps_iff. tauto.
  - intros files. apply load_files_spec.
  - rewrite load_ohlc_query. f_equal. apply Q.
  - rewrite load_volatility_query. f_equal. apply Q.
  - intros data_type rows [[-> H]|[-> H]] r.
    + assert (R : rows = query (candidates self "ohlc" symbol) symbol
                               start_date end_date None)
        by (rewrite load_ohlc_query in H; congruence).
      rewrite R, in_query. now setoid_rewrite window_keeps_iff.
    + assert (R : rows = query (candidates self "volatility" symbol) symbol
                               start_date end_date None)
        by (rewrite load_volatility_query in H; congruence).
      rewrite R, in_query. now setoid_rewrite window_keeps_iff.
Qed.

Lemma query_tolerates (files : list Path) (symbol start_date end_date : option string) :
  tolerates_load_failures files
    (fun limit => Ok (query files symbol start_date end_date limit))
    symbol start_date end_date.
Proof.
  unfold tolerates_load_failures. repeat split.
  - intros limit. now eexists.
  - intros -> limit. unfold query. cbn. now rewrite combine_frames_nil.
  - intros Hall limit. unfold query.
    assert (E : frames_read
                  (filter (fun f => negb (date_skipped start_date end_date f)) files) = []).
    { destruct (frames_read _) as [|df l] eqn:E; [reflexivity|].
      assert (Hin : In df (df :: l)) by now left. rewrite <- E in Hin.
      apply in_frames_read in Hin. destruct Hin as (f & Hf & R).
      apply filter_In in Hf. destruct (Hall f (proj1 Hf)) as (e & R'). congruence. }
    rewrite E. now rewrite combine_frames_nil.
  - intros f df r Hf Hd R Hr Hm. eexists. split; [reflexivity|].
    apply in_query. split; [assumption|]. now exists f, df.
Qed.

(** C9.  [load_ohlc] and [load_volatility] never raise.  They return the
    empty frame when no candidate file exists and when every candidate file
    fails to load.  A file that fails to load does not abort the query: every
    row of a candidate file that is kept by the date window, loads, and has
    the symbol asked for is in the answer (taken without a limit), whichever
    other files fail. *)
Theorem load_failures_tolerated (symbol start_date end_date : option string) :
  tolerates_load_failures (candidates self "ohlc" symbol)
    (load_ohlc self symbol start_date end_date) symbol start_date end_date /\
  tolerates_load_failures (candidates self "volatility" symbol)
    (load_volatility self symbol start_date end_date) symbol start_date end_date.
Proof.
  split.
  - pose proof (query_tolerates (candidates self "ohlc" symbol) symbol start_date end_date) as H.
    unfold tolerates_load_failures in *.
    now repeat setoid_rewrite load_ohlc_query.
  - pose proof (query_tolerates (candidates self "volatility" symbol) symbol start_date end_date) as H.
    unfold tolerates_load_failures in *.
    now repeat setoid_rewrite load_volatility_query.
Qed.

(** C10.  A limit of [0] is no limit: [load_ohlc] and [load_volatility]
    return every row loaded for the query (the rows of the requested symbol
    in the readable candidate files that the date window keeps), none
    dropped and none added, in ascending order of timestamp; it is the
    answer they give when no limit is given. *)
Theorem limit_zero_is_no_limit (symbol start_date end_date : option string) :
  (exists rows,
     load_ohlc self symbol start_date end_date (Some 0) = Ok rows /\
     load_ohlc self symbol start_date end_date None = Ok rows /\
     Permutation
       (loaded_rows (candidates self "ohlc" symbol) symbol start_date end_date)
       rows /\
     Sorted ts_le rows) /\
  (exists rows,
     load_volatility self symbol start_date end_date (Some 0) = Ok rows /\
     load_volatility self symbol start_date end_date None = Ok rows /\
     Permutation
       (loaded_rows (candidates self "volatility" symbol) symbol start_date
          end_date)
       rows /\
     Sorted ts_le rows).
Proof.
  rewrite !load_ohlc_query, !load_volatility_query.
  split; eexists; (split; [reflexivity|]);
    (split; [unfold query; now rewrite !combine_frames_limit|]);
    (split; [|apply StronglySorted_Sorted, combine_frames_sorted]);
    unfold query; rewrite combine_frames_limit; apply query_permutation.
Qed.

End Queries.

(** ** The claims on the example storages *)

(** C1, a positive limit on [two_days]. *)
Lemma tail_limit_positive_witness :
  tail_limit_law
    (load_ohlc (storage := two_days) (sorter := stable_sorter) demo_loader
       (Some "BTCUSD") None None) 3 /\
  tail_limit_law
    (load_volatility (storage := two_days) (sorter := stable_sorter) demo_loader
       (Some "BTCUSD") None None) 3.
Proof.
  apply (tail_limit_positive (storage := two_days) (sorter := stable_sorter)
           demo_loader (Some "BTCUSD") None None 3).
  reflexivity.
Defined.

(** C1 as stated fails for the limit [0]: the query over [two_days] matches
    five rows and returns all five, not [min(0, 5) = 0] of them. *)
Lemma tail_limit_fails_at_zero :
  load_ohlc (storage := two_days) (sorter := stable_sorter) demo_loader
    (Some "BTCUSD") None None (Some 0)
  = Ok [mkRow 0 "BTCUSD" 1; mkRow 1 "BTCUSD" 3; mkRow 2 "BTCUSD" 2;
        mkRow 2 "BTCUSD" 4; mkRow 3 "BTCUSD" 5] /\
  ~ tail_limit_law
      (load_ohlc (storage := two_days) (sorter := stable_sorter) demo_loader
         (Some "BTCUSD") None None) 0.
Proof.
  split; [reflexivity|].
  intros (matched & older & latest & H1 & H2 & H3 & _).
  vm_compute in H1, H2. injection H1 as <-. injection H2 as <-.
  vm_compute in H3. discriminate.
Qed.

(** C2 as stated fails on [descending_pairs] under the quicksort of
    pandas.  The twenty rows are concatenated in the order of their row
    numbers, the two rows of each timestamp next to each other; [argsort]
    returns the positions in reverse, the answer is the quicksort of the
    concatenation, and in it the rows of every timestamp stand in the
    reverse of their order in the concatenation: of the two rows of
    timestamp 10, row 2 comes before row 1. *)
Lemma ties_reordered_by_quicksort :
  loaded_rows (storage := descending_pairs)
    (candidates (storage := descending_pairs) demo_loader "ohlc" (Some "BTCUSD"))
    (Some "BTCUSD") None None
  = [mkRow 10 "BTCUSD" 1; mkRow 10 "BTCUSD" 2; mkRow 9 "BTCUSD" 3;
     mkRow 9 "BTCUSD" 4; mkRow 8 "BTCUSD" 5; mkRow 8 "BTCUSD" 6;
     mkRow 7 "BTCUSD" 7; mkRow 7 "BTCUSD" 8; mkRow 6 "BTCUSD" 9;
     mkRow 6 "BTCUSD" 10; mkRow 5 "BTCUSD" 11; mkRow 5 "BTCUSD" 12;
     mkRow 4 "BTCUSD" 13; mkRow 4 "BTCUSD" 14; mkRow 3 "BTCUSD" 15;
     mkRow 3 "BTCUSD" 16; mkRow 2 "BTCUSD" 17; mkRow 2 "BTCUSD" 18;
     mkRow 1 "BTCUSD" 19; mkRow 1 "BTCUSD" 20] /\
  argsort [10; 10; 9; 9; 8; 8; 7; 7; 6; 6; 5; 5; 4; 4; 3; 3; 2; 2; 1; 1]
  = [19; 18; 17; 16; 15; 14; 13; 12; 11; 10; 9; 8; 7; 6; 5; 4; 3; 2; 1; 0]%nat /\
  (exists rows,
     load_ohlc (storage := descending_pairs) (sorter := pandas_sorter) demo_loader
       (Some "BTCUSD") None None None = Ok rows /\
     rows = quicksort_sort_values
              (loaded_rows (storage := descending_pairs)
                 (candidates (storage := descending_pairs) demo_loader "ohlc"
                    (Some "BTCUSD"))
                 (Some "BTCUSD") None None) /\
     filter (fun r => row_timestamp r =? 10) rows
     = [mkRow 10 "BTCUSD" 2; mkRow 10 "BTCUSD" 1]) /\
  ~ retrieval_ordering (storage := descending_pairs) (sorter := pandas_sorter)
      demo_loader (Some "BTCUSD") None None.
Proof.
  split; [reflexivity|]. split; [vm_compute; reflexivity|]. split.
  - eexists. split; [vm_compute; reflexivity|]. split; vm_compute; reflexivity.
  - intros (rows & H1 & _ & H3).
    vm_compute in H1. injection H1 as <-.
    specialize (H3 10). vm_compute in H3. discriminate.
Qed.

(** On [two_days] the quicksort of pandas keeps the two rows of timestamp 2
    in the order of the concatenation: a range of at most 17 rows is sorted
    by insertion. *)
Example ties_kept_on_two_days :
  load_ohlc (storage := two_days) (sorter := pandas_sorter) demo_loader
    (Some "BTCUSD") None None None
  = Ok [mkRow 0 "BTCUSD" 1; mkRow 1 "BTCUSD" 3; mkRow 2 "BTCUSD" 2;
        mkRow 2 "BTCUSD" 4; mkRow 3 "BTCUSD" 5].
Proof. vm_compute. reflexivity. Qed.

(** A sort that meets the contract of [sort_values] may reorder ties on any
    frame: with [reversing_sort_values] the two rows of timestamp 2 of
    [two_days] are returned as row 4 then row 2. *)
Example ties_reordered_within_contract :
  load_ohlc (storage := two_days) (sorter := reversing_sorter) demo_loader
    (Some "BTCUSD") None None None
  = Ok [mkRow 0 "BTCUSD" 1; mkRow 1 "BTCUSD" 3; mkRow 2 "BTCUSD" 4;
        mkRow 2 "BTCUSD" 2; mkRow 3 "BTCUSD" 5].
Proof. reflexivity. Qed.

(** With the stable sort the same query keeps the ties in input order. *)
Example ties_kept_by_stable_sort :
  retrieval_ordering (storage := two_days) (sorter := stable_sorter) demo_loader
    (Some "BTCUSD") None None.
Proof.
  eexists. split; [reflexivity|]. split.
  - repeat constructor; unfold ts_le; cbn; lia.
  - intros ts. cbn -[Z.eqb].
    destruct (Z.eqb_spec 0 ts) as [<-|]; [reflexivity|].
    destruct (Z.eqb_spec 1 ts) as [<-|]; [reflexivity|].
    destruct (Z.eqb_spec 2 ts) as [<-|]; [reflexivity|].
    destruct (Z.eqb_spec 3 ts) as [<-|]; reflexivity.
Qed.

(** C10 on [two_days]: the five rows of the two files are loaded, and the
    limit [0] returns the five of them. *)
Example limit_zero_on_two_days :
  loaded_rows (storage := two_days)
    (candidates (storage := two_days) demo_loader "ohlc" (Some "BTCUSD"))
    (Some "BTCUSD") None None
  = [mkRow 0 "BTCUSD" 1; mkRow 2 "BTCUSD" 2; mkRow 1 "BTCUSD" 3;
     mkRow 2 "BTCUSD" 4; mkRow 3 "BTCUSD" 5] /\
  load_ohlc (storage := two_days) (sorter := stable_sorter) demo_loader
    (Some "BTCUSD") None None (Some 0)
  = Ok [mkRow 0 "BTCUSD" 1; mkRow 1 "BTCUSD" 3; mkRow 2 "BTCUSD" 2;
        mkRow 2 "BTCUSD" 4; mkRow 3 "BTCUSD" 5] /\
  load_volatility (storage := two_days) (sorter := stable_sorter) demo_loader
    (Some "BTCUSD") None None (Some 0)
  = Ok [].
Proof. repeat split; reflexivity. Qed.

(** C3, the symbol BTCUSD on [mixed]. *)
Lemma symbol_filter_path_then_content_witness :
  symbol_filter_by_path_and_content (storage := mixed) (sorter := stable_sorter)
    demo_loader "BTCUSD" None None.
Proof.
  apply (symbol_filter_path_then_content (storage := mixed) (sorter := stable_sorter)
           demo_loader "BTCUSD" None None).
  discriminate.
Defined.

(** C3 as stated fails on [mixed]: the row of BTCUSD stored below
    [symbol=ETHUSD] is removed by the path filter. *)
Lemma mismatched_row_is_dropped :
  load_ohlc (storage := mixed) (sorter := stable_sorter) demo_loader
    (Some "BTCUSD") None None None
  = Ok [mkRow 3 "BTCUSD" 3; mkRow 4 "BTCUSD" 4] /\
  ~ symbol_filter_on_content (storage := mixed) (sorter := stable_sorter)
      demo_loader "BTCUSD".
Proof.
  split; [reflexivity|].
  intros (rows & H1 & H2).
  vm_compute in H1. injection H1 as <-.
  destruct (H2 (part "ETHUSD" "2023-11-09")
               [mkRow 1 "ETHUSD" 1; mkRow 2 "BTCUSD" 2]
               (mkRow 2 "BTCUSD" 2)) as [Hin _].
  - vm_compute. now left.
  - reflexivity.
  - now right; left.
  - specialize (Hin eq_refl). cbn in Hin.
    destruct Hin as [E|[E|[]]]; discriminate.
Qed.

(** C4 as stated fails for an empty string.  On [two_days] with the end
    date [''], both files name a date above the end date, and both are
    loaded; on [blank_date] with the start date 2023-11-09, the file names
    the date [''], which is below the start date, and it is loaded. *)
Lemma date_window_ignores_empty_strings :
  dated (part "BTCUSD" "2023-11-09") "2023-11-09" /\
  dated (part "BTCUSD" "2023-11-08") "2023-11-08" /\
  str_gt "2023-11-09" "" = true /\
  str_gt "2023-11-08" "" = true /\
  load_ohlc (storage := two_days) (sorter := stable_sorter) demo_loader
    (Some "BTCUSD") None (Some "") None
  = Ok [mkRow 0 "BTCUSD" 1; mkRow 1 "BTCUSD" 3; mkRow 2 "BTCUSD" 2;
        mkRow 2 "BTCUSD" 4; mkRow 3 "BTCUSD" 5] /\
  ~ excluded_iff_outside (storage := two_days) None (Some "")
      (part "BTCUSD" "2023-11-09") "2023-11-09" /\
  dated (part "BTCUSD" "") "" /\
  str_lt "" "2023-11-09" = true /\
  load_ohlc (storage := blank_date) (sorter := stable_sorter) demo_loader
    (Some "BTCUSD") (Some "2023-11-09") None None
  = Ok [mkRow 1 "BTCUSD" 1] /\
  ~ excluded_iff_outside (storage := blank_date) (Some "2023-11-09") None
      (part "BTCUSD" "") "".
Proof.
  assert (P : forall D, plain D ->
                dated (part "BTCUSD" D) D).
  { intros D HD.
    exists ["data"; "outputs"; "ohlc"; "symbol=BTCUSD"], EmptyString,
           ["part-0.parquet"].
    split; [|split; [repeat constructor|split; [exact HD|now left]]].
    rewrite str_append_empty. reflexivity. }
  assert (N : forall D, (forall c, In c (list_ascii_of_string D) -> c <> "="%char) ->
                plain D).
  { intros D H Hin. now apply (H _ Hin). }
  split; [apply P, N; cbn; intuition (subst; discriminate)|].
  split; [apply P, N; cbn; intuition (subst; discriminate)|].
  split; [reflexivity|]. split; [reflexivity|]. split; [reflexivity|].
  split.
  { intros [_ H]. discriminate H. right. now exists EmptyString. }
  split; [apply P; intros []|].
  split; [reflexivity|]. split; [reflexivity|].
  intros [_ H]. discriminate H. left. now exists "2023-11-09"%string.
Qed.

(** C4 on [mixed] with the window from 2023-11-10 on: the file of
    2023-11-09 (of ETHUSD, not a candidate) plays no part, the file without
    date and the file of 2023-11-10 are kept; with the window up to
    2023-11-09 the file of 2023-11-10 is left out. *)
Example date_window_on_mixed :
  load_ohlc (storage := mixed) (sorter := stable_sorter) demo_loader
    (Some "BTCUSD") (Some "2023-11-10") None None
  = Ok [mkRow 3 "BTCUSD" 3; mkRow 4 "BTCUSD" 4] /\
  load_ohlc (storage := mixed) (sorter := stable_sorter) demo_loader
    (Some "BTCUSD") None (Some "2023-11-09") None
  = Ok [mkRow 3 "BTCUSD" 3] /\
  load_ohlc (storage := two_days) (sorter := stable_sorter) demo_loader
    (Some "BTCUSD") (Some "2023-11-09") (Some "2023-11-09") None
  = Ok [mkRow 1 "BTCUSD" 3; mkRow 2 "BTCUSD" 4; mkRow 3 "BTCUSD" 5].
Proof. repeat split; reflexivity. Qed.

(** C4 and C9 on [mixed]: the file without a [date=] part survives a start
    date that skips every dated file, and the file that cannot be read does
    not abort the query. *)
Example undated_file_survives_window :
  load_ohlc (storage := mixed) (sorter := stable_sorter) demo_loader
    (Some "BTCUSD") (Some "2023-11-11") None None
  = Ok [mkRow 3 "BTCUSD" 3].
Proof. reflexivity. Qed.

(** C9 on a storage without files and on one whose only file cannot be
    read. *)
Example no_file_no_error :
  load_ohlc (storage := storage_of (V := Z) []) (sorter := stable_sorter) demo_loader
    (Some "BTCUSD") None None (Some 1000) = Ok [] /\
  load_ohlc (storage := storage_of (V := Z) [(part "BTCUSD" "2023-11-09", Raise OSError)])
    (sorter := stable_sorter) demo_loader (Some "BTCUSD") None None (Some 1000) = Ok [] /\
  candidates
    (storage := storage_of (V := Z)
                  [(["data"; "outputs"; "volatility"; "symbol=BTCUSD"; "part-0.parquet"],
                    Raise OSError)])
    demo_loader "volatility" None
  = [["data"; "outputs"; "volatility"; "symbol=BTCUSD"; "part-0.parquet"]] /\
  load_volatility
    (storage := storage_of (V := Z)
                  [(["data"; "outputs"; "volatility"; "symbol=BTCUSD"; "part-0.parquet"],
                    Raise OSError)])
    (sorter := stable_sorter) demo_loader None None None None = Ok [].
Proof. repeat split; reflexivity. Qed.

End DataLoaderFacts.

(* ================================================================== *)
(** * Part VII. Properties of the endpoint                            *)
(* ================================================================== *)

Module RoutesFacts.
Import DataLoader DataLoaderFacts Routes.

Section Endpoint.
Context {storage : Storage Bar} {sorter : SortValues Bar}.
Variable loader : DataLoader.t.

(** C5 (as amended).  [get_ohlc] does not validate its date filters: for
    every query, whatever strings [start_date] and [end_date] are, it
    returns a response and never an error, holding the rows [load_ohlc]
    returns for these strings (compared with the file dates as strings),
    possibly none. *)
Theorem dates_are_not_validated (symbol start_date end_date : option string)
    (limit : option Z) :
  exists rows,
    load_ohlc loader symbol start_date end_date limit = Ok rows /\
    get_ohlc loader symbol start_date end_date limit =
    Return (mkOHLCResponse (map ohlc_data rows) (Z.of_nat (List.length rows)) symbol).
Proof.
  unfold get_ohlc. rewrite load_ohlc_query. eexists. split; [reflexivity|].
  cbn [Py.bind]. destruct (query _ _ _ _ _) as [|r rows]; [reflexivity|].
  now rewrite length_map.
Qed.

End Endpoint.

(** C5 as stated fails on [one_bar]: the start date [not-a-date] is
    answered with an empty response, the count 0, and no error, although
    the storage holds a bar for the symbol. *)
Lemma malformed_date_answered_empty :
  is_iso_date "not-a-date" = false /\
  get_ohlc (storage := one_bar) (sorter := stable_sorter) demo_loader
    (Some "BTCUSD") (Some "not-a-date") None (Some 1000)
  = Return (mkOHLCResponse [] 0 (Some "BTCUSD")) /\
  get_ohlc (storage := one_bar) (sorter := stable_sorter) demo_loader
    (Some "BTCUSD") None None (Some 1000)
  = Return (mkOHLCResponse
              [mkOHLCData 1699531200000000000 50000 50020 49980 50010 0.5 "BTCUSD"]
              1 (Some "BTCUSD")) /\
  ~ rejects_malformed_dates (storage := one_bar) (sorter := stable_sorter) demo_loader.
Proof.
  split; [reflexivity|]. split; [reflexivity|]. split; [reflexivity|].
  intros H.
  destruct (H (Some "BTCUSD") (Some "not-a-date") None (Some 1000)) as (c & d & E).
  - left. now exists "not-a-date".
  - discriminate E.
Qed.

End RoutesFacts.

(* ================================================================== *)
(** * Part VIII. Properties of the producer                           *)
(* ================================================================== *)

Module ProducerFacts.
Import Producer BinanceProducer.

Section Effects.
Context {library : Library} {bus : Bus}.

(** ** Computations that publish nothing, computations that never raise *)

Lemma published_app (t1 t2 : list event) :
  published (t1 ++ t2) = published t1 ++ published t2.
Proof. apply flat_map_app. Qed.

Lemma schedule_app (t1 t2 : list event) :
  schedule (t1 ++ t2) = schedule t1 ++ schedule t2.
Proof. apply filter_app. Qed.

Lemma quiet_ret {A : Type} (a : A) : quiet (ret a).
Proof. intros w. reflexivity. Qed.

Lemma quiet_raise {A : Type} (e : exn) : quiet (@raise A e).
Proof. intros w. reflexivity. Qed.

Lemma quiet_lift {A : Type} (r : result A) : quiet (lift r).
Proof. intros w. reflexivity. Qed.

Lemma quiet_get_self : quiet get_self.
Proof. intros w. reflexivity. Qed.

Lemma quiet_get_trace : quiet get_trace.
Proof. intros w. reflexivity. Qed.

Lemma quiet_set_self (s : BinanceProducer) : quiet (set_self s).
Proof. intros w. reflexivity. Qed.

Lemma quiet_emit (ev : event) :
  published [ev] = [] -> quiet (emit ev).
Proof.
  intros H w. cbn. rewrite published_app, H. apply app_nil_r.
Qed.

Lemma quiet_bind {A B : Type} (m : M A) (k : A -> M B) :
  quiet m -> (forall a, quiet (k a)) -> quiet (mbind m k).
Proof.
  intros Hm Hk w. unfold mbind. specialize (Hm w).
  destruct (m w) as [[a|e] w']; cbn in *; [|assumption].
  now rewrite Hk.
Qed.

Lemma quiet_try {A : Type} (body : M A) (handler : exn -> M A) :
  quiet body -> (forall e, quiet (handler e)) -> quiet (try_except body handler).
Proof.
  intros Hb Hh w. unfold try_except. specialize (Hb w).
  destruct (body w) as [[a|e] w']; cbn in *; [assumption|].
  now rewrite Hh.
Qed.

Lemma never_raises_emit (ev : event) : never_raises (emit ev).
Proof. intros w. now exists tt. Qed.

Lemma never_raises_try {A : Type} (body : M A) (handler : exn -> M A) :
  (forall e, never_raises (handler e)) -> never_raises (try_except body handler).
Proof.
  intros Hh w. unfold try_except.
  destruct (body w) as [[a|e] w']; [now exists a|apply Hh].
Qed.

Ltac quiet_step :=
  first
    [ apply quiet_ret | apply quiet_raise | apply quiet_lift
    | apply quiet_get_self | apply quiet_get_trace | apply quiet_set_self
    | apply quiet_emit; reflexivity
    | apply quiet_bind; [|intros ?]
    | apply quiet_try; [|intros ?]
    | match goal with
      | |- quiet (if ?b then _ else _) => destruct b
      | |- quiet (match ?x with _ => _ end) => destruct x
      end ].

Lemma quiet_time_sleep (seconds : float) : quiet (time_sleep seconds).
Proof. unfold time_sleep. repeat quiet_step. Qed.

Lemma quiet_producer_send (tp : string) (key : json) (value : TradeData) :
  quiet (producer_send tp key value).
Proof. unfold producer_send. repeat quiet_step. Qed.

Lemma quiet_throttle : quiet throttle.
Proof.
  unfold throttle. repeat quiet_step. apply quiet_time_sleep.
Qed.

(** ** [send_to_kafka] and [on_message] *)

Lemma send_to_kafka_never_raises (trade_data : TradeData) :
  never_raises (send_to_kafka trade_data).
Proof.
  intros w. unfold send_to_kafka. unfold mbind at 1. cbn [emit].
  apply never_raises_try. intros e. destruct e; apply never_raises_emit.
Qed.

Lemma send_to_kafka_published (trade_data : TradeData) (w : World) :
  published (trace (snd (send_to_kafka trade_data w))) =
  published (trace w) ++ [trade_data].
Proof.
  unfold send_to_kafka. unfold mbind at 1. cbn [emit].
  match goal with
  | |- published (trace (snd (try_except ?b ?h ?w1))) = _ =>
      assert (Q : quiet (try_except b h))
  end.
  { repeat quiet_step. }
  rewrite Q. cbn [trace]. now rewrite published_app.
Qed.

Theorem on_message_never_raises (message : string) : never_raises (on_message message).
Proof.
  unfold on_message. apply never_raises_try. intros e. apply never_raises_emit.
Qed.

Lemma on_message_ok (message : string) (w : World) :
  fst (on_message message w) = Ok tt.
Proof.
  destruct (on_message_never_raises message w) as ([] & E). exact E.
Qed.

Lemma on_message_decodes (message : string) (trade_data : TradeData) (w : World) :
  decodes message trade_data ->
  published (trace (snd (on_message message w))) = published (trace w) ++ [trade_data].
Proof.
  intros (data & E1 & E2 & E3).
  unfold on_message, try_except, mbind, lift. rewrite E1, E2, E3.
  pose proof (send_to_kafka_published trade_data w) as P.
  destruct (send_to_kafka_never_raises trade_data w) as ([] & S).
  destruct (send_to_kafka trade_data w) as [r w1]. cbn in P, S. subst r.
  pose proof (quiet_throttle w1) as T.
  destruct (throttle w1) as [[[]|e] w2]; cbn in *.
  - congruence.
  - rewrite published_app. cbn. rewrite app_nil_r. congruence.
Qed.

Lemma on_message_dropped (message : string) (w : World) :
  dropped message ->
  published (trace (snd (on_message message w))) = published (trace w).
Proof.
  assert (E : forall t, published (t ++ [EvError "Error processing message"]) = published t).
  { intros t. rewrite published_app. apply app_nil_r. }
  intros [(e & E1)|[(data & E1 & E2)|(data & e & E1 & E2 & E3)]];
    unfold on_message, try_except, mbind, lift; rewrite E1.
  - cbn. apply E.
  - destruct (is_agg_trade data) as [[|]|e]; cbn; [congruence|reflexivity|apply E].
  - rewrite E2, E3. cbn. apply E.
Qed.

(** ** Valid and malformed messages *)

Lemma is_agg_trade_true_iff (data : json) :
  is_agg_trade data = Ok true <->
  exists items, data = JDict items /\ dict_get items "e" = Some (JStr "aggTrade").
Proof.
  split.
  - unfold is_agg_trade. destruct data as [| | | | s|l|items]; cbn; try discriminate.
    + destruct (str_contains "e" s); discriminate.
    + destruct (existsb _ l); discriminate.
    + destruct (dict_get items "e") as [v|] eqn:E; cbn; [|discriminate].
      intros [= H]. exists items. split; [reflexivity|].
      destruct v; cbn in H; try discriminate.
      apply String.eqb_eq in H. now subst.
  - intros (items & -> & E). unfold is_agg_trade. cbn. now rewrite E.
Qed.

Lemma normalize_ok_inv (items : list (string * json)) (trade_data : TradeData) :
  normalize (JDict items) = Ok trade_data ->
  forall field, In field required_fields -> dict_get items field <> None.
Proof.
  unfold normalize, py_getitem.
  destruct (dict_get items "s") eqn:Es; cbn; [|discriminate].
  destruct (dict_get items "p") as [p|] eqn:Ep; cbn; [|discriminate].
  destruct (py_float p); cbn; [|discriminate].
  destruct (dict_get items "q") as [q|] eqn:Eq; cbn; [|discriminate].
  destruct (py_float q); cbn; [|discriminate].
  destruct (dict_get items "T") eqn:ET; cbn; [|discriminate].
  destruct (dict_get items "m") eqn:Em; cbn; [|discriminate].
  destruct (dict_get items "a") eqn:Ea; cbn; [|discriminate].
  intros _ field [<-|[<-|[<-|[<-|[<-|[<-|[]]]]]]]; congruence.
Qed.

Lemma valid_agg_trade_decodes (message : string) (trade_data : TradeData) :
  valid_agg_trade message trade_data -> decodes message trade_data.
Proof.
  intros (items & p & q & E & Ee & Es & Ep & Fp & Eq & Fq & ET & Em & Ea).
  exists (JDict items). split; [assumption|]. split.
  - apply is_agg_trade_true_iff. now exists items.
  - unfold normalize, py_getitem. rewrite Es, Ep. cbn. rewrite Fp. cbn.
    rewrite Eq. cbn. rewrite Fq. cbn. rewrite ET, Em, Ea. cbn.
    now destruct trade_data.
Qed.

Lemma malformed_dropped (message : string) : malformed message -> dropped message.
Proof.
  intros [(e & E)|[(items & field & E & Ee & Hf & Hn)|(data & E & Hk)]].
  - left. now exists e.
  - right. right. exists (JDict items).
    destruct (normalize (JDict items)) as [td|e] eqn:N.
    + now destruct (normalize_ok_inv _ _ N field Hf).
    + exists e. repeat split; try assumption.
      apply is_agg_trade_true_iff. now exists items.
  - right. left. exists data. split; [assumption|].
    intros H. now apply is_agg_trade_true_iff in H.
Qed.

Lemma deliver_labelled (ms : list (string * option TradeData)) (w : World) :
  Forall labelled ms ->
  fst (deliver (map fst ms) w) = Ok tt /\
  published (trace (snd (deliver (map fst ms) w))) = published (trace w) ++ trades ms.
Proof.
  intros H. revert w. induction H as [|[message label] ms Hm _ IH]; intros w.
  - cbn. now rewrite app_nil_r.
  - cbn [map fst deliver]. unfold mbind.
    pose proof (on_message_ok message w) as Hok.
    assert (P : published (trace (snd (on_message message w))) =
                published (trace w) ++ trades [(message, label)]).
    { unfold labelled in Hm. cbn in Hm |- *. destruct label as [td|].
      - now rewrite (on_message_decodes _ _ _ Hm).
      - rewrite (on_message_dropped _ _ Hm). now rewrite app_nil_r. }
    destruct (on_message message w) as [r w1]. cbn in Hok, P. subst r.
    destruct (IH w1) as [I1 I2]. split; [exact I1|].
    rewrite I2, P. rewrite <- app_assoc. f_equal.
    unfold trades. cbn [flat_map]. now rewrite app_nil_r.
Qed.

(** ** The loop of [connect_kafka] *)

Lemma connect_step_failure (attempt : nat) (rest : list nat) (w : World) (e : exn) :
  KafkaProducer_new attempt = Raise e ->
  connect_kafka_loop (attempt :: rest) w =
  if (attempt <? max_retries - 1)%nat
  then connect_kafka_loop rest
         (mkWorld (self w)
            (((trace w ++ [EvConnect]) ++ [EvError "Attempt failed"])
               ++ [EvSleep retry_delay]))
  else (Raise e,
        mkWorld (self w) ((trace w ++ [EvConnect]) ++ [EvError "Attempt failed"])).
Proof.
  intros E. cbn [connect_kafka_loop].
  unfold mbind at 1. unfold try_except.
  unfold mbind at 2. cbn [emit]. unfold mbind at 2. unfold lift at 1.
  rewrite E. unfold mbind at 2. cbn [emit].
  destruct (attempt <? max_retries - 1)%nat; reflexivity.
Qed.

Lemma connect_step_success (attempt : nat) (rest : list nat) (w : World) :
  KafkaProducer_new attempt = Ok tt ->
  connect_kafka_loop (attempt :: rest) w =
  (Ok true,
   mkWorld (mkProducer (topic (self w)) (replay_speed (self w)) (Some tt)
              (message_count (self w)) (start_time (self w)))
     ((trace w ++ [EvConnect]) ++ [EvInfo "Successfully connected to Kafka"])).
Proof.
  intros E. cbn [connect_kafka_loop].
  unfold mbind at 1. unfold try_except.
  unfold mbind at 2. cbn [emit]. unfold mbind at 2. unfold lift at 1.
  rewrite E. reflexivity.
Qed.

Lemma attempts_with_delays_S (n : nat) :
  attempts_with_delays (S (S n)) =
  [EvConnect; EvSleep retry_delay] ++ attempts_with_delays (S n).
Proof. reflexivity. Qed.

Lemma connect_loop_exhausted (len start : nat) (w : World) :
  (start + S len = max_retries)%nat ->
  (forall attempt, exists e, KafkaProducer_new attempt = Raise e) ->
  exists e,
    KafkaProducer_new (max_retries - 1) = Raise e /\
    fst (connect_kafka_loop (seq start (S len)) w) = Raise e /\
    schedule (trace (snd (connect_kafka_loop (seq start (S len)) w))) =
      schedule (trace w) ++ attempts_with_delays (S len) /\
    self (snd (connect_kafka_loop (seq start (S len)) w)) = self w.
Proof.
  intros Hlen Hfail. revert start w Hlen.
  induction len as [|len IH]; intros start w Hlen;
    destruct (Hfail start) as (e & E); cbn [seq];
    rewrite (connect_step_failure _ _ _ _ E).
  - assert (start = max_retries - 1)%nat as -> by lia.
    rewrite Nat.ltb_irrefl. exists e. cbn [fst snd trace self].
    repeat split; [assumption|].
    rewrite !schedule_app. cbn. now rewrite app_nil_r.
  - assert (L : (start <? max_retries - 1)%nat = true) by (apply Nat.ltb_lt; lia).
    rewrite L.
    destruct (IH (S start)
                (mkWorld (self w)
                   (((trace w ++ [EvConnect]) ++ [EvError "Attempt failed"])
                      ++ [EvSleep retry_delay]))) as (e' & E' & R & Sch & Self);
      [lia|].
    exists e'. cbn [seq] in *. repeat split; try assumption.
    rewrite Sch. cbn [trace]. rewrite !schedule_app. cbn [schedule filter].
    rewrite attempts_with_delays_S, app_nil_r, <- !app_assoc. reflexivity.
Qed.

Lemma connect_loop_reached (i len start : nat) (w : World) :
  (start + i < max_retries)%nat ->
  (forall j, (start <= j < start + i)%nat -> exists e, KafkaProducer_new j = Raise e) ->
  KafkaProducer_new (start + i) = Ok tt ->
  let run := connect_kafka_loop (seq start (S i + len)) w in
  fst run = Ok true /\
  schedule (trace (snd run)) = schedule (trace w) ++ attempts_with_delays (S i) /\
  producer (self (snd run)) = Some tt.
Proof.
  revert start w. induction i as [|i IH]; intros start w Hlt Hfail Hok; cbn zeta.
  - rewrite Nat.add_0_r in Hok. cbn [seq Nat.add].
    rewrite (connect_step_success _ _ _ Hok). cbn [fst snd trace self producer].
    repeat split. rewrite !schedule_app. cbn. now rewrite app_nil_r.
  - destruct (Hfail start) as (e & E); [lia|].
    cbn [seq Nat.add]. rewrite (connect_step_failure _ _ _ _ E).
    assert (L : (start <? max_retries - 1)%nat = true) by (apply Nat.ltb_lt; lia).
    rewrite L.
    destruct (IH (S start)
                (mkWorld (self w)
                   (((trace w ++ [EvConnect]) ++ [EvError "Attempt failed"])
                      ++ [EvSleep retry_delay]))) as (R & Sch & P).
    + lia.
    + intros j Hj. apply Hfail. lia.
    + now replace (S start + i)%nat with (start + S i)%nat by lia.
    + cbn [seq Nat.add] in *. repeat split; try assumption.
      rewrite Sch. cbn [trace]. rewrite !schedule_app. cbn [schedule filter].
      rewrite attempts_with_delays_S, app_nil_r, <- !app_assoc. reflexivity.
Qed.

(** ** The claims about the producer *)

(** C6.  If every construction of the Kafka producer fails,
    [connect_kafka] makes exactly 10 attempts, sleeps 5 seconds between
    consecutive attempts and not after the last (9 sleeps), and raises the
    error of the 10th attempt.  If the attempt number [i] (counted from 0,
    below 10) is the first to succeed, it returns [True] at that attempt,
    after [i + 1] attempts and [i] sleeps of 5 seconds, with
    [self.producer] set. *)
Theorem connect_kafka_bounded (w : World) :
  ((forall attempt, exists e, KafkaProducer_new attempt = Raise e) ->
   exists e,
     KafkaProducer_new 9 = Raise e /\
     fst (connect_kafka w) = Raise e /\
     schedule (trace (snd (connect_kafka w))) =
       schedule (trace w)
       ++ EvConnect :: List.concat (repeat [EvSleep 5; EvConnect] 9) /\
     self (snd (connect_kafka w)) = self w) /\
  (forall i,
     (i < 10)%nat ->
     (forall j, (j < i)%nat -> exists e, KafkaProducer_new j = Raise e) ->
     KafkaProducer_new i = Ok tt ->
     fst (connect_kafka w) = Ok true /\
     schedule (trace (snd (connect_kafka w))) =
       schedule (trace w)
       ++ EvConnect :: List.concat (repeat [EvSleep 5; EvConnect] i) /\
     producer (self (snd (connect_kafka w))) = Some tt).
Proof.
  split.
  - intros Hfail.
    exact (connect_loop_exhausted 9 0 w eq_refl Hfail).
  - intros i Hi Hfail Hok. unfold connect_kafka.
    replace max_retries with (S i + (9 - i))%nat by (unfold max_retries; lia).
    apply (connect_loop_reached i (9 - i) 0 w).
    + unfold max_retries. lia.
    + intros j Hj. apply Hfail. lia.
    + exact Hok.
Qed.

(** C7.  In a session of valid aggregate-trade messages with one malformed
    message among them, [on_message] hands exactly the trades of the valid
    messages to [send_to_kafka], in order, and nothing for the malformed
    one: [N] publish attempts for [N] valid messages.  The session runs to
    its end; [on_message] returns normally for every message and from every
    state. *)
Theorem decode_isolation (valid_before valid_after : list (string * TradeData))
    (bad : string) (w : World) :
  Forall (fun m => valid_agg_trade (fst m) (snd m)) valid_before ->
  Forall (fun m => valid_agg_trade (fst m) (snd m)) valid_after ->
  malformed bad ->
  let session := deliver (map fst valid_before ++ bad :: map fst valid_after) in
  let N := (List.length valid_before + List.length valid_after)%nat in
  fst (session w) = Ok tt /\
  published (trace (snd (session w))) =
    published (trace w) ++ map snd valid_before ++ map snd valid_after /\
  List.length (published (trace (snd (session w)))) =
    (List.length (published (trace w)) + N)%nat /\
  (forall message w', fst (on_message message w') = Ok tt).
Proof.
  intros Hb Ha Hbad. cbn zeta.
  set (label := fun m : string * TradeData => (fst m, Some (snd m))).
  set (ms := map label valid_before ++ (bad, None) :: map label valid_after).
  assert (Hl : forall l, Forall (fun m => valid_agg_trade (fst m) (snd m)) l ->
                         Forall labelled (map label l)).
  { induction 1 as [|m l Hm _ IH]; cbn; constructor; [|assumption].
    now apply valid_agg_trade_decodes. }
  assert (Hf : forall l, map fst (map label l) = map fst l).
  { intros l. rewrite map_map. reflexivity. }
  assert (Ht : forall l, trades (map label l) = map snd l).
  { induction l as [|m l IH]; cbn; [reflexivity|]. unfold trades in IH. now rewrite IH. }
  assert (Hms : Forall labelled ms).
  { apply Forall_app. split; [now apply Hl|].
    constructor; [now apply malformed_dropped|now apply Hl]. }
  assert (Emap : map fst ms = map fst valid_before ++ bad :: map fst valid_after).
  { unfold ms. rewrite map_app. cbn [map fst]. now rewrite !Hf. }
  assert (Etr : trades ms = map snd valid_before ++ map snd valid_after).
  { unfold ms, trades. rewrite flat_map_app. cbn [flat_map snd app].
    fold (trades (map label valid_before)). fold (trades (map label valid_after)).
    now rewrite !Ht. }
  destruct (deliver_labelled ms w Hms) as [R P].
  rewrite Emap in R, P. rewrite Etr in P.
  repeat split.
  - exact R.
  - exact P.
  - rewrite P. rewrite !length_app, !length_map. reflexivity.
  - intros message w'. apply on_message_ok.
Qed.

End Effects.

(** ** The claims on the reference library *)

Import Reference.

Lemma agg_trade_message_valid :
  valid_agg_trade (library := library) agg_trade_message agg_trade.
Proof.
  exists [("e", JStr "aggTrade"); ("s", JStr "BTCUSDT"); ("p", JStr "50000.5");
          ("q", JStr "0.01"); ("T", JInt 1699564800000); ("m", JBool true);
          ("a", JInt 123)], (JStr "50000.5"), (JStr "0.01").
  repeat split; vm_compute; reflexivity.
Qed.

Lemma truncated_message_malformed :
  malformed (library := library) truncated_message.
Proof.
  right. left.
  exists [("e", JStr "aggTrade"); ("s", JStr "BTCUSDT")], "p".
  repeat split; try (vm_compute; reflexivity). cbn. tauto.
Qed.

(** C7, a session of three messages, the second without its price. *)
Lemma decode_isolation_witness :
  let session :=
    deliver (library := library) (bus := reliable_bus)
      [agg_trade_message; truncated_message; agg_trade_message] in
  fst (session connected) = Ok tt /\
  published (trace (snd (session connected))) = [agg_trade; agg_trade] /\
  List.length (published (trace (snd (session connected)))) = 2%nat /\
  (forall message w',
      fst (on_message (library := library) (bus := reliable_bus) message w') = Ok tt).
Proof.
  exact (decode_isolation (library := library) (bus := reliable_bus)
           [(agg_trade_message, agg_trade)] [(agg_trade_message, agg_trade)]
           truncated_message connected
           (@Forall_cons _ (fun m => valid_agg_trade (fst m) (snd m))
              (agg_trade_message, agg_trade) [] agg_trade_message_valid
              (@Forall_nil _ _))
           (@Forall_cons _ (fun m => valid_agg_trade (fst m) (snd m))
              (agg_trade_message, agg_trade) [] agg_trade_message_valid
              (@Forall_nil _ _))
           truncated_message_malformed).
Defined.

#[local] Set Warnings "-inexact-float".

(** C8.  [json.loads] turns the message of the scenario into the dict of its
    seven items, and the dict display of [on_message] turns that dict into
    the trade with symbol BTCUSDT, price 50000.5, quantity 0.01, timestamp
    1699564800000, [is_buyer_maker] true and trade id 123, price and quantity
    being the floats [float] reads from the two strings.  This trade is what
    [on_message] hands to [send_to_kafka], whatever the bus and the state;
    on a connected producer it is sent to the topic under the key BTCUSDT. *)
Theorem agg_trade_scenario :
  json_loads (Library := library) agg_trade_message =
    Ok (JDict [("e", JStr "aggTrade"); ("s", JStr "BTCUSDT"); ("p", JStr "50000.5");
               ("q", JStr "0.01"); ("T", JInt 1699564800000); ("m", JBool true);
               ("a", JInt 123)]) /\
  decodes (library := library) agg_trade_message
    (mkTradeData (JStr "BTCUSDT") 50000.5 0.01 (JInt 1699564800000) (JBool true)
       (JInt 123)) /\
  (forall (bus : Bus) (w : World),
      fst (on_message (library := library) agg_trade_message w) = Ok tt /\
      published (trace (snd (on_message (library := library) agg_trade_message w))) =
        published (trace w) ++ [agg_trade]) /\
  on_message (library := library) (bus := reliable_bus) agg_trade_message connected =
    (Ok tt,
     mkWorld (mkProducer "crypto-trades" 1 (Some tt) 1 0)
       [EvPublish agg_trade; EvSend "crypto-trades" (Some "BTCUSDT") agg_trade]).
Proof.
  split; [vm_compute; reflexivity|].
  pose proof (valid_agg_trade_decodes _ _ agg_trade_message_valid) as D.
  split; [exact D|].
  split; [|vm_compute; reflexivity].
  intros bus w. split; [apply on_message_ok|].
  now apply on_message_decodes.
Qed.

(** C6 on two buses: one that is never reached, one reached at the fourth
    attempt. *)
Lemma connect_kafka_bounded_witness :
  (exists e,
     KafkaProducer_new (Bus := unreachable_bus) 9 = Raise e /\
     fst (connect_kafka (bus := unreachable_bus) fresh) = Raise e /\
     schedule (trace (snd (connect_kafka (bus := unreachable_bus) fresh))) =
       EvConnect :: List.concat (repeat [EvSleep 5; EvConnect] 9) /\
     self (snd (connect_kafka (bus := unreachable_bus) fresh)) = self fresh) /\
  (fst (connect_kafka (bus := slow_bus) fresh) = Ok true /\
   schedule (trace (snd (connect_kafka (bus := slow_bus) fresh))) =
     EvConnect :: List.concat (repeat [EvSleep 5; EvConnect] 3) /\
   producer (self (snd (connect_kafka (bus := slow_bus) fresh))) = Some tt).
Proof.
  split.
  - apply (proj1 (connect_kafka_bounded (bus := unreachable_bus) fresh)).
    intros attempt. now exists KafkaError.
  - apply (proj2 (connect_kafka_bounded (bus := slow_bus) fresh) 3%nat).
    + repeat constructor.
    + intros j Hj. exists KafkaError.
      destruct j as [|[|[|j]]]; [reflexivity..|].
      exfalso. apply (Nat.lt_irrefl 3).
      apply Nat.le_lt_trans with (2 := Hj). repeat apply le_n_S. apply Nat.le_0_l.
    + reflexivity.
Defined.

Example connect_kafka_unreachable :
  connect_kafka (bus := unreachable_bus) fresh =
  (Raise KafkaError,
   mkWorld (self fresh)
     (List.concat (repeat [EvConnect; EvError "Attempt failed"; EvSleep 5] 9)
        ++ [EvConnect; EvError "Attempt failed"])).
Proof. vm_compute. reflexivity. Qed.

End ProducerFacts.


(* ================================================================== *)
(** * Part IX. Properties of the listings of symbols and dates        *)
(* ================================================================== *)

Module ListingFacts.
Import PyMore DataLoader DataLoaderFacts Listing.

(** ** The order of strings *)

Lemma compare_as_OT (a b : string) :
  String.compare a b = OrdersEx.String_as_OT.compare a b.
Proof.
  revert b. induction a as [|c a IH]; intros [|d b]; cbn; try reflexivity;
    now rewrite IH.
Qed.

Lemma str_lt_iff (a b : string) : str_lt a b = true <-> String.compare a b = Lt.
Proof. unfold str_lt. destruct (String.compare a b); split; congruence. Qed.

Lemma str_lt_trans (a b c : string) :
  str_lt a b = true -> str_lt b c = true -> str_lt a c = true.
Proof.
  rewrite !str_lt_iff, !compare_as_OT.
  apply (@RelationClasses.StrictOrder_Transitive _ _ OrdersEx.String_as_OT.lt_strorder).
Qed.

Lemma str_lt_irrefl (a : string) : str_lt a a = false.
Proof.
  destruct (str_lt a a) eqn:E; [|reflexivity].
  apply str_lt_iff in E. rewrite compare_as_OT in E.
  now apply (@RelationClasses.StrictOrder_Irreflexive _ _ OrdersEx.String_as_OT.lt_strorder) in E.
Qed.

Lemma leb_false_lt (s t : string) : String.leb s t = false -> str_lt t s = true.
Proof.
  unfold String.leb, str_lt. rewrite (String.compare_antisym s t).
  destruct (String.compare t s); cbn; congruence.
Qed.

Lemma leb_true_cases (s t : string) :
  String.leb s t = true -> s = t \/ str_lt s t = true.
Proof.
  unfold String.leb, str_lt. destruct (String.compare s t) eqn:E; intros H.
  - left. now apply String.compare_eq_iff.
  - now right.
  - discriminate.
Qed.

(** ** [sorted] on strings *)

Lemma insert_str_perm (s : string) (l : list string) :
  Permutation (s :: l) (insert_str s l).
Proof.
  induction l as [|t l IH]; simpl; [reflexivity|].
  destruct (String.leb s t); [reflexivity|].
  rewrite perm_swap. now apply perm_skip.
Qed.

Lemma sorted_str_perm (l : list string) : Permutation l (sorted_str l).
Proof.
  induction l as [|s l IH]; simpl; [constructor|].
  rewrite <- insert_str_perm. now apply perm_skip.
Qed.

Lemma in_sorted_str (l : list string) (s : string) : In s (sorted_str l) <-> In s l.
Proof.
  split; apply Permutation_in;
    [apply Permutation_sym|]; apply sorted_str_perm.
Qed.

Lemma insert_str_ascending (s : string) (l : list string) :
  ~ In s l -> strictly_ascending l -> strictly_ascending (insert_str s l).
Proof.
  unfold strictly_ascending.
  induction l as [|t l IH]; intros Hs Hl; simpl.
  - repeat constructor.
  - inversion Hl as [|? ? Hl' Ht]; subst.
    destruct (String.leb s t) eqn:E.
    + apply leb_true_cases in E. destruct E as [->|E]; [exfalso; apply Hs; now left|].
      constructor; [assumption|]. constructor; [assumption|].
      rewrite Forall_forall in *. intros x Hx. eapply str_lt_trans; eauto.
    + apply leb_false_lt in E. constructor.
      * apply IH; [|assumption]. intros H. apply Hs. now right.
      * rewrite Forall_forall in *. intros x Hx.
        apply (Permutation_in _ (Permutation_sym (insert_str_perm s l))) in Hx.
        destruct Hx as [<-|Hx]; [assumption|now apply Ht].
Qed.

Lemma sorted_str_ascending (l : list string) :
  NoDup l -> strictly_ascending (sorted_str l).
Proof.
  induction 1 as [|s l Hs Hl IH]; simpl; [constructor|].
  apply insert_str_ascending; [|assumption]. now rewrite in_sorted_str.
Qed.

(** Two listings in strictly ascending order with the same elements are
    the same listing. *)
Lemma strictly_ascending_ext (l1 l2 : list string) :
  strictly_ascending l1 -> strictly_ascending l2 ->
  (forall s, In s l1 <-> In s l2) -> l1 = l2.
Proof.
  unfold strictly_ascending. intros H1. revert l2.
  induction H1 as [|a l1 Hl1 IH Ha]; intros l2 H2 E.
  - destruct l2 as [|b l2]; [reflexivity|].
    exfalso. apply (proj2 (E b)). now left.
  - destruct H2 as [|b l2 Hl2 Hb].
    + exfalso. apply (proj1 (E a)). now left.
    + rewrite Forall_forall in Ha, Hb.
      assert (a = b) as <-.
      { destruct (proj1 (E a) (or_introl eq_refl)) as [->|Hab]; [reflexivity|].
        destruct (proj2 (E b) (or_introl eq_refl)) as [->|Hba]; [reflexivity|].
        pose proof (str_lt_trans _ _ _ (Ha _ Hba) (Hb _ Hab)) as C.
        rewrite str_lt_irrefl in C. discriminate. }
      f_equal. apply IH; [assumption|].
      intros s. split; intros Hs.
      * destruct (proj1 (E s) (or_intror Hs)) as [<-|]; [|assumption].
        specialize (Ha _ Hs). rewrite str_lt_irrefl in Ha. discriminate.
      * destruct (proj2 (E s) (or_intror Hs)) as [<-|]; [|assumption].
        specialize (Hb _ Hs). rewrite str_lt_irrefl in Hb. discriminate.
Qed.

(** ** Python sets *)

Lemma existsb_eqb_in (s : string) (l : list string) :
  existsb (String.eqb s) l = true <-> In s l.
Proof.
  rewrite existsb_exists. split.
  - intros (x & Hx & E). apply String.eqb_eq in E. now subst.
  - intros H. exists s. split; [assumption|apply String.eqb_refl].
Qed.

Lemma in_set_add (s x : string) (l : list string) :
  In x (set_add s l) <-> In x l \/ x = s.
Proof.
  unfold set_add. destruct (existsb (String.eqb s) l) eqn:E.
  - apply existsb_eqb_in in E. split; [tauto|]. intros [H| ->]; assumption.
  - rewrite in_app_iff. cbn. split; [intros [H|[<-|[]]]|intros [H| ->]]; auto.
Qed.

Lemma NoDup_set_add (s : string) (l : list string) :
  NoDup l -> NoDup (set_add s l).
Proof.
  intros H. unfold set_add. destruct (existsb (String.eqb s) l) eqn:E; [assumption|].
  assert (N : ~ In s l).
  { intros Hin. apply existsb_eqb_in in Hin. congruence. }
  apply NoDup_rev in H. rewrite <- (rev_involutive (l ++ [s])).
  apply NoDup_rev. rewrite rev_app_distr. cbn. constructor; [|assumption].
  now rewrite <- in_rev.
Qed.

(** ** Names of the form [key=value] *)

Lemma split_symbol_part (rest : string) :
  exists d ws, str_split "="%char ("symbol=" ++ rest)%string = "symbol" :: d :: ws.
Proof.
  destruct (str_split_cons "="%char rest) as (w & ws & E).
  exists w, ws. simpl. now rewrite E.
Qed.

Lemma starts_with_key_value (key name : string) :
  key = "symbol=" \/ key = "date=" ->
  startswith name key = true ->
  exists v, nth_error (str_split "="%char name) 1 = Some v.
Proof.
  intros [->| ->] H; apply prefix_app_inv in H; destruct H as (rest & ->).
  - destruct (split_symbol_part rest) as (d & ws & ->). now exists d.
  - destruct (split_date_part rest) as (d & ws & ->). now exists d.
Qed.

Lemma str_split_no_sep (s : string) :
  no_equals s -> str_split "="%char s = [s].
Proof.
  unfold no_equals. induction s as [|c s IH]; intros H; [reflexivity|].
  cbn [str_split]. destruct (Ascii.eqb_spec c "="%char) as [->|N].
  - exfalso. apply H. now left.
  - rewrite IH; [reflexivity|]. intros Hin. apply H. now right.
Qed.

Lemma str_split_field (a rest : string) :
  no_equals a ->
  str_split "="%char (a ++ String "="%char rest)%string
  = a :: str_split "="%char rest.
Proof.
  unfold no_equals. induction a as [|c a IH]; intros H.
  - reflexivity.
  - cbn [String.append str_split]. destruct (Ascii.eqb_spec c "="%char) as [->|N].
    + exfalso. apply H. now left.
    + rewrite IH; [reflexivity|]. intros Hin. apply H. now right.
Qed.

Lemma path_name_last (dir : Path) (name : string) :
  name <> "/" -> path_name (dir ++ [name]) = name.
Proof.
  intros N. unfold path_name.
  destruct (dir ++ [name]) as [|root [|x l]] eqn:E.
  - now destruct dir.
  - destruct dir as [|d [|d' dir]]; try discriminate.
    injection E as <-. now destruct (String.eqb_spec name "/").
  - rewrite <- E. apply last_last.
Qed.

(** ** The loop over the paths of a glob *)

Section Loop.
Context {dirs : Directories}.

Lemma add_names_ok (paths : list Path) (names : list string) :
  (forall p, In p (filter is_dir paths) -> exists v, name_value p = Some v) ->
  exists names',
    add_names paths names = Ok names' /\
    (NoDup names -> NoDup names') /\
    (forall s, In s names' <->
               In s names \/ exists p, In p (filter is_dir paths) /\ name_value p = Some s).
Proof.
  revert names. induction paths as [|p paths IH]; intros names H.
  - exists names. split; [reflexivity|]. split; [auto|].
    intros s. split; [auto|]. intros [Hs|(p & [] & _)]. assumption.
  - cbn [add_names]. cbn [filter] in H. destruct (is_dir p) eqn:D.
    + destruct (H p (or_introl eq_refl)) as (v & Ev).
      unfold name_value in Ev. unfold list_getitem. rewrite Ev. cbn [Py.bind].
      destruct (IH (set_add v names)) as (names' & E & Hn & Hm).
      { intros q Hq. apply H. now right. }
      exists names'. split; [assumption|]. split.
      * intros Hd. now apply Hn, NoDup_set_add.
      * intros s. rewrite Hm, in_set_add. cbn [filter]. rewrite D. split.
        -- intros [[Hs| ->]|(q & Hq & Eq)].
           ++ now left.
           ++ right. exists p. split; [now left|assumption].
           ++ right. exists q. split; [now right|assumption].
        -- intros [Hs|(q & [<-|Hq] & Eq)].
           ++ left. now left.
           ++ left. right. unfold name_value in Eq. congruence.
           ++ right. now exists q.
    + destruct (IH names H) as (names' & E & Hn & Hm).
      exists names'. split; [assumption|]. split; [assumption|].
      intros s. rewrite Hm. cbn [filter]. rewrite D. reflexivity.
Qed.

Lemma add_names_raise (paths : list Path) (names : list string) :
  (exists p, In p (filter is_dir paths) /\ name_value p = None) ->
  add_names paths names = Raise IndexError.
Proof.
  revert names. induction paths as [|p paths IH]; intros names (q & Hq & Eq).
  - destruct Hq.
  - cbn [add_names]. cbn [filter] in Hq. destruct (is_dir p) eqn:D.
    + unfold list_getitem. destruct (nth_error _ 1) as [v|] eqn:Ev; [|reflexivity].
      cbn [Py.bind]. apply IH. exists q. split; [|assumption].
      destruct Hq as [<-|Hq]; [|assumption].
      unfold name_value in Eq. congruence.
    + apply IH. now exists q.
Qed.

Lemma names_or_none (paths : list Path) :
  (forall p, In p (filter is_dir paths) -> exists v, name_value p = Some v) \/
  (exists p, In p (filter is_dir paths) /\ name_value p = None).
Proof.
  induction paths as [|p paths [IH|(q & Hq & Eq)]].
  - left. intros p [].
  - cbn [filter]. destruct (is_dir p); [|now left].
    destruct (name_value p) as [v|] eqn:E.
    + left. intros q [<-|Hq]; [now exists v|now apply IH].
    + right. exists p. split; [now left|assumption].
  - right. exists q. split; [|assumption].
    cbn [filter]. destruct (is_dir p); [now right|assumption].
Qed.

End Loop.

Section Listings.
Context {V : Type} {storage : Storage V} {dirs : Directories}.

Lemma names_start_with_values (key : string) (paths : list Path) :
  key = "symbol=" \/ key = "date=" ->
  names_start_with key (filter is_dir paths) ->
  forall p, In p (filter is_dir paths) -> exists v, name_value p = Some v.
Proof.
  intros K H p Hp. unfold name_value.
  apply (starts_with_key_value key); [assumption|]. now apply H.
Qed.

(** The listing of symbols, when every directory has a value. *)
Lemma get_available_symbols_ok (self : t) :
  (forall p, In p (symbol_dirs self) -> exists v, name_value p = Some v) ->
  exists symbols,
    get_available_symbols self = Ok symbols /\
    strictly_ascending symbols /\
    forall s, In s symbols <->
              exists p, In p (symbol_dirs self) /\ name_value p = Some s.
Proof.
  intros H. unfold symbol_dirs in H. rewrite filter_app in H.
  unfold get_available_symbols. cbn [scan_patterns].
  destruct (add_names_ok (glob (output_dir self) "ohlc/symbol=*") []) as (n1 & E1 & D1 & M1).
  { intros p Hp. apply H, in_or_app. now left. }
  destruct (add_names_ok (glob (output_dir self) "volatility/symbol=*") n1)
    as (n2 & E2 & D2 & M2).
  { intros p Hp. apply H, in_or_app. now right. }
  rewrite E1. cbn [Py.bind]. rewrite E2. cbn [Py.bind].
  exists (sorted_str n2). split; [reflexivity|]. split.
  - apply sorted_str_ascending, D2, D1. constructor.
  - intros s. rewrite in_sorted_str, M2, M1. unfold symbol_dirs. rewrite filter_app.
    split.
    + intros [[[]|(p & Hp & E)]|(p & Hp & E)]; exists p; split; try assumption;
        apply in_or_app; [now left|now right].
    + intros (p & Hp & E). apply in_app_or in Hp. destruct Hp as [Hp|Hp].
      * left. right. now exists p.
      * right. now exists p.
Qed.

Lemma get_available_symbols_raise (self : t) :
  (exists p, In p (symbol_dirs self) /\ name_value p = None) ->
  get_available_symbols self = Raise IndexError.
Proof.
  intros (q & Hq & Eq). unfold symbol_dirs in Hq. rewrite filter_app in Hq.
  unfold get_available_symbols. cbn [scan_patterns].
  destruct (names_or_none (glob (output_dir self) "ohlc/symbol=*")) as [H1|H1].
  - destruct (add_names_ok _ [] H1) as (n1 & E1 & _). rewrite E1. cbn [Py.bind].
    rewrite add_names_raise; [reflexivity|].
    exists q. split; [|assumption].
    apply in_app_or in Hq. destruct Hq as [Hq|Hq]; [|assumption].
    destruct (H1 q Hq) as (v & Ev). congruence.
  - now rewrite add_names_raise.
Qed.

(** The listing of dates, when the glob accepts the pattern and every
    directory has a value. *)
Lemma get_available_dates_ok (self : t) (symbol : option string) :
  glob_accepts (dates_pattern symbol) = true ->
  (forall p, In p (date_dirs self symbol) -> exists v, name_value p = Some v) ->
  exists dates,
    get_available_dates self symbol = Ok dates /\
    strictly_ascending dates /\
    forall d, In d dates <->
              exists p, In p (date_dirs self symbol) /\ name_value p = Some d.
Proof.
  intros A H. unfold get_available_dates.
  change (match symbol with
          | Some s =>
              if truthy_str symbol then ("ohlc/symbol=" ++ s ++ "/date=*")%string
              else "ohlc/symbol=*/date=*"
          | None => "ohlc/symbol=*/date=*"
          end) with (dates_pattern symbol).
  change (if truthy_str symbol then ohlc_dir self else output_dir self)
    with (dates_base self symbol).
  cbv zeta. unfold path_glob. rewrite A. cbn [Py.bind].
  destruct (add_names_ok (glob (dates_base self symbol) (dates_pattern symbol)) [] H)
    as (n & E & D & M).
  rewrite E. cbn [Py.bind]. exists (sorted_str n). split; [reflexivity|]. split.
  - apply sorted_str_ascending, D. constructor.
  - intros d. rewrite in_sorted_str, M. unfold date_dirs. split.
    + intros [[]|P]. exact P.
    + intros P. now right.
Qed.

(** The listing of dates, when the glob refuses the pattern. *)
Lemma get_available_dates_refused (self : t) (symbol : option string) :
  glob_accepts (dates_pattern symbol) = false ->
  get_available_dates self symbol = Raise ValueError.
Proof.
  intros A. unfold get_available_dates.
  change (match symbol with
          | Some s =>
              if truthy_str symbol then ("ohlc/symbol=" ++ s ++ "/date=*")%string
              else "ohlc/symbol=*/date=*"
          | None => "ohlc/symbol=*/date=*"
          end) with (dates_pattern symbol).
  cbv zeta. unfold path_glob. now rewrite A.
Qed.

End Listings.

(** ** The patterns the glob accepts *)

Lemma split_head_star (s w : string) (ws : list string) :
  str_split "/"%char s = w :: ws ->
  String.prefix "*" w = true -> String.prefix "*" s = true.
Proof.
  destruct s as [|c s]; cbn [str_split].
  - now intros [= <- <-].
  - destruct (Ascii.eqb c "/"%char).
    + now intros [= <- <-].
    + destruct (str_split "/"%char s); intros [= <- <-]; cbn [String.prefix];
        destruct (ascii_dec "*" c); try discriminate; intros _; now destruct s.
Qed.

(** No component of a string without [**] holds [**]. *)
Lemma components_without_stars (s : string) :
  str_contains "**" s = false ->
  forall c, In c (str_split "/"%char s) -> str_contains "**" c = false.
Proof.
  induction s as [|ch s IH]; intros H c Hc.
  - destruct Hc as [<-|[]]. reflexivity.
  - cbn [str_contains] in H. apply orb_false_iff in H. destruct H as [P H].
    specialize (IH H). cbn [str_split] in Hc.
    destruct (Ascii.eqb ch "/"%char).
    + destruct Hc as [<-|Hc]; [reflexivity|now apply IH].
    + destruct (str_split "/"%char s) as [|w ws] eqn:E.
      * destruct (str_split_cons "/"%char s) as (w & ws & E'). congruence.
      * destruct Hc as [<-|Hc]; [|apply IH; now right].
        cbn [str_contains]. rewrite (IH w) by now left.
        rewrite orb_false_r. cbn [String.prefix] in *.
        destruct (ascii_dec "*" ch) as [<-|]; [|reflexivity].
        destruct (String.prefix "*" w) eqn:Pw; [|reflexivity].
        now rewrite (split_head_star _ _ _ E Pw) in P.
Qed.

Lemma date_pattern_without_stars (S : string) :
  str_contains "**" S = false ->
  str_contains "**" ("ohlc/symbol=" ++ S ++ "/date=*") = false.
Proof.
  intros H. cbn.
  induction S as [|c S IH]; [reflexivity|].
  cbn [str_contains] in H. apply orb_false_iff in H. destruct H as [P H].
  cbn [String.append str_contains]. rewrite (IH H), orb_false_r.
  cbn [String.prefix] in *.
  destruct (ascii_dec "*" c); [|reflexivity].
  destruct S as [|c' S]; [reflexivity|].
  cbn [String.append String.prefix] in *.
  destruct (ascii_dec "*" c'); [destruct S; discriminate P|reflexivity].
Qed.

(** The glob accepts the pattern made of a symbol that holds no [**]. *)
Lemma glob_accepts_without_stars (symbol : option string) :
  (forall S, symbol = Some S -> str_contains "**" S = false) ->
  glob_accepts (dates_pattern symbol) = true.
Proof.
  intros H. unfold dates_pattern.
  destruct symbol as [S|]; [|reflexivity].
  destruct (truthy_str (Some S)); [|reflexivity].
  unfold glob_accepts. apply negb_true_iff.
  destruct (existsb _ _) eqn:E; [|reflexivity].
  apply existsb_exists in E. destruct E as (c & Hc & Hi).
  unfold invalid_component in Hi.
  rewrite (components_without_stars _ (date_pattern_without_stars S (H S eq_refl)) c Hc)
    in Hi.
  discriminate.
Qed.

(** ** The value a name carries *)

(** The first field of a string: it holds no [=], and the string is the
    field, or the field followed by [=...]. *)
Lemma first_field (s w : string) (ws : list string) :
  str_split "="%char s = w :: ws ->
  no_equals w /\ exists more, s = (w ++ more)%string /\
                              (more = "" \/ exists m, more = String "="%char m).
Proof.
  revert w ws. induction s as [|c s IH]; intros w ws; cbn [str_split].
  - intros [= <- <-]. split; [intros []|]. exists EmptyString. split; [reflexivity|now left].
  - destruct (Ascii.eqb_spec c "="%char) as [->|N].
    + intros [= <- <-]. split; [intros []|].
      exists (String "="%char s). split; [reflexivity|right; now exists s].
    + destruct (str_split "="%char s) as [|w' ws'] eqn:E.
      * destruct (str_split_cons "="%char s) as (w' & ws' & E'). congruence.
      * intros [= <- <-]. destruct (IH w' ws' eq_refl) as (Hw & more & -> & Hm).
        split.
        -- intros [Hc|Hc]; [congruence|now apply Hw].
        -- exists more. split; [reflexivity|exact Hm].
Qed.

(** A path whose name starts with [key=] ends in [key=value] or
    [key=value=...], where [value] is the value its name carries. *)
Lemma name_value_shape (key : string) (p : Path) (value : string) :
  key = "symbol=" \/ key = "date=" ->
  startswith (path_name p) key = true ->
  name_value p = Some value ->
  no_equals value /\
  exists dir more,
    p = dir ++ [(key ++ value ++ more)%string] /\
    (more = "" \/ exists m, more = String "="%char m).
Proof.
  intros K H E.
  assert (L : exists dir, p = dir ++ [path_name p]).
  { unfold path_name in *. destruct p as [|a p]; [destruct K as [->| ->]; discriminate|].
    destruct p as [|b p].
    - destruct (a =? "/")%string; [destruct K as [->| ->]; discriminate|].
      now exists [].
    - exists (removelast (a :: b :: p)).
      now rewrite <- app_removelast_last by discriminate. }
  destruct L as (dir & L). unfold name_value in E.
  apply prefix_app_inv in H. destruct H as (rest & R). rewrite R in E.
  assert (F : exists ws, str_split "="%char rest = value :: ws).
  { destruct (str_split_cons "="%char rest) as (w & ws & Ew).
    exists ws. destruct K as [->| ->]; cbn in E; rewrite Ew in E; cbn in E; congruence. }
  destruct F as (ws & F). destruct (first_field _ _ _ F) as (Hv & more & -> & Hm).
  split; [exact Hv|]. exists dir, more. split; [|exact Hm]. now rewrite <- R.
Qed.

(** ** The storage given by a directory tree *)

Lemma components_match_first (pattern : string) (patterns names : list string) :
  str_endswith pattern "*" = false ->
  components_match (pattern :: patterns) names = true ->
  exists rest, names = pattern :: rest.
Proof.
  intros L H. destruct names as [|n names]; [discriminate|].
  cbn [components_match] in H. apply andb_true_iff in H. destruct H as [H _].
  unfold component_matches in H. rewrite L in H.
  apply String.eqb_eq in H. subst. now exists names.
Qed.

Lemma relative_to_app (base : Path) (x : string) (p rel : Path) :
  relative_to base p = Some (x :: rel) ->
  relative_to (base ++ [x]) p = Some rel.
Proof.
  revert p. induction base as [|b base IH]; intros p H.
  - cbn in H. injection H as ->. cbn. now rewrite String.eqb_refl.
  - destruct p as [|a p]; [discriminate|]. cbn in *.
    destruct (a =? b)%string; [now apply IH|discriminate].
Qed.

Section Properties.
Context {V : Type}.

(** X1. When every directory found by the two globs of
    [get_available_symbols] has a name that starts with [symbol=] (what the
    patterns [ohlc/symbol=*] and [volatility/symbol=*] select), the call
    returns, the listing is in strictly ascending order (so it has no
    duplicate), and it holds exactly the values the names of these
    directories carry after their first [=]. *)
Theorem symbols_listed_once_ascending {storage : Storage V} {dirs : Directories}
    (self : t) :
  names_start_with "symbol=" (symbol_dirs self) ->
  exists symbols,
    get_available_symbols self = Ok symbols /\
    strictly_ascending symbols /\
    forall s, In s symbols <->
              exists p, In p (symbol_dirs self) /\ name_value p = Some s.
Proof.
  intros H. apply get_available_symbols_ok.
  unfold symbol_dirs in *. apply (names_start_with_values "symbol="); auto.
Qed.

(** X2. The listing of symbols depends only on which directories the globs
    find: two storages that show the same set of directories, in whatever
    order and however many times, give the same result (the same listing,
    or the same [IndexError]). *)
Theorem symbols_independent_of_enumeration (storage1 storage2 : Storage V)
    {dirs : Directories} (self : t) :
  (forall p, In p (symbol_dirs (storage := storage1) self) <->
             In p (symbol_dirs (storage := storage2) self)) ->
  get_available_symbols (storage := storage1) self =
  get_available_symbols (storage := storage2) self.
Proof.
  intros E.
  destruct (names_or_none (glob (Storage := storage1) (output_dir self) "ohlc/symbol=*"
                           ++ glob (Storage := storage1) (output_dir self)
                                "volatility/symbol=*")) as [H|(q & Hq & Eq)].
  - destruct (get_available_symbols_ok (storage := storage1) self H) as (l1 & E1 & A1 & M1).
    destruct (get_available_symbols_ok (storage := storage2) self) as (l2 & E2 & A2 & M2).
    { intros p Hp. apply H, E, Hp. }
    rewrite E1, E2. f_equal. apply strictly_ascending_ext; try assumption.
    intros s. rewrite M1, M2. split; intros (p & Hp & Ep); exists p; split;
      try assumption; now apply E.
  - rewrite (get_available_symbols_raise (storage := storage1) self)
      by (now exists q).
    rewrite (get_available_symbols_raise (storage := storage2) self);
      [reflexivity|].
    exists q. split; [|assumption]. now apply E.
Qed.

(** X3. [get_available_dates] with a symbol [S] globs the pattern
    [ohlc/symbol=S/date=*] below [output_dir/ohlc], so it sees only
    directories below [output_dir/ohlc/ohlc].  On a directory tree that has
    nothing there, the dates of a symbol are reported as the empty list,
    whatever [output_dir/ohlc/symbol=S] holds; this is the answer for every
    symbol that holds no [**].  For a symbol that puts [**] inside a
    component of the pattern, the glob raises [ValueError]. *)
Theorem dates_of_symbol_searched_below_ohlc_ohlc
    (entries : list (Path * bool)) (files : list (Path * result (DataFrame V)))
    (self : t) (S : string) :
  S <> "" ->
  (forall p, In p (map fst entries) ->
             relative_to (output_dir self ++ ["ohlc"; "ohlc"]) p = None) ->
  get_available_dates (storage := storage_with_tree entries files)
                      (dirs := tree_dirs entries) self (Some S)
  = (if glob_accepts ("ohlc/symbol=" ++ S ++ "/date=*") then Ok []
     else Raise ValueError) /\
  (str_contains "**" S = false ->
   get_available_dates (storage := storage_with_tree entries files)
                       (dirs := tree_dirs entries) self (Some S) = Ok []).
Proof.
  intros HS H.
  assert (T : truthy_str (Some S) = true) by now apply truthy_some.
  assert (P : dates_pattern (Some S) = ("ohlc/symbol=" ++ S ++ "/date=*")%string).
  { unfold dates_pattern. now rewrite T. }
  assert (G : glob (Storage := storage_with_tree entries files) (ohlc_dir self)
                ("ohlc/symbol=" ++ S ++ "/date=*")%string = []).
  { cbn [glob storage_with_tree].
    replace (("ohlc/symbol=" ++ S ++ "/date=*")%string =? "**/*.parquet")%string with false
      by (cbn; reflexivity).
    unfold tree_glob.
    destruct (filter _ (map fst entries)) as [|p l] eqn:F; [reflexivity|].
    exfalso.
    assert (Hp : In p (filter
                         (fun p => match relative_to (ohlc_dir self) p with
                                   | Some rel =>
                                       components_match
                                         (str_split "/"%char
                                            ("ohlc/symbol=" ++ S ++ "/date=*")%string) rel
                                   | None => false
                                   end) (map fst entries))).
    { rewrite F. now left. }
    apply filter_In in Hp. destruct Hp as [Hin Hm].
    destruct (relative_to (ohlc_dir self) p) as [rel|] eqn:R; [|discriminate].
    destruct (str_split_cons "/"%char (S ++ "/date=*")%string) as (w & ws & Ew).
    assert (Es : exists w' ws',
               str_split "/"%char ("ohlc/symbol=" ++ S ++ "/date=*")%string
               = "ohlc" :: w' :: ws').
    { simpl. rewrite Ew. eauto. }
    destruct Es as (w' & ws' & Es).
    rewrite Es in Hm.
    apply components_match_first in Hm; [|reflexivity].
    destruct Hm as (rest & ->).
    apply relative_to_app in R. unfold ohlc_dir in R. rewrite <- app_assoc in R.
    cbn [app] in R. rewrite (H p Hin) in R. discriminate. }
  assert (R : get_available_dates (storage := storage_with_tree entries files)
                (dirs := tree_dirs entries) self (Some S)
              = (if glob_accepts ("ohlc/symbol=" ++ S ++ "/date=*") then Ok []
                 else Raise ValueError)).
  { unfold get_available_dates. rewrite T. cbv zeta. unfold path_glob.
    destruct (glob_accepts _); [|reflexivity].
    cbn [Py.bind]. rewrite G. reflexivity. }
  split; [exact R|].
  intros N. rewrite R, <- P, glob_accepts_without_stars; [reflexivity|].
  now intros S' [= <-].
Qed.

(** X4. When the glob of [get_available_dates] accepts the pattern (it
    does without a symbol, and for every symbol that holds no [**]) and
    every directory it finds has a name that starts with [date=] (what a
    pattern ending in [date=*] selects), the call returns, the listing is
    in strictly ascending order without duplicate, and it holds exactly the
    values the names of these directories carry after their first [=].
    When the glob refuses the pattern, the call raises [ValueError]. *)
Theorem dates_listed_once_ascending {storage : Storage V} {dirs : Directories}
    (self : t) (symbol : option string) :
  names_start_with "date=" (date_dirs self symbol) ->
  ((forall S, symbol = Some S -> str_contains "**" S = false) ->
   glob_accepts (dates_pattern symbol) = true) /\
  (glob_accepts (dates_pattern symbol) = true ->
   exists dates,
     get_available_dates self symbol = Ok dates /\
     strictly_ascending dates /\
     forall d, In d dates <->
               exists p, In p (date_dirs self symbol) /\ name_value p = Some d) /\
  (glob_accepts (dates_pattern symbol) = false ->
   get_available_dates self symbol = Raise ValueError).
Proof.
  intros H. split; [apply glob_accepts_without_stars|]. split.
  - intros A. apply get_available_dates_ok; [exact A|].
    unfold date_dirs in *. apply (names_start_with_values "date="); auto.
  - apply get_available_dates_refused.
Qed.

(** X5. What [get_available_symbols] lists for a directory: for a
    directory named [symbol=value], where [value] holds no [=], the listing
    holds [value]; a name with a second [=] is cut there, so a directory
    named [symbol=value=more] is also listed as [value].  Every symbol
    listed holds no [=] and is the value of such a directory. *)
Theorem listed_value_is_second_field {storage : Storage V} {dirs : Directories}
    (self : t) :
  names_start_with "symbol=" (symbol_dirs self) ->
  exists symbols,
    get_available_symbols self = Ok symbols /\
    (forall dir value more,
       In (dir ++ [("symbol=" ++ value ++ more)%string]) (symbol_dirs self) ->
       no_equals value ->
       more = "" \/ (exists m, more = String "="%char m) ->
       In value symbols) /\
    (forall s, In s symbols ->
       no_equals s /\
       exists dir more,
         In (dir ++ [("symbol=" ++ s ++ more)%string]) (symbol_dirs self) /\
         (more = "" \/ exists m, more = String "="%char m)).
Proof.
  intros H.
  destruct (get_available_symbols_ok self) as (symbols & E & _ & M).
  { unfold symbol_dirs in *. apply (names_start_with_values "symbol="); auto. }
  exists symbols. split; [exact E|]. split.
  - intros dir value more Hin Hv Hm. apply M.
    exists (dir ++ [("symbol=" ++ value ++ more)%string]). split; [exact Hin|].
    unfold name_value. rewrite path_name_last by discriminate.
    change ("symbol=" ++ value ++ more)%string
      with ("symbol" ++ String "="%char (value ++ more))%string.
    rewrite str_split_field
      by (intros [A|[A|[A|[A|[A|[A|[]]]]]]]; discriminate).
    destruct Hm as [->|(m & ->)].
    + replace (value ++ "")%string with value
        by (clear; induction value; cbn; congruence).
      now rewrite str_split_no_sep.
    + now rewrite str_split_field.
  - intros s Hs. apply M in Hs. destruct Hs as (p & Hp & Ep).
    destruct (name_value_shape "symbol=" p s (or_introl eq_refl) (H p Hp) Ep)
      as (Hv & dir & more & -> & Hm).
    split; [exact Hv|]. now exists dir, more.
Qed.

End Properties.

(** ** The properties on the layout the writer produces *)

Ltac each_member H :=
  vm_compute in H;
  repeat (destruct H as [<-|H]; [vm_compute; reflexivity|]);
  destruct H.

Lemma symbols_listed_once_ascending_witness :
  @get_available_symbols Z (storage_with_tree layout []) (tree_dirs layout) demo_loader
  = Ok ["BTCUSD"; "ETHUSD"] /\
  exists symbols,
    @get_available_symbols Z (storage_with_tree layout []) (tree_dirs layout) demo_loader
    = Ok symbols /\
    strictly_ascending symbols /\
    forall s, In s symbols <->
              exists p,
                In p (@symbol_dirs Z (storage_with_tree layout []) (tree_dirs layout)
                        demo_loader)
                /\ name_value p = Some s.
Proof.
  split; [reflexivity|].
  apply (@symbols_listed_once_ascending Z (storage_with_tree layout []) (tree_dirs layout)
           demo_loader).
  intros p Hp. each_member Hp.
Defined.

Lemma symbols_independent_of_enumeration_witness :
  @get_available_symbols Z (storage_with_tree layout []) (tree_dirs layout) demo_loader
  = @get_available_symbols Z (storage_with_tree (rev layout ++ layout) [])
      (tree_dirs layout) demo_loader.
Proof.
  apply (@symbols_independent_of_enumeration Z (storage_with_tree layout [])
           (storage_with_tree (rev layout ++ layout) []) (tree_dirs layout) demo_loader).
  intros p. vm_compute. tauto.
Defined.

Lemma dates_of_symbol_searched_below_ohlc_ohlc_witness :
  @get_available_dates Z (storage_with_tree layout []) (tree_dirs layout) demo_loader None
  = Ok ["2023-11-08"; "2023-11-09"] /\
  (@get_available_dates Z (storage_with_tree layout []) (tree_dirs layout) demo_loader
     (Some "BTCUSD")
   = (if glob_accepts "ohlc/symbol=BTCUSD/date=*" then Ok [] else Raise ValueError) /\
   (str_contains "**" "BTCUSD" = false ->
    @get_available_dates Z (storage_with_tree layout []) (tree_dirs layout) demo_loader
      (Some "BTCUSD")
    = Ok [])) /\
  (@get_available_dates Z (storage_with_tree layout []) (tree_dirs layout) demo_loader
     (Some "BTC**")
   = (if glob_accepts "ohlc/symbol=BTC**/date=*" then Ok [] else Raise ValueError) /\
   (str_contains "**" "BTC**" = false ->
    @get_available_dates Z (storage_with_tree layout []) (tree_dirs layout) demo_loader
      (Some "BTC**")
    = Ok [])).
Proof.
  split; [reflexivity|]. split.
  - apply (@dates_of_symbol_searched_below_ohlc_ohlc Z layout [] demo_loader "BTCUSD").
    + discriminate.
    + intros p Hp. each_member Hp.
  - apply (@dates_of_symbol_searched_below_ohlc_ohlc Z layout [] demo_loader "BTC**").
    + discriminate.
    + intros p Hp. each_member Hp.
Defined.

(** The dates of a symbol on the layout: the empty list; [ValueError] for
    a symbol that puts [**] inside a component of the pattern; the empty
    list again when the [**] of the symbol is a component of its own. *)
Example dates_of_symbol_on_layout :
  @get_available_dates Z (storage_with_tree layout []) (tree_dirs layout) demo_loader
    (Some "BTCUSD") = Ok [] /\
  @get_available_dates Z (storage_with_tree layout []) (tree_dirs layout) demo_loader
    (Some "BTC**") = Raise ValueError /\
  @get_available_dates Z (storage_with_tree layout []) (tree_dirs layout) demo_loader
    (Some "x/**/y") = Ok [].
Proof. repeat split; reflexivity. Qed.

Lemma dates_listed_once_ascending_witness :
  ((forall S, @None string = Some S -> str_contains "**" S = false) ->
   glob_accepts (dates_pattern None) = true) /\
  (glob_accepts (dates_pattern None) = true ->
   exists dates,
     @get_available_dates Z (storage_with_tree layout []) (tree_dirs layout) demo_loader
       None
     = Ok dates /\
     strictly_ascending dates /\
     forall d, In d dates <->
               exists p,
                 In p (@date_dirs Z (storage_with_tree layout []) (tree_dirs layout)
                         demo_loader None)
                 /\ name_value p = Some d) /\
  (glob_accepts (dates_pattern None) = false ->
   @get_available_dates Z (storage_with_tree layout []) (tree_dirs layout) demo_loader
     None
   = Raise ValueError).
Proof.
  apply (@dates_listed_once_ascending Z (storage_with_tree layout []) (tree_dirs layout)
           demo_loader None).
  intros p Hp. each_member Hp.
Defined.

Lemma listed_value_is_second_field_witness :
  @get_available_symbols Z (storage_with_tree layout_with_equals [])
    (tree_dirs layout_with_equals) demo_loader
  = Ok ["BTC"; "ETHUSD"] /\
  exists symbols,
    @get_available_symbols Z (storage_with_tree layout_with_equals [])
      (tree_dirs layout_with_equals) demo_loader
    = Ok symbols /\
    (forall dir value more,
       In (dir ++ [("symbol=" ++ value ++ more)%string])
          (@symbol_dirs Z (storage_with_tree layout_with_equals [])
             (tree_dirs layout_with_equals) demo_loader) ->
       no_equals value ->
       more = "" \/ (exists m, more = String "="%char m) ->
       In value symbols) /\
    (forall s, In s symbols ->
       no_equals s /\
       exists dir more,
         In (dir ++ [("symbol=" ++ s ++ more)%string])
            (@symbol_dirs Z (storage_with_tree layout_with_equals [])
               (tree_dirs layout_with_equals) demo_loader) /\
         (more = "" \/ exists m, more = String "="%char m)).
Proof.
  split; [reflexivity|].
  apply (@listed_value_is_second_field Z (storage_with_tree layout_with_equals [])
           (tree_dirs layout_with_equals) demo_loader).
  intros p Hp. each_member Hp.
Defined.

End ListingFacts.

(* ================================================================== *)
(** * Part X. Properties of the endpoints                             *)
(* ================================================================== *)

Module EndpointFacts.
Import PyMore DataLoader DataLoaderFacts Listing ListingFacts Routes.

(** ** More on the queries *)

Lemma skipn_length_app {A : Type} (l l' : list A) :
  skipn (List.length l) (l ++ l') = l'.
Proof. induction l; simpl; auto. Qed.

Lemma in_skipn {A : Type} (n : nat) (l : list A) (x : A) :
  In x (skipn n l) -> In x l.
Proof.
  intros H. rewrite <- (firstn_skipn n l). apply in_or_app. now right.
Qed.

Lemma StronglySorted_map_compat {A B : Type} (R : A -> A -> Prop) (R' : B -> B -> Prop)
    (f : A -> B) (l : list A) :
  (forall a b, R a b -> R' (f a) (f b)) ->
  StronglySorted R l -> StronglySorted R' (map f l).
Proof.
  intros HR. induction 1 as [|a l Hl IH Ha]; simpl; constructor; [assumption|].
  rewrite Forall_forall in *. intros y Hy. apply in_map_iff in Hy.
  destruct Hy as (x & <- & Hx). now apply HR, Ha.
Qed.

Lemma StronglySorted_filter_gen {A : Type} (R : A -> A -> Prop) (f : A -> bool)
    (l : list A) :
  StronglySorted R l -> StronglySorted R (filter f l).
Proof.
  induction 1 as [|a l Hl IH Ha]; simpl; [constructor|].
  destruct (f a); [|assumption].
  constructor; [assumption|].
  rewrite Forall_forall in *. intros x Hx. apply filter_In in Hx. now apply Ha.
Qed.

Section Queries.
Context {V : Type} {storage : Storage V} {sorter : SortValues V}.

Lemma tail_one_last (older : DataFrame V) (newest : Row V) :
  tail 1 (older ++ [newest]) = [newest].
Proof.
  rewrite tail_pos by lia. rewrite length_app. cbn [List.length].
  replace (List.length older + 1 - Z.to_nat 1)%nat with (List.length older) by lia.
  apply skipn_length_app.
Qed.

Lemma tail_neg (k : Z) (df : DataFrame V) :
  0 < k -> tail (- k) df = skipn (Z.to_nat k) df.
Proof.
  intros Hk. unfold tail.
  destruct (Z.eqb_spec (- k) 0); [lia|].
  destruct (Z.ltb_spec 0 (- k)); [lia|].
  now rewrite Z.opp_involutive.
Qed.

Lemma in_tail (n : Z) (df : DataFrame V) (r : Row V) :
  In r (tail n df) -> In r df.
Proof.
  unfold tail. destruct (n =? 0); [contradiction|].
  destruct (0 <? n); apply in_skipn.
Qed.

Lemma query_limit (files : list Path) (symbol start_date end_date : option string)
    (n : Z) :
  n <> 0 ->
  query files symbol start_date end_date (Some n) =
  tail n (query files symbol start_date end_date None).
Proof.
  intros Hn. unfold query. rewrite combine_frames_limit.
  now destruct (Z.eqb_spec n 0).
Qed.

Lemma query_sorted (files : list Path) (symbol start_date end_date : option string)
    (limit : option Z) :
  StronglySorted ts_le (query files symbol start_date end_date limit).
Proof. apply combine_frames_sorted. Qed.

Lemma query_incl (files : list Path) (symbol start_date end_date : option string)
    (limit : option Z) (r : Row V) :
  In r (query files symbol start_date end_date limit) ->
  In r (query files symbol start_date end_date None).
Proof.
  destruct limit as [n|]; [|auto].
  destruct (Z.eqb_spec n 0) as [->|Hn].
  - unfold query. now rewrite combine_frames_limit.
  - rewrite query_limit by assumption. apply in_tail.
Qed.

Lemma query_symbol (files : list Path) (S : string) (start_date end_date : option string)
    (limit : option Z) (r : Row V) :
  S <> "" ->
  In r (query files (Some S) start_date end_date limit) -> row_symbol r = S.
Proof.
  intros HS H. apply query_incl, in_query in H. destruct H as [H _].
  unfold symbol_matches in H. apply truthy_some in HS. rewrite HS in H.
  now apply String.eqb_eq.
Qed.

Lemma query_bound (files : list Path) (symbol start_date end_date : option string)
    (k : Z) :
  0 < k ->
  Z.of_nat (List.length (query files symbol start_date end_date (Some k))) <= k.
Proof.
  intros Hk. rewrite query_limit by lia. rewrite tail_pos_length by assumption. lia.
Qed.

End Queries.

(** ** [get_latest_ohlc] *)

Section LatestBars.
Import Latest.
Context {storage : Storage Bar} {sorter : SortValues Bar} {dirs : Directories}
        {timestamps : Timestamps}.
Variable loader : DataLoader.t.

(** One turn of the loop: nothing for a symbol without bars, else the item
    of the last row of its bars. *)
Lemma latest_step (sym : string) (rest : list string) (latest : list LatestBar) :
  exists rows,
    load_ohlc loader (Some sym) None None None = Ok rows /\
    StronglySorted ts_le rows /\
    ((rows = [] /\ has_bars loader sym = false /\
      latest_loop loader (sym :: rest) latest = latest_loop loader rest latest) \/
     (exists older newest,
        rows = older ++ [newest] /\ has_bars loader sym = true /\
        latest_loop loader (sym :: rest) latest =
        latest_loop loader rest (latest ++ [latest_bar sym newest]))).
Proof.
  exists (query (candidates loader "ohlc" (Some sym)) (Some sym) None None None).
  split; [apply load_ohlc_query|]. split; [apply query_sorted|].
  unfold has_bars. cbn [latest_loop]. rewrite !load_ohlc_query.
  rewrite query_limit by lia. cbn [Py.bind].
  destruct (query _ _ _ _ None) as [|r rows] eqn:E.
  - left. rewrite tail_nil. auto.
  - right. destruct (@exists_last _ (r :: rows)) as (older & newest & E'); [discriminate|].
    exists older, newest. rewrite E'. split; [reflexivity|].
    split; [now destruct older|].
    rewrite tail_one_last. reflexivity.
Qed.

Lemma latest_loop_spec (symbols : list string) (latest : list LatestBar) :
  exists more,
    latest_loop loader symbols latest = Ok (latest ++ more) /\
    map Latest.symbol more = filter (has_bars loader) symbols.
Proof.
  revert latest. induction symbols as [|sym rest IH]; intros latest.
  - exists []. now rewrite app_nil_r.
  - destruct (latest_step sym rest latest)
      as (rows & _ & _ & [(_ & Hb & ->)|(older & newest & _ & Hb & ->)]).
    + destruct (IH latest) as (more & E & M). exists more.
      cbn [filter]. rewrite Hb. auto.
    + destruct (IH (latest ++ [latest_bar sym newest])) as (more & E & M).
      exists (latest_bar sym newest :: more). rewrite E, <- app_assoc.
      split; [reflexivity|]. cbn [filter map]. rewrite Hb, M. reflexivity.
Qed.

(** X6. [get_latest_ohlc] with a symbol answers with at most one item: none
    when [load_ohlc] finds no bar of the symbol, otherwise the item of the
    last bar of the answer without limit, and no bar of the symbol has a
    later timestamp. *)
Theorem latest_of_symbol_is_newest_bar (S : string) :
  S <> "" ->
  exists rows,
    load_ohlc loader (Some S) None None None = Ok rows /\
    (rows = [] -> get_latest_ohlc loader (Some S) = Return []) /\
    (forall older newest,
       rows = older ++ [newest] ->
       get_latest_ohlc loader (Some S) = Return [latest_bar S newest] /\
       forall r, In r rows -> row_timestamp r <= row_timestamp newest).
Proof.
  intros HS. apply truthy_some in HS.
  unfold get_latest_ohlc. rewrite HS. cbn [Py.bind].
  destruct (latest_step S [] [])
    as (rows & E & Hs & [(-> & _ & ->)|(older & newest & -> & _ & ->)]);
    exists rows || idtac.
  - exists []. split; [assumption|]. split; [reflexivity|].
    intros older newest C. now destruct older.
  - exists (older ++ [newest]). split; [assumption|]. split.
    + intros C. now destruct older.
    + intros older' newest' C. apply app_inj_tail in C. destruct C as [<- <-].
      split; [reflexivity|].
      intros r Hr. apply in_app_or in Hr. destruct Hr as [Hr|[<-|[]]]; [|lia].
      apply (StronglySorted_app_le _ _ Hs r newest Hr). now left.
Qed.

(** X7. [get_latest_ohlc] without a symbol answers with one item for each
    listed symbol that has a bar, and none for the others; the items stand
    in the order of the listing, so their symbols are strictly ascending. *)
Theorem latest_of_every_listed_symbol (symbol : option string) :
  truthy_str symbol = false ->
  names_start_with "symbol=" (symbol_dirs loader) ->
  exists symbols latest,
    get_available_symbols loader = Ok symbols /\
    get_latest_ohlc loader symbol = Return latest /\
    map Latest.symbol latest = filter (has_bars loader) symbols /\
    strictly_ascending (map Latest.symbol latest).
Proof.
  intros Hf Hn.
  destruct (get_available_symbols_ok loader) as (symbols & E & Ha & _).
  { unfold symbol_dirs in *. apply (names_start_with_values "symbol="); auto. }
  assert (G : get_latest_ohlc loader symbol =
              match (match symbols with
                     | [] => Ok []
                     | _ :: _ => latest_loop loader symbols []
                     end) with
              | Ok latest => Return latest
              | Raise e => HTTPException 500 (exn_str e)
              end).
  { unfold get_latest_ohlc. destruct symbol as [s|]; [rewrite Hf|]; now rewrite E. }
  destruct (latest_loop_spec symbols []) as (latest & El & M).
  exists symbols, latest. split; [assumption|].
  assert (R : get_latest_ohlc loader symbol = Return latest).
  { rewrite G. destruct symbols as [|s symbols].
    - cbn in M. now destruct latest.
    - now rewrite El. }
  split; [assumption|]. split; [assumption|].
  rewrite M. now apply StronglySorted_filter_gen.
Qed.

End LatestBars.

(** ** [get_ohlc] and [get_volatility] *)

Section Responses.
Variable loader : DataLoader.t.

(** X8. A response answered by [get_ohlc] is well formed: its count is
    the number of its items, it repeats the symbol of the request, the
    items are in ascending order of timestamp, with a symbol every item has
    that symbol, and with a positive limit there are at most that many. *)
Theorem ohlc_response_well_formed {storage : Storage Bar} {sorter : SortValues Bar}
    (symbol start_date end_date : option string) (limit : option Z)
    (response : OHLCResponse) :
  get_ohlc loader symbol start_date end_date limit = Return response ->
  Routes.count response = Z.of_nat (List.length (Routes.data response)) /\
  Routes.response_symbol response = symbol /\
  StronglySorted (fun a b => Routes.timestamp a <= Routes.timestamp b)
                 (Routes.data response) /\
  (forall S, symbol = Some S -> S <> "" ->
             forall d, In d (Routes.data response) -> Routes.symbol d = S) /\
  (forall k, limit = Some k -> 0 < k -> Routes.count response <= k).
Proof.
  set (df := query (candidates loader "ohlc" symbol) symbol start_date end_date limit).
  assert (G : get_ohlc loader symbol start_date end_date limit
              = Return (mkOHLCResponse (map ohlc_data df)
                          (Z.of_nat (List.length (map ohlc_data df))) symbol)).
  { unfold get_ohlc. rewrite load_ohlc_query. cbn [Py.bind]. fold df.
    now destruct df. }
  rewrite G. intros [= <-].
  cbn [Routes.count Routes.data Routes.response_symbol].
  split; [reflexivity|]. split; [reflexivity|]. split; [|split].
  - apply (StronglySorted_map_compat ts_le); [auto|apply query_sorted].
  - intros S -> HS d Hd. apply in_map_iff in Hd. destruct Hd as (r & <- & Hr).
    cbn. now apply (query_symbol _ _ _ _ _ _ HS Hr).
  - intros k -> Hk. rewrite length_map. now apply query_bound.
Qed.

(** X9. A response answered by [get_volatility] is well formed: its count
    is the number of its items, it repeats the symbol of the request, no
    item has a [NaN] volatility (a missing value is answered as [0.0]), the
    items are in ascending order of timestamp, with a symbol every item has
    that symbol, and with a positive limit there are at most that many. *)
Theorem volatility_response_well_formed {storage : Storage float}
    {sorter : SortValues float}
    (symbol start_date end_date : option string) (limit : option Z)
    (response : Volatility.VolatilityResponse) :
  Volatility.get_volatility loader symbol start_date end_date limit = Return response ->
  Volatility.count response = Z.of_nat (List.length (Volatility.data response)) /\
  Volatility.response_symbol response = symbol /\
  (forall d, In d (Volatility.data response) ->
             PrimFloat.is_nan (Volatility.volatility d) = false) /\
  StronglySorted (fun a b => Volatility.timestamp a <= Volatility.timestamp b)
                 (Volatility.data response) /\
  (forall S, symbol = Some S -> S <> "" ->
             forall d, In d (Volatility.data response) -> Volatility.symbol d = S) /\
  (forall k, limit = Some k -> 0 < k -> Volatility.count response <= k).
Proof.
  set (df := query (candidates loader "volatility" symbol) symbol start_date end_date
               limit).
  assert (G : Volatility.get_volatility loader symbol start_date end_date limit
              = Return (Volatility.mkVolatilityResponse
                          (map Volatility.volatility_data df)
                          (Z.of_nat (List.length (map Volatility.volatility_data df)))
                          symbol)).
  { unfold Volatility.get_volatility. rewrite load_volatility_query. cbn [Py.bind].
    fold df. now destruct df. }
  rewrite G. intros [= <-].
  cbn [Volatility.count Volatility.data Volatility.response_symbol].
  split; [reflexivity|]. split; [reflexivity|]. split; [|split; [|split]].
  - intros d Hd. apply in_map_iff in Hd. destruct Hd as (r & <- & _).
    cbn. unfold Volatility.pd_notna.
    destruct (PrimFloat.is_nan (row_values r)) eqn:N; [reflexivity|exact N].
  - apply (StronglySorted_map_compat ts_le); [auto|apply query_sorted].
  - intros S -> HS d Hd. apply in_map_iff in Hd. destruct Hd as (r & <- & Hr).
    cbn. now apply (query_symbol _ _ _ _ _ _ HS Hr).
  - intros k -> Hk. rewrite length_map. now apply query_bound.
Qed.

End Responses.

(** X10. A negative limit is no error and no bound: with the limit [-k]
    both queries return the answer without limit less its [k] first
    (oldest) rows. *)
Theorem negative_limit_drops_oldest {V : Type} {storage : Storage V}
    {sorter : SortValues V} (self : DataLoader.t)
    (symbol start_date end_date : option string) (k : Z) :
  0 < k ->
  (exists rows,
     load_ohlc self symbol start_date end_date None = Ok rows /\
     load_ohlc self symbol start_date end_date (Some (- k))
     = Ok (skipn (Z.to_nat k) rows)) /\
  (exists rows,
     load_volatility self symbol start_date end_date None = Ok rows /\
     load_volatility self symbol start_date end_date (Some (- k))
     = Ok (skipn (Z.to_nat k) rows)).
Proof.
  intros Hk. split.
  - rewrite !load_ohlc_query. eexists. split; [reflexivity|].
    rewrite query_limit by lia. now rewrite tail_neg.
  - rewrite !load_volatility_query. eexists. split; [reflexivity|].
    rewrite query_limit by lia. now rewrite tail_neg.
Qed.

(** ** The charts *)

Section Charts.
Import Visualizations.
Context {framework : Framework}.
Variable loader : DataLoader.t.

(** X11. The four charts of one symbol never answer with the status 404:
    the [HTTPException] with status 404 raised for an empty frame is caught
    by the handler of the same function and answered with the status 500;
    a chart with data is answered with a figure. *)
Theorem chart_without_data_answers_500
    {ohlc : Storage Routes.Bar} {ohlc_sorter : SortValues Routes.Bar}
    {vol : Storage float} {vol_sorter : SortValues float}
    (symbol : string) (limit : Z) :
  (exists bars,
     load_ohlc (storage := ohlc) (sorter := ohlc_sorter) loader (Some symbol) None None
       (Some limit) = Ok bars /\
     (bars = [] ->
      candlestick_chart loader symbol limit = no_data_answer symbol /\
      price_line_chart loader symbol limit = no_data_answer symbol /\
      volume_chart loader symbol limit = no_data_answer symbol) /\
     (bars <> [] ->
      exists fig1 fig2 fig3,
        candlestick_chart loader symbol limit = Return fig1 /\
        price_line_chart loader symbol limit = Return fig2 /\
        volume_chart loader symbol limit = Return fig3)) /\
  (exists values,
     load_volatility (storage := vol) (sorter := vol_sorter) loader (Some symbol) None None
       (Some limit) = Ok values /\
     (values = [] -> volatility_chart loader symbol limit = no_data_answer symbol) /\
     (values <> [] -> exists fig, volatility_chart loader symbol limit = Return fig)).
Proof.
  split.
  - eexists. split; [apply load_ohlc_query|].
    unfold candlestick_chart, price_line_chart, volume_chart, no_data_answer.
    rewrite !load_ohlc_query.
    destruct (query _ _ _ _ _) as [|r rows]; cbn [loaded guarded raised_str].
    + split; [auto|congruence].
    + split; [discriminate|]. intros _. do 3 eexists. split; [|split]; reflexivity.
  - eexists. split; [apply load_volatility_query|].
    unfold volatility_chart, no_data_answer.
    rewrite !load_volatility_query.
    destruct (query _ _ _ _ _) as [|r rows]; cbn [loaded guarded raised_str].
    + split; [auto|congruence].
    + split; [discriminate|]. intros _. eexists. reflexivity.
Qed.

Section OHLC.
Context {storage : Storage Routes.Bar} {sorter : SortValues Routes.Bar}.

(** X12. A figure answered by [candlestick_chart] has one trace, named by
    the symbol; its five series have the same length, which is at least one
    and, for a positive limit, at most the limit; the timestamps ascend;
    and the layout is set. *)
Theorem candlestick_series_aligned (symbol : string) (limit : Z) (fig : Figure) :
  candlestick_chart loader symbol limit = Return fig ->
  exists x open high low close,
    fig_data fig = [Candlestick x open high low close symbol] /\
    List.length open = List.length x /\ List.length high = List.length x /\
    List.length low = List.length x /\ List.length close = List.length x /\
    (0 < List.length x)%nat /\
    (0 < limit -> Z.of_nat (List.length x) <= limit) /\
    StronglySorted Z.le x /\
    fig_layout fig =
    Some (mkLayout (symbol ++ " Price Chart (Candlestick)")%string
                   "Time" "Price (USD)" "plotly_dark" 600).
Proof.
  unfold candlestick_chart. rewrite load_ohlc_query.
  pose proof (query_sorted (candidates loader "ohlc" (Some symbol)) (Some symbol)
                None None (Some limit)) as Hs.
  pose proof (fun H => query_bound (candidates loader "ohlc" (Some symbol)) (Some symbol)
                         None None limit H) as Hb.
  destruct (query _ _ _ _ _) as [|r rows] eqn:E; cbn [loaded guarded];
    [discriminate|].
  intros H. injection H as <-.
  cbn [go_Figure update_layout fig_data fig_layout].
  do 5 eexists. split; [reflexivity|].
  change (row_timestamp r :: timestamps rows) with (map (@row_timestamp _) (r :: rows)).
  unfold column. cbn [List.length] in *. rewrite !length_map. cbn [List.length].
  repeat split; try reflexivity.
  - lia.
  - exact Hb.
  - apply (StronglySorted_map_compat ts_le); auto.
Qed.

Lemma color_of_index (i : nat) :
  list_getitem colors (i mod List.length colors) = Ok (nth (i mod 5) colors "").
Proof.
  change (List.length colors) with 5%nat.
  pose proof (Nat.mod_upper_bound i 5) as B.
  destruct (i mod 5)%nat as [|[|[|[|[|n]]]]]; try reflexivity. lia.
Qed.

Lemma add_symbols_spec (i : nat) (symbol_list : list string) (limit : Z) (fig : Figure) :
  add_symbols loader i symbol_list limit fig =
  Done (mkFigure
          (fig_data fig
           ++ flat_map (fun item => symbol_trace loader limit (fst item) (snd item))
                       (enumerate_from i symbol_list))
          (fig_layout fig)).
Proof.
  revert i fig. induction symbol_list as [|symbol rest IH]; intros i fig.
  - cbn. rewrite app_nil_r. now destruct fig.
  - cbn [add_symbols enumerate_from flat_map fst snd].
    unfold symbol_trace at 1, chart_bars.
    rewrite load_ohlc_query. cbn [loaded].
    destruct (query _ _ _ _ _) as [|r rows].
    + rewrite IH. reflexivity.
    + rewrite color_of_index, IH. cbn [add_trace fig_data fig_layout].
      rewrite <- app_assoc. reflexivity.
Qed.

(** X13. A figure answered by [multi_symbol_chart] holds, in the order of
    the request, one line for each item that has bars, named by the item
    with the white space around it removed, and coloured [colors[i % 5]]
    where [i] is the position of the item in the request: an item without
    data draws nothing but keeps its position.  The figure has the layout
    of the comparison chart. *)
Theorem multi_symbol_traces_in_request_order (symbols : string) (limit : Z)
    (fig : Figure) :
  multi_symbol_chart loader symbols limit = Return fig ->
  fig_data fig =
    flat_map (fun item => symbol_trace loader limit (fst item) (snd item))
             (enumerate_from 0 (map str_strip (str_split ","%char symbols))) /\
  fig_layout fig =
    Some (mkLayout "Multi-Symbol Price Comparison"
                   "Time" "Price (USD)" "plotly_dark" 600).
Proof.
  unfold multi_symbol_chart. cbv zeta. rewrite add_symbols_spec.
  intros [= <-]. split; reflexivity.
Qed.

End OHLC.

End Charts.

(** ** The properties on stored bars *)

Local Abbreviation bars_storage := (storage_with_tree layout Latest.bars).

Lemma latest_of_symbol_is_newest_bar_witness :
  @Latest.get_latest_ohlc bars_storage stable_sorter (tree_dirs layout)
    Latest.numeral_timestamps demo_loader (Some "BTCUSD")
  = Return [Latest.mkLatestBar "BTCUSD" "40" 4 4 4 4 1] /\
  exists rows,
    @load_ohlc _ bars_storage stable_sorter demo_loader (Some "BTCUSD") None None None
    = Ok rows /\
    (rows = [] ->
     @Latest.get_latest_ohlc bars_storage stable_sorter (tree_dirs layout)
       Latest.numeral_timestamps demo_loader (Some "BTCUSD") = Return []) /\
    (forall older newest,
       rows = older ++ [newest] ->
       @Latest.get_latest_ohlc bars_storage stable_sorter (tree_dirs layout)
         Latest.numeral_timestamps demo_loader (Some "BTCUSD")
       = Return [@Latest.latest_bar Latest.numeral_timestamps "BTCUSD" newest] /\
       forall r, In r rows -> row_timestamp r <= row_timestamp newest).
Proof.
  split; [vm_compute; reflexivity|].
  apply (@latest_of_symbol_is_newest_bar bars_storage stable_sorter (tree_dirs layout)
           Latest.numeral_timestamps demo_loader "BTCUSD").
  discriminate.
Defined.

Lemma latest_of_every_listed_symbol_witness :
  @Latest.get_latest_ohlc bars_storage stable_sorter (tree_dirs layout)
    Latest.numeral_timestamps demo_loader None
  = Return [Latest.mkLatestBar "BTCUSD" "40" 4 4 4 4 1;
            Latest.mkLatestBar "ETHUSD" "15" 7 7 7 7 1] /\
  exists symbols latest,
    @get_available_symbols _ bars_storage (tree_dirs layout) demo_loader = Ok symbols /\
    @Latest.get_latest_ohlc bars_storage stable_sorter (tree_dirs layout)
      Latest.numeral_timestamps demo_loader None = Return latest /\
    map Latest.symbol latest
    = filter (@Latest.has_bars bars_storage stable_sorter demo_loader) symbols /\
    strictly_ascending (map Latest.symbol latest).
Proof.
  split; [vm_compute; reflexivity|].
  apply (@latest_of_every_listed_symbol bars_storage stable_sorter (tree_dirs layout)
           Latest.numeral_timestamps demo_loader None).
  - reflexivity.
  - intros p Hp. each_member Hp.
Defined.

Lemma negative_limit_drops_oldest_witness :
  @load_ohlc _ two_days stable_sorter demo_loader (Some "BTCUSD") None None (Some (-2))
  = Ok [mkRow 2 "BTCUSD" 2; mkRow 2 "BTCUSD" 4; mkRow 3 "BTCUSD" 5] /\
  (exists rows,
     @load_ohlc _ two_days stable_sorter demo_loader (Some "BTCUSD") None None None
     = Ok rows /\
     @load_ohlc _ two_days stable_sorter demo_loader (Some "BTCUSD") None None
       (Some (- 2))
     = Ok (skipn (Z.to_nat 2) rows)) /\
  (exists rows,
     @load_volatility _ two_days stable_sorter demo_loader (Some "BTCUSD") None None None
     = Ok rows /\
     @load_volatility _ two_days stable_sorter demo_loader (Some "BTCUSD") None None
       (Some (- 2))
     = Ok (skipn (Z.to_nat 2) rows)).
Proof.
  split; [vm_compute; reflexivity|].
  apply (@negative_limit_drops_oldest Z two_days stable_sorter demo_loader
           (Some "BTCUSD") None None 2).
  lia.
Defined.

Lemma candlestick_series_aligned_witness :
  exists fig,
    @Visualizations.candlestick_chart Visualizations.starlette demo_loader
      one_bar stable_sorter "BTCUSD" 500 = Return fig /\
    exists x open high low close,
      Visualizations.fig_data fig
      = [Visualizations.Candlestick x open high low close "BTCUSD"] /\
      List.length open = List.length x /\ List.length high = List.length x /\
      List.length low = List.length x /\ List.length close = List.length x /\
      (0 < List.length x)%nat /\
      (0 < 500 -> Z.of_nat (List.length x) <= 500) /\
      StronglySorted Z.le x /\
      Visualizations.fig_layout fig =
      Some (Visualizations.mkLayout "BTCUSD Price Chart (Candlestick)"
              "Time" "Price (USD)" "plotly_dark" 600).
Proof.
  eexists. split; [vm_compute; reflexivity|].
  apply (@candlestick_series_aligned Visualizations.starlette demo_loader
           one_bar stable_sorter "BTCUSD" 500).
  vm_compute. reflexivity.
Defined.

Lemma ohlc_response_well_formed_witness :
  exists response,
    get_ohlc (storage := one_bar) (sorter := stable_sorter) demo_loader
      (Some "BTCUSD") None None (Some 1000) = Return response /\
    Routes.data response
    = [mkOHLCData 1699531200000000000 50000 50020 49980 50010 0.5 "BTCUSD"] /\
    Routes.count response = Z.of_nat (List.length (Routes.data response)) /\
    Routes.response_symbol response = Some "BTCUSD" /\
    StronglySorted (fun a b => Routes.timestamp a <= Routes.timestamp b)
                   (Routes.data response) /\
    (forall S, Some "BTCUSD" = Some S -> S <> "" ->
               forall d, In d (Routes.data response) -> Routes.symbol d = S) /\
    (forall k, Some 1000 = Some k -> 0 < k -> Routes.count response <= k).
Proof.
  eexists. split; [vm_compute; reflexivity|]. split; [reflexivity|].
  apply (@ohlc_response_well_formed demo_loader one_bar stable_sorter
           (Some "BTCUSD") None None (Some 1000)).
  vm_compute. reflexivity.
Defined.

Lemma volatility_response_well_formed_witness :
  exists response,
    Volatility.get_volatility (storage := Volatility.two_values)
      (sorter := stable_sorter) demo_loader (Some "BTCUSD") None None (Some 1000)
    = Return response /\
    Volatility.data response
    = [Volatility.mkVolatilityData 1 0 "BTCUSD";
       Volatility.mkVolatilityData 2 0.25 "BTCUSD";
       Volatility.mkVolatilityData 3 0.5 "BTCUSD"] /\
    Volatility.count response = Z.of_nat (List.length (Volatility.data response)) /\
    Volatility.response_symbol response = Some "BTCUSD" /\
    (forall d, In d (Volatility.data response) ->
               PrimFloat.is_nan (Volatility.volatility d) = false) /\
    StronglySorted (fun a b => Volatility.timestamp a <= Volatility.timestamp b)
                   (Volatility.data response) /\
    (forall S, Some "BTCUSD" = Some S -> S <> "" ->
               forall d, In d (Volatility.data response) -> Volatility.symbol d = S) /\
    (forall k, Some 1000 = Some k -> 0 < k -> Volatility.count response <= k).
Proof.
  eexists. split; [vm_compute; reflexivity|]. split; [reflexivity|].
  apply (@volatility_response_well_formed demo_loader Volatility.two_values
           stable_sorter (Some "BTCUSD") None None (Some 1000)).
  vm_compute. reflexivity.
Defined.

Lemma multi_symbol_traces_in_request_order_witness :
  exists fig,
    @Visualizations.multi_symbol_chart Visualizations.starlette demo_loader
      (storage_of Latest.bars) stable_sorter "BTCUSD, XRPUSD ,ETHUSD" 500
    = Return fig /\
    (exists x1 y1 x3 y3,
       Visualizations.fig_data fig
       = [Visualizations.Scatter x1 y1 "lines" "BTCUSD" None "#00d4ff" 2;
          Visualizations.Scatter x3 y3 "lines" "ETHUSD" None "#4ecdc4" 2]) /\
    Visualizations.fig_data fig =
      flat_map (fun item =>
                  @Visualizations.symbol_trace demo_loader (storage_of Latest.bars)
                    stable_sorter 500 (fst item) (snd item))
               (Visualizations.enumerate_from 0
                  (map str_strip (str_split ","%char "BTCUSD, XRPUSD ,ETHUSD"))) /\
    Visualizations.fig_layout fig =
      Some (Visualizations.mkLayout "Multi-Symbol Price Comparison"
              "Time" "Price (USD)" "plotly_dark" 600).
Proof.
  eexists. split; [vm_compute; reflexivity|].
  split; [do 4 eexists; vm_compute; reflexivity|].
  apply (@multi_symbol_traces_in_request_order Visualizations.starlette demo_loader
           (storage_of Latest.bars) stable_sorter "BTCUSD, XRPUSD ,ETHUSD" 500).
  vm_compute. reflexivity.
Defined.

(** On the bars of two symbols: the item without data draws nothing, and
    the third item has the third colour. *)
Example multi_symbol_chart_skips_unknown :
  exists x1 y1 x3 y3 layout,
    @Visualizations.multi_symbol_chart Visualizations.starlette demo_loader
      (storage_of Latest.bars) stable_sorter "BTCUSD, XRPUSD ,ETHUSD" 500
    = Return (Visualizations.mkFigure
                [Visualizations.Scatter x1 y1 "lines" "BTCUSD" None "#00d4ff" 2;
                 Visualizations.Scatter x3 y3 "lines" "ETHUSD" None "#4ecdc4" 2]
                layout).
Proof. do 5 eexists. vm_compute. reflexivity. Qed.

(** The chart of a symbol without data: status 500, the 404 in its text. *)
Example chart_of_unknown_symbol :
  @Visualizations.candlestick_chart Visualizations.starlette demo_loader
    one_bar stable_sorter "XRPUSD" 500
  = HTTPException 500 "404: No data found for symbol XRPUSD".
Proof. vm_compute. reflexivity. Qed.

End EndpointFacts.

(* ================================================================== *)
(** * Part XI. Properties of a feed session and of [start]            *)
(* ================================================================== *)

Module SessionFacts.
Import Producer BinanceProducer ProducerFacts Session.

Section Effects.
Context {library : Library} {bus : Bus}.

(** ** Counting sends *)

Lemma count_sends_app (a b : list event) :
  count_sends (a ++ b) = (count_sends a + count_sends b)%nat.
Proof. unfold count_sends. now rewrite filter_app, length_app. Qed.

Lemma acknowledged_app (n : nat) (a b : list event) :
  acknowledged n (a ++ b) = acknowledged n a + acknowledged (n + count_sends a) b.
Proof.
  revert n. induction a as [|ev a IH]; intros n.
  - cbn. now rewrite Nat.add_0_r.
  - destruct ev; cbn [app acknowledged]; rewrite IH;
      unfold count_sends; cbn [filter List.length];
      rewrite ?Nat.add_succ_r; cbn [Nat.add]; lia.
Qed.

Lemma silent_acknowledged (n : nat) (a : list event) :
  silent a -> acknowledged n a = 0.
Proof.
  induction 1 as [|ev a Hev _ IH]; [reflexivity|].
  destruct ev; cbn [acknowledged]; try assumption. contradiction.
Qed.

Lemma silent_count (a : list event) : silent a -> count_sends a = 0%nat.
Proof.
  unfold count_sends. induction 1 as [|ev a Hev _ IH]; [reflexivity|].
  destruct ev; cbn [filter]; try assumption. contradiction.
Qed.

Lemma silent_well_keyed (tp : string) (a : list event) :
  silent a -> Forall (well_keyed tp) a.
Proof.
  apply Forall_impl. intros ev. destruct ev; cbn; tauto.
Qed.

Lemma silent_app (a b : list event) : silent a -> silent b -> silent (a ++ b).
Proof. intros Ha Hb. apply Forall_app. now split. Qed.

(** ** Effects compose *)

Lemma advanced_0 (s : BinanceProducer) : advanced s 0 = s.
Proof. destruct s. unfold advanced. cbn. now rewrite Z.add_0_r. Qed.

Lemma effect_silent (w : World) (added : list event) :
  silent added -> effect w (mkWorld (self w) (trace w ++ added)) added.
Proof.
  intros H. unfold effect. rewrite silent_acknowledged, advanced_0 by assumption.
  split; [reflexivity|]. split; [now apply silent_well_keyed|].
  rewrite silent_count by assumption. split; [lia|reflexivity].
Qed.

Lemma effect_trans (w w1 w2 : World) (a1 a2 : list event) :
  effect w w1 a1 -> effect w1 w2 a2 -> effect w w2 (a1 ++ a2).
Proof.
  intros (-> & K1 & P1 & N1) (-> & K2 & P2 & N2).
  cbn [self trace advanced topic producer] in *.
  unfold effect. split; [|split; [|split]].
  - rewrite acknowledged_app, count_sends_app, <- app_assoc.
    unfold advanced. cbn. now rewrite Z.add_assoc.
  - apply Forall_app. now split.
  - rewrite count_sends_app, published_app, length_app. lia.
  - intros H. rewrite count_sends_app, N1, N2 by assumption. reflexivity.
Qed.

Lemma effect_self (w w' : World) (added : list event) :
  effect w w' added ->
  topic (self w') = topic (self w) /\
  replay_speed (self w') = replay_speed (self w) /\
  producer (self w') = producer (self w) /\
  start_time (self w') = start_time (self w) /\
  trace w' = trace w ++ added.
Proof. intros (-> & _). cbn. auto. Qed.

(** ** [send_to_kafka], [throttle] and [on_message] *)

Lemma count_sends_publish (tr : list event) (td : TradeData) :
  count_sends (tr ++ [EvPublish td]) = count_sends tr.
Proof. rewrite count_sends_app. cbn. apply Nat.add_0_r. Qed.

Lemma logs_silent (logs : list event) : Forall is_log logs -> silent logs.
Proof. apply Forall_impl. intros ev. destruct ev; cbn; tauto. Qed.

Ltac cbn_world :=
  cbn [self trace topic replay_speed producer message_count start_time fst snd].

Ltac close_leaf :=
  cbn_world; rewrite <- ?app_assoc; cbn [app];
  do 2 eexists; split; [reflexivity|];
  first
    [ left; split; [reflexivity|solve [repeat constructor]]
    | right; do 2 eexists; split; [discriminate|];
      split; [first [reflexivity|eassumption]|];
      split; [reflexivity|]; split; [solve [repeat constructor]|];
      try match goal with
          | H : kafka_send _ _ _ _ = _ |- _ => rewrite H
          end;
      lia ].

Lemma send_to_kafka_cases (trade_data : TradeData) (w : World) :
  exists c added,
    send_to_kafka trade_data w =
    (Ok tt,
     mkWorld (mkProducer (topic (self w)) (replay_speed (self w)) (producer (self w)) c
                (start_time (self w)))
       (trace w ++ EvPublish trade_data :: added)) /\
    ((c = message_count (self w) /\ Forall is_log added) \/
     (exists k logs,
        producer (self w) <> None /\
        key_serializer (td_symbol trade_data) = Ok k /\
        added = EvSend (topic (self w)) k trade_data :: logs /\
        Forall is_log logs /\
        c = message_count (self w)
            + match kafka_send (count_sends (trace w)) (topic (self w)) k trade_data with
              | Ok _ => 1
              | Raise _ => 0
              end)).
Proof.
  destruct w as [[tp rs pr mc st] tr].
  pose proof (count_sends_publish tr trade_data) as C.
  unfold send_to_kafka, producer_send, try_except, mbind, get_self, set_self,
    get_trace, emit, lift, raise, ret.
  cbn [self trace topic replay_speed producer message_count start_time fst snd].
  destruct pr as [[]|]; cbn_world.
  - destruct (key_serializer (td_symbol trade_data)) as [k|e] eqn:K; cbn_world.
    + rewrite C.
      destruct (kafka_send (count_sends tr) tp k trade_data) as [[]|e] eqn:E; cbn_world.
      * destruct ((mc + 1) mod 100 =? 0); cbn_world.
        -- destruct (float_of_int (mc + 1)) as [x|e]; cbn_world.
           ++ destruct (PrimFloat.eqb _ _); close_leaf.
           ++ destruct e; close_leaf.
        -- close_leaf.
      * destruct e; close_leaf.
    + destruct e; close_leaf.
  - close_leaf.
Qed.

Lemma effect_refl (w : World) : effect w w [].
Proof.
  pose proof (effect_silent w [] (Forall_nil _)) as H.
  rewrite app_nil_r in H. now destruct w.
Qed.

Lemma send_to_kafka_effect (trade_data : TradeData) (w : World) :
  exists w' added,
    send_to_kafka trade_data w = (Ok tt, w') /\ effect w w' added.
Proof.
  destruct (send_to_kafka_cases trade_data w)
    as (c & added & E & [(-> & Hs)|(k & logs & Hp & K & -> & Hs & ->)]);
    apply logs_silent in Hs.
  - exists (mkWorld (self w) (trace w ++ EvPublish trade_data :: added)),
      (EvPublish trade_data :: added).
    split; [now destruct w as [[] ?]|].
    apply effect_silent. now constructor.
  - eexists _, (EvPublish trade_data :: EvSend (topic (self w)) k trade_data :: logs).
    split; [exact E|]. unfold effect. split; [|split; [|split]].
    + cbn [acknowledged]. rewrite silent_acknowledged by assumption.
      unfold advanced. now rewrite Z.add_0_r.
    + constructor; [exact I|]. constructor; [now split|now apply silent_well_keyed].
    + unfold count_sends. cbn [filter List.length published flat_map app].
      fold (count_sends logs). rewrite silent_count by assumption. lia.
    + intros N. contradiction.
Qed.

Lemma throttle_cases (w : World) :
  exists r added,
    throttle w = (r, mkWorld (self w) (trace w ++ added)) /\ silent added.
Proof.
  assert (Z0 : forall r : result unit, exists r' added,
               (r, w) = (r', mkWorld (self w) (trace w ++ added)) /\ silent added).
  { intros r. exists r, []. rewrite app_nil_r. split; [now destruct w|constructor]. }
  unfold throttle, time_sleep, mbind, get_self, raise, ret, emit.
  destruct (PrimFloat.ltb (replay_speed (self w)) 1); [|apply Z0].
  destruct (PrimFloat.eqb (replay_speed (self w)) 0); [apply Z0|].
  destruct (_ || _); [apply Z0|].
  destruct (PrimFloat.ltb _ _); [apply Z0|].
  eexists _, [_]. split; [reflexivity|]. repeat constructor.
Qed.

Lemma on_message_effect (message : string) (w : World) :
  exists w' added,
    on_message message w = (Ok tt, w') /\ effect w w' added.
Proof.
  assert (H : exists w' added,
             emit (EvError "Error processing message") w = (Ok tt, w') /\
             effect w w' added).
  { eexists _, [_]. split; [reflexivity|]. apply effect_silent. repeat constructor. }
  unfold on_message, try_except, mbind, lift.
  destruct (json_loads message) as [data|e]; [|exact H].
  destruct (is_agg_trade data) as [[|]|e]; [| |exact H].
  - destruct (normalize data) as [trade_data|e]; [|exact H].
    destruct (send_to_kafka_effect trade_data w) as (w1 & a1 & -> & F1).
    destruct (throttle_cases w1) as (r & a2 & -> & S2).
    destruct r as [[]|e].
    + exists (mkWorld (self w1) (trace w1 ++ a2)), (a1 ++ a2).
      split; [reflexivity|].
      eapply effect_trans; [exact F1|now apply effect_silent].
    + exists (mkWorld (self w1)
                ((trace w1 ++ a2) ++ [EvError "Error processing message"])),
        (a1 ++ a2 ++ [EvError "Error processing message"]).
      split; [reflexivity|]. rewrite <- app_assoc.
      eapply effect_trans; [exact F1|]. apply effect_silent.
      apply silent_app; [assumption|repeat constructor].
  - exists w, []. split; [reflexivity|apply effect_refl].
Qed.

Lemma deliver_effect (messages : list string) (w : World) :
  exists w' added,
    deliver messages w = (Ok tt, w') /\ effect w w' added.
Proof.
  revert w. induction messages as [|message rest IH]; intros w.
  - exists w, []. split; [reflexivity|apply effect_refl].
  - destruct (on_message_effect message w) as (w1 & a1 & E1 & F1).
    destruct (IH w1) as (w2 & a2 & E2 & F2).
    exists w2, (a1 ++ a2). split.
    + cbn [deliver]. unfold mbind. now rewrite E1.
    + now apply (effect_trans _ w1).
Qed.

(** X14. Over a feed session the counter [message_count] advances by
    exactly the number of sends that Kafka acknowledged (also when the
    progress line that follows a send fails), and the session changes
    nothing else of the producer object. *)
Theorem counter_counts_acknowledged_sends (messages : list string) (w : World) :
  exists added,
    trace (snd (deliver messages w)) = trace w ++ added /\
    message_count (self (snd (deliver messages w))) =
    message_count (self w) + acknowledged (count_sends (trace w)) added /\
    topic (self (snd (deliver messages w))) = topic (self w) /\
    replay_speed (self (snd (deliver messages w))) = replay_speed (self w) /\
    producer (self (snd (deliver messages w))) = producer (self w) /\
    start_time (self (snd (deliver messages w))) = start_time (self w).
Proof.
  destruct (deliver_effect messages w) as (w' & added & -> & -> & _).
  exists added. cbn. repeat split.
Qed.

(** X15. Every record a feed session sends goes to the topic of the
    producer object, with the key that the key serializer makes of the
    symbol of the trade sent; and the session sends no more records than it
    hands trades to [send_to_kafka]. *)
Theorem sends_keyed_by_symbol (messages : list string) (w : World) :
  exists added,
    trace (snd (deliver messages w)) = trace w ++ added /\
    Forall (well_keyed (topic (self w))) added /\
    (count_sends added <= List.length (published added))%nat.
Proof.
  destruct (deliver_effect messages w) as (w' & added & -> & -> & K & P & _).
  exists added. cbn. auto.
Qed.

(** X16. Without a Kafka producer ([self.producer] is [None]) a feed
    session raises nothing, sends nothing and leaves the counter where it
    was. *)
Theorem nothing_sent_without_producer (messages : list string) (w : World) :
  producer (self w) = None ->
  fst (deliver messages w) = Ok tt /\
  count_sends (trace (snd (deliver messages w))) = count_sends (trace w) /\
  message_count (self (snd (deliver messages w))) = message_count (self w).
Proof.
  intros N.
  destruct (deliver_effect messages w) as (w' & added & -> & -> & _ & _ & Z0).
  specialize (Z0 N). cbn [fst snd self trace advanced message_count].
  split; [reflexivity|].
  rewrite count_sends_app, Z0. split; [lia|].
  assert (S0 : acknowledged (count_sends (trace w)) added = 0).
  { clear -Z0. revert Z0. generalize (count_sends (trace w)).
    induction added as [|ev added IH]; intros n Z0; [reflexivity|].
    destruct ev; unfold count_sends in Z0; cbn [filter List.length] in Z0;
      try discriminate; cbn [acknowledged]; now apply IH. }
  rewrite S0. lia.
Qed.

End Effects.

End SessionFacts.

Module StartFacts.
Import PyMore Producer BinanceProducer ProducerFacts Session SessionFacts Start.

Section Loop.
Context {library : Library} {bus : Bus}.

(** ** The pieces of the loop *)

Lemma deliver_ok (messages : list string) (w : World) :
  fst (deliver messages w) = Ok tt.
Proof. destruct (deliver_effect messages w) as (w' & added & -> & _). reflexivity. Qed.

Lemma time_sleep_5 (w : World) :
  time_sleep 5 w = (Ok tt, mkWorld (self w) (trace w ++ [EvSleep 5])).
Proof. reflexivity. Qed.

Lemma sleeps_app (a b : list event) : sleeps (a ++ b) = sleeps a ++ sleeps b.
Proof. apply flat_map_app. Qed.

Lemma sleeps_schedule (tr : list event) : sleeps (schedule tr) = sleeps tr.
Proof.
  unfold sleeps, schedule. induction tr as [|ev tr IH]; [reflexivity|].
  destruct ev; cbn [filter flat_map app]; congruence.
Qed.

Lemma sleeps_attempts (i : nat) :
  sleeps (attempts_with_delays (S i)) = repeat retry_delay i.
Proof.
  induction i as [|i IH]; [reflexivity|].
  rewrite attempts_with_delays_S, sleeps_app, IH. reflexivity.
Qed.

(** What a session adds after its messages when it does not interrupt the
    process: one log line and the sleep of five seconds. *)
Lemma loop_step_calm (url : string) (s : session) (rest : list session) (st : State) :
  uninterrupted s ->
  exists log,
    published [log] = [] /\ sleeps [log] = [] /\
    run_loop url (s :: rest) st =
    run_loop url rest
      (mkState
         (mkWorld (self (snd (deliver (messages s) (world st))))
            (trace (snd (deliver (messages s) (world st))) ++ [log; EvSleep 5]))
         (calls st ++ [RunForever url])).
Proof.
  destruct s as [ms e si]. intros [He Hs]. cbn in He, Hs. subst si.
  cbn [run_loop]. unfold try_body, sleep, logged, run, called.
  cbn [world calls messages how_ends sleep_interrupted fst snd].
  rewrite deliver_ok.
  destruct e as [|e|]; [| |congruence].
  - exists (EvInfo "WebSocket disconnected, reconnecting in 5 seconds...").
    split; [reflexivity|]. split; [reflexivity|].
    rewrite !time_sleep_5. cbn [emit fst snd self trace world calls].
    now rewrite <- app_assoc.
  - exists (EvError "Unexpected error").
    split; [reflexivity|]. split; [reflexivity|].
    cbn [world calls fst snd]. rewrite !time_sleep_5.
    cbn [emit fst snd self trace world calls].
    now rewrite <- app_assoc.
Qed.

(** The sessions of a script that do not interrupt the process are played
    one after the other. *)
Lemma loop_calm (url : string) (calm rest : list session) (st : State) :
  Forall uninterrupted calm ->
  exists w' added,
    run_loop url (calm ++ rest) st =
    run_loop url rest
      (mkState w' (calls st ++ repeat (RunForever url) (List.length calm))) /\
    producer (self w') = producer (self (world st)) /\
    trace w' = trace (world st) ++ added /\
    (List.length calm <= List.length (sleeps added))%nat.
Proof.
  intros H. revert st. induction H as [|s calm Hs _ IH]; intros st.
  - exists (world st), []. cbn. rewrite !app_nil_r. destruct st.
    repeat split. lia.
  - destruct (loop_step_calm url s (calm ++ rest) st Hs) as (log & _ & _ & E).
    cbn [app]. rewrite E.
    destruct (deliver_effect (messages s) (world st)) as (w1 & a1 & D & F).
    rewrite D in *. cbn [snd] in *.
    apply effect_self in F. destruct F as (_ & _ & P1 & _ & T1).
    match goal with
    | |- context [run_loop url (calm ++ rest) ?st1] =>
        destruct (IH st1) as (w' & added & E' & P' & T' & L')
    end.
    cbn [world calls self trace] in *.
    exists w', (a1 ++ [log; EvSleep 5] ++ added).
    split; [|split; [|split]].
    + rewrite E'. cbn [List.length repeat]. now rewrite <- app_assoc.
    + congruence.
    + rewrite T', T1, <- !app_assoc. reflexivity.
    + rewrite !sleeps_app, !length_app.
      destruct log; cbn [sleeps flat_map app List.length]; lia.
Qed.

Lemma loop_calm_published (url : string) (script : list session)
    (labels : list (list (string * option TradeData))) (st : State) :
  Forall uninterrupted script ->
  Forall2 labelled_session script labels ->
  published (trace (world (snd (run_loop url script st)))) =
  published (trace (world st)) ++ flat_map trades labels.
Proof.
  intros H. revert st labels.
  induction H as [|s script Hs _ IH]; intros st labels L;
    inversion L as [|? ms ? labels' [Em Hl] L']; subst.
  - cbn. now rewrite app_nil_r.
  - destruct (loop_step_calm url s script st Hs) as (log & Pl & _ & E).
    rewrite E, (IH _ labels') by assumption.
    cbn [world trace flat_map]. rewrite published_app.
    rewrite Em. destruct (deliver_labelled ms (world st) Hl) as [_ ->].
    assert (P2 : published [log; EvSleep 5] = []).
    { change [log; EvSleep 5] with ([log] ++ [EvSleep 5]).
      rewrite published_app, Pl. reflexivity. }
    rewrite P2, app_nil_r, <- app_assoc. reflexivity.
Qed.

(** ** [connect_kafka] inside [start] *)

Lemma quiet_connect_kafka_loop (attempts : list nat) :
  quiet (connect_kafka_loop attempts).
Proof.
  induction attempts as [|attempt rest IH]; [apply quiet_ret|].
  cbn [connect_kafka_loop].
  apply quiet_bind.
  - apply quiet_try.
    + repeat first
        [ apply quiet_ret | apply quiet_lift | apply quiet_get_self
        | apply quiet_set_self | apply quiet_emit; reflexivity
        | apply quiet_bind; [|intros ?] ].
    + intros e. apply quiet_bind; [apply quiet_emit; reflexivity|intros _].
      destruct (attempt <? max_retries - 1)%nat; [|apply quiet_raise].
      apply quiet_bind; [apply quiet_time_sleep|intros _; apply quiet_ret].
  - intros [b|]; [apply quiet_ret|exact IH].
Qed.

Lemma connect_kafka_reached (i : nat) (w : World) :
  reached_at i ->
  fst (connect_kafka w) = Ok true /\
  producer (self (snd (connect_kafka w))) = Some tt /\
  published (trace (snd (connect_kafka w))) = published (trace w) /\
  sleeps (trace (snd (connect_kafka w))) = sleeps (trace w) ++ repeat retry_delay i.
Proof.
  intros (Hi & Hf & Hok). unfold connect_kafka.
  replace max_retries with (S i + (max_retries - S i))%nat by lia.
  destruct (connect_loop_reached i (max_retries - S i) 0 w) as (R & Sch & P).
  - exact Hi.
  - intros j Hj. apply Hf. lia.
  - exact Hok.
  - split; [exact R|]. split; [exact P|]. split.
    + apply quiet_connect_kafka_loop.
    + rewrite <- sleeps_schedule, Sch, sleeps_app, sleeps_schedule, sleeps_attempts.
      reflexivity.
Qed.

(** [start] once Kafka is reached: the loop runs from a state whose
    producer is set. *)
Lemma start_reached (i : nat) (symbols : list string) (script : list session)
    (st : State) :
  reached_at i ->
  exists w1,
    start symbols script st = run_loop (ws_url symbols) script (mkState w1 (calls st)) /\
    producer (self w1) = Some tt /\
    published (trace w1) = published (trace (world st)) /\
    sleeps (trace w1) = sleeps (trace (world st)) ++ repeat retry_delay i.
Proof.
  intros H. unfold start, logged, run.
  cbn [emit fst snd world calls self trace].
  match goal with
  | |- context [connect_kafka ?w0] =>
      destruct (connect_kafka_reached i w0 H) as (R & P & Pub & Sl)
  end.
  rewrite R. cbn [world calls self trace] in *.
  eexists. split; [reflexivity|]. cbn [self trace].
  split; [exact P|]. split.
  - rewrite !published_app, Pub, !published_app. cbn. now rewrite !app_nil_r.
  - rewrite !sleeps_app, Sl, !sleeps_app. cbn. now rewrite !app_nil_r.
Qed.

(** X17. When Kafka cannot be reached, [start] is left by the error of the
    last connection attempt before any WebSocket session: [run_forever] is
    never called, and neither are [flush] and [close]. *)
Theorem start_stops_when_kafka_unreachable (symbols : list string)
    (script : list session) (st : State) :
  (forall attempt, exists e, KafkaProducer_new attempt = Raise e) ->
  exists e,
    KafkaProducer_new (max_retries - 1) = Raise e /\
    fst (start symbols script st) = Propagated (Exception e) /\
    calls (snd (start symbols script st)) = calls st.
Proof.
  intros H. unfold start, logged, run.
  cbn [emit fst snd world calls self trace].
  match goal with
  | |- context [connect_kafka ?w0] =>
      destruct (connect_loop_exhausted 9 0 w0 eq_refl H) as (e & E & R & _)
  end.
  exists e. split; [exact E|].
  unfold connect_kafka. change (seq 0 max_retries) with (seq 0 10).
  rewrite R. split; reflexivity.
Qed.

(** X18. Once Kafka is reached, [start] does not leave its loop by itself:
    as long as no session interrupts the process, whether [run_forever]
    returns or raises, [start] is still running; it has called
    [run_forever] once for each session, always with the same URL, has
    slept at least once for each, and has called neither [flush] nor
    [close]. *)
Theorem start_reconnects_after_every_session (i : nat) (symbols : list string)
    (script : list session) (st : State) :
  reached_at i ->
  Forall uninterrupted script ->
  fst (start symbols script st) = Running /\
  calls (snd (start symbols script st)) =
  calls st ++ repeat (RunForever (ws_url symbols)) (List.length script) /\
  exists pauses,
    sleeps (trace (world (snd (start symbols script st)))) =
    sleeps (trace (world st)) ++ repeat retry_delay i ++ pauses /\
    (List.length script <= List.length pauses)%nat.
Proof.
  intros Hr Hc.
  destruct (start_reached i symbols script st Hr) as (w1 & -> & _ & _ & Sl).
  destruct (loop_calm (ws_url symbols) script [] (mkState w1 (calls st)) Hc)
    as (w' & added & E & _ & T & L).
  rewrite app_nil_r in E. rewrite E. cbn [run_loop fst snd world calls trace] in *.
  split; [reflexivity|]. split; [reflexivity|].
  exists (sleeps added). rewrite T, sleeps_app, Sl, <- app_assoc.
  split; [reflexivity|exact L].
Qed.

(** X19. An interruption inside the [try] (in [run_forever], or in the
    sleep after a disconnection) ends [start] in order: after the sessions
    before it and the interrupted one, [start] flushes and closes the Kafka
    producer, once, and returns; later sessions are not played. *)
Theorem interrupt_returns_after_cleanup (i : nat) (symbols : list string)
    (calm : list session) (s : session) (rest : list session) (st : State) :
  reached_at i ->
  Forall uninterrupted calm ->
  interrupted_in_try s ->
  fst (start symbols (calm ++ s :: rest) st) = Returned /\
  calls (snd (start symbols (calm ++ s :: rest) st)) =
  calls st ++ repeat (RunForever (ws_url symbols)) (S (List.length calm))
           ++ [Flush; Close].
Proof.
  intros Hr Hc Hi.
  destruct (start_reached i symbols (calm ++ s :: rest) st Hr) as (w1 & -> & P1 & _).
  destruct (loop_calm (ws_url symbols) calm (s :: rest) (mkState w1 (calls st)) Hc)
    as (w' & added & -> & P' & _).
  cbn [world calls] in *.
  assert (P2 : producer (self (snd (deliver (messages s) w'))) = Some tt).
  { destruct (deliver_effect (messages s) w') as (w2 & a2 & -> & F).
    apply effect_self in F. cbn [snd]. destruct F as (_ & _ & -> & _). congruence. }
  assert (R : repeat (RunForever (ws_url symbols)) (S (List.length calm))
              = repeat (RunForever (ws_url symbols)) (List.length calm)
                ++ [RunForever (ws_url symbols)]).
  { clear. induction (List.length calm) as [|n IH]; [reflexivity|].
    cbn [repeat app] in *. now rewrite <- IH. }
  rewrite R.
  cbn [run_loop]. unfold try_body, sleep, logged, run, called, cleanup.
  cbn [world calls fst snd]. rewrite deliver_ok.
  destruct s as [ms e si]. cbn [messages how_ends sleep_interrupted] in *.
  destruct Hi as [Hi|[Hi Hs]]; cbn in Hi; subst.
  - cbn [emit fst snd world calls self trace]. rewrite P2.
    cbn [fst snd calls world]. split; [reflexivity|].
    unfold called. cbn [calls world]. now rewrite <- !app_assoc.
  - cbn in Hs. subst si.
    cbn [emit fst snd world calls self trace]. rewrite P2.
    cbn [fst snd calls world]. split; [reflexivity|].
    unfold called. cbn [calls world]. now rewrite <- !app_assoc.
Qed.

(** X20. An interruption during the sleep in the handler of
    [except Exception] is not caught by [except KeyboardInterrupt] of the
    same [try]: the [KeyboardInterrupt] leaves [start], and the Kafka
    producer is neither flushed nor closed. *)
Theorem interrupt_in_handler_skips_cleanup (i : nat) (symbols : list string)
    (calm : list session) (s : session) (rest : list session) (st : State) :
  reached_at i ->
  Forall uninterrupted calm ->
  interrupted_in_handler s ->
  fst (start symbols (calm ++ s :: rest) st) = Propagated KeyboardInterrupt /\
  calls (snd (start symbols (calm ++ s :: rest) st)) =
  calls st ++ repeat (RunForever (ws_url symbols)) (S (List.length calm)).
Proof.
  intros Hr Hc Hi.
  destruct (start_reached i symbols (calm ++ s :: rest) st Hr) as (w1 & -> & P1 & _).
  destruct (loop_calm (ws_url symbols) calm (s :: rest) (mkState w1 (calls st)) Hc)
    as (w' & added & -> & P' & _).
  cbn [world calls] in *.
  assert (R : repeat (RunForever (ws_url symbols)) (S (List.length calm))
              = repeat (RunForever (ws_url symbols)) (List.length calm)
                ++ [RunForever (ws_url symbols)]).
  { clear. induction (List.length calm) as [|n IH]; [reflexivity|].
    cbn [repeat app] in *. now rewrite <- IH. }
  rewrite R.
  cbn [run_loop]. unfold try_body, sleep, logged, run, called.
  cbn [world calls fst snd]. rewrite deliver_ok.
  destruct s as [ms e si]. cbn [messages how_ends sleep_interrupted] in *.
  destruct Hi as [(e' & He) Hs]; cbn in He, Hs; subst.
  cbn [emit fst snd world calls self trace]. split; [reflexivity|].
  now rewrite <- !app_assoc.
Qed.

(** X21. Reconnecting loses no trade and repeats none: over any number of
    sessions that do not interrupt the process, the trades handed to
    [send_to_kafka] are the trades the messages of the sessions decode to,
    session after session, each in the order of its messages. *)
Theorem trades_accumulate_across_sessions (i : nat) (symbols : list string)
    (script : list session) (labels : list (list (string * option TradeData)))
    (st : State) :
  reached_at i ->
  Forall uninterrupted script ->
  Forall2 labelled_session script labels ->
  published (trace (world (snd (start symbols script st)))) =
  published (trace (world st)) ++ flat_map trades labels.
Proof.
  intros Hr Hc Hl.
  destruct (start_reached i symbols script st Hr) as (w1 & -> & _ & Pub & _).
  rewrite (loop_calm_published _ _ labels) by assumption.
  cbn [world]. now rewrite Pub.
Qed.

End Loop.

(** ** The properties on the reference library and buses *)

Import Reference.

Lemma reliable_bus_reached : reached_at (bus := reliable_bus) 0.
Proof.
  split; [unfold max_retries; lia|]. split; [intros j Hj; lia|reflexivity].
Defined.

Lemma two_sessions_uninterrupted : Forall uninterrupted two_sessions.
Proof. repeat constructor; discriminate. Defined.

Lemma nothing_sent_without_producer_witness :
  fst (deliver (library := library) (bus := reliable_bus) [agg_trade_message] fresh)
  = Ok tt /\
  count_sends
    (trace (snd (deliver (library := library) (bus := reliable_bus)
                   [agg_trade_message] fresh)))
  = count_sends (trace fresh) /\
  message_count
    (self (snd (deliver (library := library) (bus := reliable_bus)
                  [agg_trade_message] fresh)))
  = message_count (self fresh).
Proof.
  apply (@nothing_sent_without_producer library reliable_bus [agg_trade_message] fresh).
  reflexivity.
Defined.

Lemma start_stops_when_kafka_unreachable_witness :
  exists e,
    KafkaProducer_new (Bus := unreachable_bus) (max_retries - 1) = Raise e /\
    fst (start (library := library) (bus := unreachable_bus) ["BTCUSDT"] two_sessions
           (mkState fresh []))
    = Propagated (Exception e) /\
    calls (snd (start (library := library) (bus := unreachable_bus) ["BTCUSDT"]
                  two_sessions (mkState fresh [])))
    = calls (mkState fresh []).
Proof.
  apply (@start_stops_when_kafka_unreachable library unreachable_bus ["BTCUSDT"]
           two_sessions (mkState fresh [])).
  intros attempt. exists KafkaError. reflexivity.
Defined.

Lemma start_reconnects_after_every_session_witness :
  fst (start (library := library) (bus := reliable_bus) ["BTCUSDT"; "ETHUSDT"]
         two_sessions (mkState fresh []))
  = Running /\
  calls (snd (start (library := library) (bus := reliable_bus) ["BTCUSDT"; "ETHUSDT"]
                two_sessions (mkState fresh [])))
  = calls (mkState fresh [])
    ++ repeat (RunForever (ws_url ["BTCUSDT"; "ETHUSDT"])) (List.length two_sessions) /\
  exists pauses,
    sleeps (trace (world (snd (start (library := library) (bus := reliable_bus)
                                 ["BTCUSDT"; "ETHUSDT"] two_sessions
                                 (mkState fresh [])))))
    = sleeps (trace (world (mkState fresh []))) ++ repeat retry_delay 0 ++ pauses /\
    (List.length two_sessions <= List.length pauses)%nat.
Proof.
  apply (@start_reconnects_after_every_session library reliable_bus 0
           ["BTCUSDT"; "ETHUSDT"] two_sessions (mkState fresh [])).
  - exact reliable_bus_reached.
  - exact two_sessions_uninterrupted.
Defined.

Lemma interrupt_returns_after_cleanup_witness :
  fst (start (library := library) (bus := reliable_bus) ["BTCUSDT"]
         (two_sessions ++ mkSession [] Interrupted false :: two_sessions)
         (mkState fresh []))
  = Returned /\
  calls (snd (start (library := library) (bus := reliable_bus) ["BTCUSDT"]
                (two_sessions ++ mkSession [] Interrupted false :: two_sessions)
                (mkState fresh [])))
  = calls (mkState fresh [])
    ++ repeat (RunForever (ws_url ["BTCUSDT"])) (S (List.length two_sessions))
    ++ [Flush; Close].
Proof.
  apply (@interrupt_returns_after_cleanup library reliable_bus 0 ["BTCUSDT"]
           two_sessions (mkSession [] Interrupted false) two_sessions
           (mkState fresh [])).
  - exact reliable_bus_reached.
  - exact two_sessions_uninterrupted.
  - left. reflexivity.
Defined.

Lemma interrupt_in_handler_skips_cleanup_witness :
  fst (start (library := library) (bus := reliable_bus) ["BTCUSDT"]
         (two_sessions ++ mkSession [] (Failed OSError) true :: two_sessions)
         (mkState fresh []))
  = Propagated KeyboardInterrupt /\
  calls (snd (start (library := library) (bus := reliable_bus) ["BTCUSDT"]
                (two_sessions ++ mkSession [] (Failed OSError) true :: two_sessions)
                (mkState fresh [])))
  = calls (mkState fresh [])
    ++ repeat (RunForever (ws_url ["BTCUSDT"])) (S (List.length two_sessions)).
Proof.
  apply (@interrupt_in_handler_skips_cleanup library reliable_bus 0 ["BTCUSDT"]
           two_sessions (mkSession [] (Failed OSError) true) two_sessions
           (mkState fresh [])).
  - exact reliable_bus_reached.
  - exact two_sessions_uninterrupted.
  - split; [now exists OSError|reflexivity].
Defined.

Lemma trades_accumulate_across_sessions_witness :
  published
    (trace (world (snd (start (library := library) (bus := reliable_bus) ["BTCUSDT"]
                          (two_sessions ++ two_sessions) (mkState fresh [])))))
  = published (trace (world (mkState fresh [])))
    ++ flat_map trades
         [ [(agg_trade_message, Some agg_trade); (truncated_message, None)]; [];
           [(agg_trade_message, Some agg_trade); (truncated_message, None)]; [] ].
Proof.
  apply (@trades_accumulate_across_sessions library reliable_bus 0 ["BTCUSDT"]
           (two_sessions ++ two_sessions)).
  - exact reliable_bus_reached.
  - apply Forall_app. split; exact two_sessions_uninterrupted.
  - assert (L : labelled (library := library)
                  (agg_trade_message, Some agg_trade)).
    { apply valid_agg_trade_decodes, agg_trade_message_valid. }
    assert (D : labelled (library := library) (truncated_message, None)).
    { apply malformed_dropped, truncated_message_malformed. }
    repeat (apply Forall2_cons || apply Forall2_nil);
      (split; [reflexivity|]);
      repeat (apply Forall_cons || apply Forall_nil); assumption.
Defined.

(** The URL of the default symbols, in lower case. *)
Example ws_url_of_default_symbols :
  ws_url ["BTCUSDT"; "ETHUSDT"; "USDTUSDT"]
  = "wss://stream.binance.com:9443/stream?streams=btcusdt@aggTrade/ethusdt@aggTrade/usdtusdt@aggTrade".
Proof. reflexivity. Qed.

End StartFacts.

(* ================================================================== *)
(** * Part XII. Properties of the search for files                    *)
(* ================================================================== *)

Module SearchFacts.
Import DataLoader DataLoaderFacts Search.

Lemma path_compare_antisym (p q : Path) :
  path_compare p q = CompOpp (path_compare q p).
Proof.
  revert q. induction p as [|a p IH]; intros [|b q]; cbn; try reflexivity.
  rewrite (String.compare_antisym a b).
  destruct (String.compare b a); cbn; auto.
Qed.

Lemma path_le_total (p q : Path) : path_le p q = false -> path_le q p = true.
Proof.
  unfold path_le. rewrite (path_compare_antisym q p).
  destruct (path_compare p q); cbn; congruence.
Qed.

Lemma insert_path_ascending (f : Path) (l : list Path) :
  ascending_paths l -> ascending_paths (insert_path f l).
Proof.
  unfold ascending_paths.
  induction 1 as [|g l Hl IH Hg]; simpl; [repeat constructor|].
  destruct (path_le f g) eqn:B.
  - constructor; [now constructor|]. now constructor.
  - constructor; [assumption|].
    destruct l as [|h l]; simpl.
    + constructor. now apply path_le_total.
    + destruct (path_le f h); constructor.
      * now apply path_le_total.
      * now inversion Hg.
Qed.

Lemma sorted_ascending (files : list Path) : ascending_paths (sorted files).
Proof.
  induction files as [|f files IH]; simpl; [constructor|].
  now apply insert_path_ascending.
Qed.

Lemma in_sorted (files : list Path) (f : Path) : In f (sorted files) <-> In f files.
Proof.
  split; apply Permutation_in; [apply Permutation_sym|]; apply sorted_perm.
Qed.

Section Files.
Context {V : Type} {storage : Storage V}.

(** X22. [_find_parquet_files] returns its files in ascending order of
    path; they are the parquet files below the directory of the data type
    whose path contains [symbol=<symbol>] and [date=<date_filter>], for the
    filters that are given and not empty; for a data type other than
    ["ohlc"] and ["volatility"] it returns no file. *)
Theorem find_parquet_files_selection (self : t) (data_type : string)
    (symbol date_filter : option string) :
  ascending_paths (_find_parquet_files self data_type symbol date_filter) /\
  (forall f,
     In f (_find_parquet_files self data_type symbol date_filter) <->
     (exists base, base_dir self data_type = Some base /\
                   In f (glob base "**/*.parquet")) /\
     path_matches symbol f = true /\
     date_matches date_filter f = true) /\
  (base_dir self data_type = None ->
   _find_parquet_files self data_type symbol date_filter = []).
Proof.
  assert (G : forall base,
             let files :=
               sorted
                 match date_filter with
                 | Some d =>
                     if truthy_str date_filter
                     then filter (fun f => str_contains ("date=" ++ d)%string (path_str f))
                            match symbol with
                            | Some s =>
                                if truthy_str symbol
                                then filter (fun f => str_contains ("symbol=" ++ s)%string
                                                        (path_str f))
                                       (glob base "**/*.parquet")
                                else glob base "**/*.parquet"
                            | None => glob base "**/*.parquet"
                            end
                     else match symbol with
                          | Some s =>
                              if truthy_str symbol
                              then filter (fun f => str_contains ("symbol=" ++ s)%string
                                                      (path_str f))
                                     (glob base "**/*.parquet")
                              else glob base "**/*.parquet"
                          | None => glob base "**/*.parquet"
                          end
                 | None => match symbol with
                           | Some s =>
                               if truthy_str symbol
                               then filter (fun f => str_contains ("symbol=" ++ s)%string
                                                       (path_str f))
                                      (glob base "**/*.parquet")
                               else glob base "**/*.parquet"
                           | None => glob base "**/*.parquet"
                           end
                 end in
             ascending_paths files /\
             forall f, In f files <->
                       In f (glob base "**/*.parquet") /\
                       path_matches symbol f = true /\
                       date_matches date_filter f = true).
  { intros base files. split; [apply sorted_ascending|].
    intros f. unfold files. rewrite in_sorted.
    unfold path_matches, date_matches.
    destruct date_filter as [d|]; [destruct (truthy_str (Some d))|];
      (destruct symbol as [s|]; [destruct (truthy_str (Some s))|]);
      rewrite ?filter_In; tauto. }
  unfold _find_parquet_files, base_dir.
  destruct (data_type =? "ohlc")%string.
  - destruct (G (ohlc_dir self)) as [A M]. split; [exact A|]. split.
    + intros f. rewrite (M f). split.
      * intros (H1 & H2 & H3). split; [|tauto]. now exists (ohlc_dir self).
      * intros ((base & [= <-] & H1) & H2 & H3). tauto.
    + discriminate.
  - destruct (data_type =? "volatility")%string.
    + destruct (G (vol_dir self)) as [A M]. split; [exact A|]. split.
      * intros f. rewrite (M f). split.
        -- intros (H1 & H2 & H3). split; [|tauto]. now exists (vol_dir self).
        -- intros ((base & [= <-] & H1) & H2 & H3). tauto.
      * discriminate.
    + split; [constructor|]. split; [|reflexivity].
      intros f. split; [intros []|]. intros ((base & [=] & _) & _).
Qed.

End Files.

End SearchFacts.

(* ================================================================== *)
(** * Part XIII. More properties of [connect_kafka] and [on_message]  *)
(* ================================================================== *)

Module ConnectFacts.
Import Producer BinanceProducer ProducerFacts Session SessionFacts Start StartFacts.

Section Connect.
Context {library : Library} {bus : Bus}.

(** [connect_kafka] sets [self.producer] and nothing else of the object. *)
Lemma connect_loop_frame (attempts : list nat) (w : World) :
  topic (self (snd (connect_kafka_loop attempts w))) = topic (self w) /\
  replay_speed (self (snd (connect_kafka_loop attempts w))) = replay_speed (self w) /\
  message_count (self (snd (connect_kafka_loop attempts w))) = message_count (self w) /\
  start_time (self (snd (connect_kafka_loop attempts w))) = start_time (self w).
Proof.
  revert w. induction attempts as [|attempt rest IH]; intros w; [cbn; auto|].
  destruct (KafkaProducer_new attempt) as [[]|e] eqn:E.
  - rewrite (connect_step_success _ _ _ E). cbn. auto.
  - rewrite (connect_step_failure _ _ _ _ E).
    destruct (attempt <? max_retries - 1)%nat; [|cbn; auto].
    destruct (IH (mkWorld (self w)
                    (((trace w ++ [EvConnect]) ++ [EvError "Attempt failed"])
                       ++ [EvSleep retry_delay]))) as (H1 & H2 & H3 & H4).
    cbn [self] in *. auto.
Qed.

(** X23. When the construction of the Kafka producer succeeds at attempt
    [i] (counted from 0, below 10) and fails at every attempt before,
    [connect_kafka] returns [True] after exactly [i + 1] attempts with a
    sleep of 5 seconds after each of the [i] failed ones; it sets
    [self.producer], changes nothing else of the object, and hands no
    trade to [send_to_kafka]. *)
Theorem connect_kafka_stops_at_first_success (i : nat) (w : World) :
  (i < 10)%nat ->
  (forall j, (j < i)%nat -> exists e, KafkaProducer_new j = Raise e) ->
  KafkaProducer_new i = Ok tt ->
  fst (connect_kafka w) = Ok true /\
  schedule (trace (snd (connect_kafka w)))
  = schedule (trace w)
    ++ EvConnect :: List.concat (repeat [EvSleep 5; EvConnect] i) /\
  sleeps (trace (snd (connect_kafka w)))
  = sleeps (trace w) ++ repeat 5%float i /\
  self (snd (connect_kafka w))
  = mkProducer (topic (self w)) (replay_speed (self w)) (Some tt)
      (message_count (self w)) (start_time (self w)) /\
  published (trace (snd (connect_kafka w))) = published (trace w).
Proof.
  intros Hi Hf Hok.
  pose proof (connect_loop_frame (seq 0 max_retries) w) as (F1 & F2 & F3 & F4).
  pose proof (quiet_connect_kafka_loop (seq 0 max_retries) w) as Q.
  unfold connect_kafka.
  assert (M : max_retries = (S i + (max_retries - S i))%nat)
    by (unfold max_retries; lia).
  destruct (connect_loop_reached i (max_retries - S i) 0 w) as (R & Sch & P).
  - unfold max_retries. lia.
  - intros j Hj. apply Hf. lia.
  - exact Hok.
  - rewrite <- M in R, Sch, P.
    split; [exact R|]. split; [exact Sch|]. split; [|split; [|exact Q]].
    + rewrite <- sleeps_schedule, Sch, sleeps_app, sleeps_schedule.
      f_equal. clear. cbn [attempts_with_delays sleeps flat_map app].
      induction i as [|i IH]; [reflexivity|].
      cbn [repeat List.concat app flat_map]. now rewrite IH.
    + destruct (self (snd (connect_kafka_loop (seq 0 max_retries) w))).
      cbn in *. congruence.
Qed.

(** X24. A message that parses to a JSON object of another kind (no key
    [e], or an [e] other than ['aggTrade']) is ignored without a trace:
    [on_message] returns and leaves the producer and its log as they
    were. *)
Theorem other_object_ignored_silently (message : string)
    (items : list (string * json)) (w : World) :
  json_loads message = Ok (JDict items) ->
  dict_get items "e" <> Some (JStr "aggTrade") ->
  on_message message w = (Ok tt, w).
Proof.
  intros E N. unfold on_message, try_except, mbind, lift. rewrite E.
  assert (A : is_agg_trade (JDict items) = Ok false).
  { destruct (is_agg_trade (JDict items)) as [[|]|e] eqn:T.
    - apply is_agg_trade_true_iff in T. destruct T as (items' & [= <-] & T).
      contradiction.
    - reflexivity.
    - unfold is_agg_trade in T. cbn in T.
      destruct (dict_get items "e"); cbn in T; discriminate. }
  rewrite A. reflexivity.
Qed.

(** ** The throttle *)

Lemma logs_no_sleep (logs : list event) : Forall is_log logs -> sleeps logs = [].
Proof.
  induction 1 as [|ev logs Hev _ IH]; [reflexivity|].
  destruct ev; cbn in Hev; try contradiction; exact IH.
Qed.

Lemma send_to_kafka_no_sleep (trade_data : TradeData) (w : World) :
  fst (send_to_kafka trade_data w) = Ok tt /\
  sleeps (trace (snd (send_to_kafka trade_data w))) = sleeps (trace w) /\
  replay_speed (self (snd (send_to_kafka trade_data w))) = replay_speed (self w).
Proof.
  destruct (send_to_kafka_cases trade_data w)
    as (c & added & -> & [(_ & Hs)|(k & logs & _ & _ & -> & Hs & _)]);
    cbn [fst snd self trace replay_speed];
    (split; [reflexivity|]); (split; [|reflexivity]);
    rewrite sleeps_app; apply logs_no_sleep in Hs;
    unfold sleeps in *; cbn [flat_map app]; rewrite Hs; apply app_nil_r.
Qed.

Lemma throttle_full_speed (w : World) :
  PrimFloat.ltb (replay_speed (self w)) 1 = false -> throttle w = (Ok tt, w).
Proof.
  intros H. unfold throttle, mbind, get_self. now rewrite H.
Qed.

Lemma on_message_no_sleep (message : string) (w : World) :
  PrimFloat.ltb (replay_speed (self w)) 1 = false ->
  sleeps (trace (snd (on_message message w))) = sleeps (trace w) /\
  replay_speed (self (snd (on_message message w))) = replay_speed (self w).
Proof.
  intros H.
  assert (L : sleeps (trace (snd (emit (EvError "Error processing message") w)))
              = sleeps (trace w) /\
              replay_speed (self (snd (emit (EvError "Error processing message") w)))
              = replay_speed (self w)).
  { cbn. rewrite sleeps_app. cbn. now rewrite app_nil_r. }
  unfold on_message, try_except, mbind, lift.
  destruct (json_loads message) as [data|e]; [|exact L].
  destruct (is_agg_trade data) as [[|]|e]; [| |exact L].
  - destruct (normalize data) as [trade_data|e]; [|exact L].
    destruct (send_to_kafka_no_sleep trade_data w) as (S1 & S2 & S3).
    destruct (send_to_kafka trade_data w) as [r w1]. cbn [fst snd] in *. subst r.
    rewrite throttle_full_speed by congruence. cbn [snd]. auto.
  - cbn. auto.
Qed.

(** X25. At full speed ([replay_speed] not below 1, as by default) a feed
    session never sleeps: the throttle after a trade does nothing. *)
Theorem no_pause_at_full_speed (messages : list string) (w : World) :
  PrimFloat.ltb (replay_speed (self w)) 1 = false ->
  sleeps (trace (snd (deliver messages w))) = sleeps (trace w).
Proof.
  revert w. induction messages as [|message rest IH]; intros w H; [reflexivity|].
  cbn [deliver]. unfold mbind.
  destruct (on_message_no_sleep message w H) as (S1 & S2).
  pose proof (on_message_ok message w) as Hok.
  destruct (on_message message w) as [r w1]. cbn [fst snd] in *. subst r.
  rewrite IH by congruence. exact S1.
Qed.

End Connect.

Import Reference.

Lemma connect_kafka_stops_at_first_success_witness :
  fst (connect_kafka (bus := slow_bus) fresh) = Ok true /\
  schedule (trace (snd (connect_kafka (bus := slow_bus) fresh)))
  = schedule (trace fresh)
    ++ EvConnect :: List.concat (repeat [EvSleep 5; EvConnect] 3) /\
  sleeps (trace (snd (connect_kafka (bus := slow_bus) fresh)))
  = sleeps (trace fresh) ++ repeat 5%float 3 /\
  self (snd (connect_kafka (bus := slow_bus) fresh))
  = mkProducer (topic (self fresh)) (replay_speed (self fresh)) (Some tt)
      (message_count (self fresh)) (start_time (self fresh)) /\
  published (trace (snd (connect_kafka (bus := slow_bus) fresh)))
  = published (trace fresh).
Proof.
  apply (@connect_kafka_stops_at_first_success slow_bus 3 fresh).
  - lia.
  - intros j Hj. exists KafkaError.
    destruct j as [|[|[|j]]]; [reflexivity|reflexivity|reflexivity|lia].
  - reflexivity.
Defined.

Lemma other_object_ignored_silently_witness :
  on_message (library := library) (bus := reliable_bus) Start.other_message connected
  = (Ok tt, connected).
Proof.
  apply (@other_object_ignored_silently library reliable_bus Start.other_message
           [("e", JStr "trade"); ("s", JStr "BTCUSDT")] connected).
  - vm_compute. reflexivity.
  - discriminate.
Defined.

Lemma no_pause_at_full_speed_witness :
  sleeps (trace (snd (deliver (library := library) (bus := reliable_bus)
                        [agg_trade_message; truncated_message; agg_trade_message]
                        connected)))
  = sleeps (trace connected).
Proof.
  apply (@no_pause_at_full_speed library reliable_bus
           [agg_trade_message; truncated_message; agg_trade_message] connected).
  reflexivity.
Defined.

End ConnectFacts.
